(** * CIP-68 course tokens: the transaction builder and its HTTP handlers

    A shallow embedding of [src/adapters/mesh.adapter.ts] (the chain access
    adapter), of the [MeshTxBuilder] class that extends it
    ([txbuilders/mesh.txbuilder]: mint, update, burn) and of the [mint] and
    [batchMint] handlers of [src/controllers/contract.controller.ts].

    - JavaScript numbers are IEEE-754 binary64 values, taken from the
      Standard Library's executable specification [SpecFloat].
    - The fluent, stateful transaction builder of the SDK is a log of the
      calls made on it, threaded through a state-and-exception monad that
      keeps the log when an [Error] is thrown.
    - The functions of the SDK, of the CBOR decoder and the two string/number
      conversions of the language are the fields of the class [Externals];
      every theorem holds for all of them.  [Ref] gives one executable
      instance, used to run the model on concrete inputs.
    - The chain (what the provider answers) and the wallet are read-only
      records: a call sees one snapshot of both.
    - The callbacks of a [Promise.all] each run to their end in one piece
      once their lookups have answered, in an order the network decides.  The
      operations take that order as an argument and the theorems hold for
      every order; the first callback to throw is the error of the call. *)

From Stdlib Require Import ZArith Lia Bool List String Ascii Zpower Permutation.
From Stdlib Require Import SpecFloat DecimalString DecimalZ.
Import ListNotations.
Set Warnings "-register-all".
Open Scope string_scope.
Open Scope list_scope.
Open Scope Z_scope.

(** String concatenation, the [+] of the source on strings. *)
Infix "+++" := String.append (at level 60, right associativity).

(* ================================================================= *)
(** * Part I: definitions *)
(* ================================================================= *)

(** ** JavaScript numbers *)

Definition jsnum : Type := spec_float.
Definition prec : Z := 53.
Definition emax : Z := 1024.

(** The double nearest to an integer (ties to even), as a numeric literal
    denotes it. *)
Definition ofZ (z : Z) : jsnum := binary_normalize prec emax z 0 false.
(** [x + y] on numbers. *)
Definition jsAdd (x y : jsnum) : jsnum := SFadd prec emax x y.
(** Unary minus. *)
Definition jsNeg (x : jsnum) : jsnum := SFopp x.
(** [Math.abs]; used only to phrase "magnitude". *)
Definition jsAbs (x : jsnum) : jsnum := SFabs x.
(** [x === y] on numbers: [NaN] differs from itself, [-0 === 0]. *)
Definition jsStrictEq (x y : jsnum) : bool := SFeqb x y.
(** [x < y] on numbers. *)
Definition jsLt (x y : jsnum) : bool := SFltb x y.
(** The number [0] of the source text. *)
Definition jsZero : jsnum := S754_zero false.

(** The integer a double stands for, when it is one. *)
Definition toZ (x : jsnum) : option Z :=
  match x with
  | S754_zero _ => Some 0
  | S754_finite s m e =>
      if 0 <=? e then Some (cond_Zopp s (Zpos m * 2 ^ e))
      else if (Zpos m mod 2 ^ (- e)) =? 0 then Some (cond_Zopp s (Zpos m / 2 ^ (- e)))
      else None
  | _ => None
  end.

(** [Number.MAX_SAFE_INTEGER + 1]. *)
Definition two53 : Z := 9007199254740992.
Definition safeInt (z : Z) : Prop := - two53 <= z <= two53.

(** ** Canonical doubles of integers (used by the facts on numbers) *)

(** A shift record with no rounding bits set. *)
Definition exactRec (m : positive) : shr_record :=
  {| shr_m := Zpos m; shr_r := false; shr_s := false |}.

(** A normal binary64 mantissa and exponent. *)
Definition canonical53 (m : positive) (e : Z) : Prop :=
  Zpos (digits2_pos m) = 53 /\ -1074 <= e <= 971.

(** [m * 2^e = v] for a positive integer [v <= 2^53]. *)
Definition reprOf (m : positive) (e : Z) (v : Z) : Prop :=
  (e <= 0 /\ Zpos m = v * 2 ^ (- e)) \/ (e = 1 /\ v = 2 * Zpos m).

(** ** Thrown errors *)

Inductive result (A : Type) : Type :=
| Ok (a : A)
| Err (message : string).
Arguments Ok {A} a.
Arguments Err {A} message.

Definition isErr {A} (r : result A) : bool :=
  match r with Ok _ => false | Err _ => true end.

(** ** Chain data, as the SDK types have it *)

Record Asset := { asset_unit : string; asset_quantity : string }.
Record TxInput := { txHash : string; outputIndex : Z }.
Record TxOutput := { address : string; amount : list Asset; plutusData : option string }.
Record UTxO := { input : TxInput; output : TxOutput }.

(** Plutus data handed to the builder ([Data] of the SDK). *)
Inductive Data : Type :=
| DStr (s : string)
| DInt (z : Z)
| DList (l : list Data)
| DMap (m : list (Data * Data))
| DConstr (alternative : Z) (fields : list Data).

Definition mConStr0 (fields : list Data) : Data := DConstr 0 fields.
Definition mConStr1 (fields : list Data) : Data := DConstr 1 fields.

(** What [cbor.decodeFirst] yields; [CborBytes] is a [Buffer]. *)
Inductive cbor : Type :=
| CborBytes (b : string)
| CborInt (z : Z)
| CborArray (l : list cbor)
| CborMap (m : list (cbor * cbor))
| CborTagged (tag : Z) (value : cbor).

(** [Record<string, string>]: own keys in insertion order. *)
Definition Metadata : Type := list (string * string).

Record DeserializedAddress := {
  pubKeyHash : string;
  stakeCredentialHash : string;
  scriptHash : string
}.

Record Validator := { title : string; compiledCode : string }.
Record Plutus := { validators : list Validator }.

(** ** The calls made on the transaction builder *)

Inductive Action : Type :=
| MintPlutusScriptV3
| Mint (quantity policy name : string)
| MintingScript (code : string)
| MintRedeemerValue (redeemer : Data)
| SpendingPlutusScriptV3
| TxIn (hash : string) (index : Z)
| TxInInlineDatumPresent
| TxInRedeemerValue (redeemer : Data)
| TxInScript (code : string)
| TxOut (addr : string) (assets : list Asset)
| TxOutInlineDatumValue (datum : Data)
| ChangeAddress (addr : string)
| RequiredSignerHash (hash : string)
| SelectUtxosFrom (utxos : list UTxO)
| TxInCollateral (hash : string) (index : Z) (amt : list Asset) (addr : string)
| SetNetwork (network : string)
| Complete.

(** ** What the code takes from outside *)

Class Externals : Type := {
  (** [Number(s)] and [String(n)] *)
  js_Number : string -> jsnum;
  js_String : jsnum -> string;
  (** @meshsdk/core *)
  stringToHex : string -> string;
  CIP68_100 : string -> string;
  CIP68_222 : string -> string;
  deserializeAddress : string -> DeserializedAddress;
  metadataToCip68 : Metadata -> Data;
  applyParamsToScript : string -> list string -> string;
  serializePlutusScript_address : string -> Z -> string;
  scriptAddress : string -> string -> string;
  serializeAddressObj : string -> Z -> string;
  resolveScriptHash : string -> string;
  (** [unsignedTx.complete()] on the calls made so far *)
  completeTx : list Action -> result string;
  (** how a datum given to the builder reads back from the chain *)
  serializeData : Data -> string;
  (** [cbor.decodeFirst(Buffer.from(datum, 'hex'))] *)
  decodeFirst : string -> result cbor;
  (** [Buffer.prototype.toString('hex')] *)
  bufferToHex : string -> string;
  (** constants and the compiled contract descriptor *)
  plutus : Plutus;
  title_store : string;
  title_mint : string;
  APP_NETWORK_ID : Z;
  APP_NETWORK : string
}.

(** The provider: [fetchAddressUTxOs(address, unit?)]. *)
Record Fetcher := {
  fetchAddressUTxOs : string -> option string -> list UTxO
}.

(** The wallet; [None] is a missing answer. *)
Record MeshWallet := {
  getUtxos : option (list UTxO);
  getCollateral : option (list UTxO);
  getChangeAddress : string
}.

(** ** The builder monad: a log of calls, kept when an error is thrown *)

Definition TxM (A : Type) : Type := list Action -> result A * list Action.

Definition ret {A} (a : A) : TxM A := fun log => (Ok a, log).
Definition throw {A} (message : string) : TxM A := fun log => (Err message, log).
Definition bind {A B} (m : TxM A) (k : A -> TxM B) : TxM B :=
  fun log =>
    match m log with
    | (Ok a, log') => k a log'
    | (Err e, log') => (Err e, log')
    end.
Definition emit (a : Action) : TxM unit := fun log => (Ok tt, log ++ [a]).
Definition liftR {A} (r : result A) : TxM A := fun log => (r, log).

Declare Scope tx_scope.
Delimit Scope tx_scope with tx.
Notation "x <- m ;; k" := (bind m (fun x => k))
  (at level 61, m at next level, right associativity) : tx_scope.
Notation "m ;;; k" := (bind m (fun _ => k))
  (at level 61, right associativity) : tx_scope.
Open Scope tx_scope.

(** [xs.forEach(f)] for an effectful [f]. *)
Fixpoint forEach {A} (f : A -> TxM unit) (xs : list A) : TxM unit :=
  match xs with
  | [] => ret tt
  | x :: xs' => f x ;;; forEach f xs'
  end.

(** The callbacks of one [Promise.all], run in the order in which they
    resume; the first rejection is the one [await] throws. *)
Fixpoint foldM {A S} (f : A -> S -> TxM S) (xs : list A) (s : S) : TxM S :=
  match xs with
  | [] => ret s
  | x :: xs' => s' <- f x s ;; foldM f xs' s'
  end.

Definition emitAll (acts : list Action) : TxM unit := fun log => (Ok tt, log ++ acts).

(** ** The chain access adapter ([class MeshAdapter]) *)

Record MeshAdapter := {
  fetcher : Fetcher;
  meshWallet : MeshWallet;
  storeCompileCode : string;
  storeScriptCbor : string;
  storeAddress : string;
  mintCompileCode : string;
  mintScriptCbor : string;
  policyId : string
}.

(** The four values the constructor derives from course and issuer. *)
Record Derived := {
  d_storeScriptCbor : string;
  d_mintScriptCbor : string;
  d_policyId : string;
  d_storeAddress : string
}.

Definition derived (a : MeshAdapter) : Derived :=
  {| d_storeScriptCbor := storeScriptCbor a;
     d_mintScriptCbor := mintScriptCbor a;
     d_policyId := policyId a;
     d_storeAddress := storeAddress a |}.

Section Adapter.
Context {E : Externals}.

Definition readValidator (p : Plutus) (t : string) : result string :=
  match find (fun v => String.eqb (title v) t) (validators p) with
  | Some validator => Ok (compiledCode validator)
  | None => Err (t +++ " validator not found.")
  end.

(** [new MeshAdapter({ meshWallet, course, issuer })]; the provider the
    constructor creates is the argument [f]. *)
Definition newMeshAdapter (f : Fetcher) (w : MeshWallet) (course issuer : string)
  : result MeshAdapter :=
  match readValidator plutus title_store with
  | Err e => Err e
  | Ok storeCode =>
      let storeCbor :=
        applyParamsToScript storeCode
          [course; pubKeyHash (deserializeAddress issuer);
           stakeCredentialHash (deserializeAddress issuer)] in
      let storeAddr :=
        serializeAddressObj
          (scriptAddress
             (scriptHash (deserializeAddress
                            (serializePlutusScript_address storeCbor APP_NETWORK_ID)))
             (stakeCredentialHash (deserializeAddress issuer)))
          APP_NETWORK_ID in
      match readValidator plutus title_mint with
      | Err e => Err e
      | Ok mintCode =>
          let mintCbor :=
            applyParamsToScript mintCode
              [course; pubKeyHash (deserializeAddress issuer);
               stakeCredentialHash (deserializeAddress issuer);
               scriptHash (deserializeAddress storeAddr);
               stakeCredentialHash (deserializeAddress storeAddr)] in
          Ok {| fetcher := f; meshWallet := w;
                storeCompileCode := storeCode; storeScriptCbor := storeCbor;
                storeAddress := storeAddr;
                mintCompileCode := mintCode; mintScriptCbor := mintCbor;
                policyId := resolveScriptHash mintCbor |}
      end
  end.

Record WalletForTx := {
  wf_utxos : list UTxO;
  wf_collateral : UTxO;
  wf_walletAddress : string
}.

Definition getWalletForTx (a : MeshAdapter) : result WalletForTx :=
  let utxos := getUtxos (meshWallet a) in
  let collaterals := getCollateral (meshWallet a) in
  let walletAddress := getChangeAddress (meshWallet a) in
  match utxos with
  | None | Some [] => Err "No UTXOs found in getWalletForTx method."
  | Some us =>
      match collaterals with
      | None | Some [] => Err "No collateral found in getWalletForTx method."
      | Some (c :: _) =>
          if String.eqb walletAddress ""
          then Err "No wallet address found in getWalletForTx method."
          else Ok {| wf_utxos := us; wf_collateral := c; wf_walletAddress := walletAddress |}
      end
  end.

(** [xs[xs.length - 1]]: [undefined] on the empty array. *)
Definition lastOf {A} (xs : list A) : option A :=
  match rev xs with
  | [] => None
  | x :: _ => Some x
  end.

Definition getAddressUTXOAsset (a : MeshAdapter) (addr unit : string) : option UTxO :=
  lastOf (fetchAddressUTxOs (fetcher a) addr (Some unit)).

Definition getAddressUTXOAssets (a : MeshAdapter) (addr unit : string) : list UTxO :=
  fetchAddressUTxOs (fetcher a) addr (Some unit).

Definition getUtxoForTx (a : MeshAdapter) (addr hash : string) : result UTxO :=
  match find (fun u => String.eqb (txHash (input u)) hash)
             (fetchAddressUTxOs (fetcher a) addr None) with
  | Some utxo => Ok utxo
  | None => Err "No UTXOs found in getUtxoForTx method."
  end.

(** [decoded.value[0]]: the first field of a tagged constructor. *)
Definition taggedFirstField (c : cbor) : result (option cbor) :=
  match c with
  | CborTagged _ (CborArray fields) => Ok (hd_error fields)
  | _ => Err "TypeError"
  end.

(** [key.toString('utf-8')] on a [Buffer]. *)
Definition keyUtf8 (k : cbor) : result string :=
  match k with
  | CborBytes b => Ok b
  | _ => Err "TypeError"
  end.

(** [value.toString(enc)] on a [Buffer]. *)
Definition valueText (hex : bool) (v : cbor) : result string :=
  match v with
  | CborBytes b => Ok (if hex then bufferToHex b else b)
  | _ => Err "TypeError"
  end.

Fixpoint findPk (entries : list (cbor * cbor)) : result (option string) :=
  match entries with
  | [] => Ok None
  | (key, value) :: rest =>
      match keyUtf8 key with
      | Err e => Err e
      | Ok k =>
          if String.eqb k "_pk"
          then match valueText true value with
               | Ok h => Ok (Some h)
               | Err e => Err e
               end
          else findPk rest
      end
  end.

(** [getPkHash(datum)]: the [_pk] entry in hex, [null] when there is none.
    The argument is [None] when the caller passes [undefined]. *)
Definition getPkHash (datum : option string) : result (option string) :=
  match datum with
  | None => Err "TypeError"
  | Some d =>
      match decodeFirst d with
      | Err e => Err e
      | Ok decoded =>
          match taggedFirstField decoded with
          | Ok (Some (CborMap entries)) => findPk entries
          | Ok _ => Err "TypeError"
          | Err e => Err e
          end
      end
  end.



End Adapter.

(** ** The transaction builder ([class MeshTxBuilder extends MeshAdapter]) *)

Record MintParam := {
  m_assetName : string;
  m_metadata : Metadata;
  m_quantity : option string;   (* [None]: the default ['1'] applies *)
  m_receiver : option string    (* [None]: the default [''] applies *)
}.

Record UpdateParam := {
  u_assetName : string;
  u_metadata : Metadata;
  u_txHash : option string
}.

Record BurnParam := {
  b_assetName : string;
  b_quantity : string;
  b_txHash : option string
}.

(** [txOutReceiverMap]: a [Map] from receiver to assets, in insertion order. *)
Definition ReceiverMap : Type := list (string * list Asset).

(** [has(key) ? get(key).push(x) : set(key, [x])]. *)
Fixpoint pushReceiver (m : ReceiverMap) (key : string) (x : Asset) : ReceiverMap :=
  match m with
  | [] => [(key, [x])]
  | (k, xs) :: rest =>
      if String.eqb k key then (k, xs ++ [x]) :: rest
      else (k, xs) :: pushReceiver rest key x
  end.

Definition newline : string := String (ascii_of_nat 10) EmptyString.

(** Truthiness of an optional string. *)
Definition truthyStr (s : option string) : bool :=
  match s with
  | Some t => negb (String.eqb t "")
  | None => false
  end.

(** [pk !== hash] for [pk : string | null]. *)
Definition pkDiffers (pk : option string) (hash : string) : bool :=
  match pk with
  | Some p => negb (String.eqb p hash)
  | None => true
  end.

Section Builder.
Context {E : Externals}.

Definition userUnit (a : MeshAdapter) (assetName : string) : string :=
  policyId a +++ CIP68_222 (stringToHex assetName).
Definition refUnit (a : MeshAdapter) (assetName : string) : string :=
  policyId a +++ CIP68_100 (stringToHex assetName).

(** [utxo?.output?.plutusData]. *)
Definition plutusDataOf (u : option UTxO) : option string :=
  match u with
  | Some x => plutusData (output x)
  | None => None
  end.

(** [!!utxo?.output?.plutusData]. *)
Definition hasPlutusData (a : MeshAdapter) (assetName : string) : bool :=
  truthyStr (plutusDataOf (getAddressUTXOAsset a (storeAddress a) (refUnit a assetName))).

Definition complete : TxM string :=
  fun log => (completeTx log, log ++ [Complete]).

(** The tail shared by mint, update and burn, in the order mint has it. *)
Definition finalizeMint (w : WalletForTx) : TxM string :=
  emit (ChangeAddress (wf_walletAddress w)) ;;;
  emit (RequiredSignerHash (pubKeyHash (deserializeAddress (wf_walletAddress w)))) ;;;
  emit (SelectUtxosFrom (wf_utxos w)) ;;;
  emit (TxInCollateral (txHash (input (wf_collateral w)))
                       (outputIndex (input (wf_collateral w)))
                       (amount (output (wf_collateral w)))
                       (address (output (wf_collateral w)))) ;;;
  emit (SetNetwork APP_NETWORK) ;;;
  complete.

(** The same tail as update and burn have it. *)
Definition finalizeSpend (w : WalletForTx) : TxM string :=
  emit (RequiredSignerHash (pubKeyHash (deserializeAddress (wf_walletAddress w)))) ;;;
  emit (ChangeAddress (wf_walletAddress w)) ;;;
  emit (SelectUtxosFrom (wf_utxos w)) ;;;
  emit (TxInCollateral (txHash (input (wf_collateral w)))
                       (outputIndex (input (wf_collateral w)))
                       (amount (output (wf_collateral w)))
                       (address (output (wf_collateral w)))) ;;;
  emit (SetNetwork APP_NETWORK) ;;;
  complete.

(** *** mint *)

Definition quantityOf (p : MintParam) : string :=
  match m_quantity p with Some q => q | None => "1" end.
Definition receiverOf (p : MintParam) : string :=
  match m_receiver p with Some r => r | None => "" end.
(** [receiver ? receiver : walletAddress]. *)
Definition receiverKey (walletAddress : string) (p : MintParam) : string :=
  if String.eqb (receiverOf p) "" then walletAddress else receiverOf p.
Definition userAsset (a : MeshAdapter) (p : MintParam) : Asset :=
  {| asset_unit := userUnit a (m_assetName p); asset_quantity := quantityOf p |}.

(** The calls one asset adds when every asset exists already. *)
Definition mintExistingActions (a : MeshAdapter) (p : MintParam) : list Action :=
  [ MintPlutusScriptV3;
    Mint (quantityOf p) (policyId a) (CIP68_222 (stringToHex (m_assetName p)));
    MintingScript (mintScriptCbor a);
    MintRedeemerValue (mConStr0 []) ].

(** The calls one asset adds when every asset is new. *)
Definition mintNewActions (a : MeshAdapter) (p : MintParam) : list Action :=
  [ MintPlutusScriptV3;
    Mint (quantityOf p) (policyId a) (CIP68_222 (stringToHex (m_assetName p)));
    MintingScript (mintScriptCbor a);
    MintRedeemerValue (mConStr0 []);
    MintPlutusScriptV3;
    Mint "1" (policyId a) (CIP68_100 (stringToHex (m_assetName p)));
    MintingScript (mintScriptCbor a);
    MintRedeemerValue (mConStr0 []);
    TxOut (storeAddress a)
          [ {| asset_unit := refUnit a (m_assetName p); asset_quantity := "1" |} ];
    TxOutInlineDatumValue (metadataToCip68 (m_metadata p)) ].

(** The body of the second [params.map(async ...)] of mint, for one asset:
    what runs, in one piece, once the lookups of the callback have answered. *)
Definition mintOne (a : MeshAdapter) (walletAddress : string) (allExist allNew : bool)
           (p : MintParam) (m : ReceiverMap) : TxM ReceiverMap :=
  let existUtXOwithUnit :=
    getAddressUTXOAsset a (storeAddress a) (refUnit a (m_assetName p)) in
  if allExist then
    pk <- liftR (getPkHash (plutusDataOf existUtXOwithUnit)) ;;
    if pkDiffers pk (pubKeyHash (deserializeAddress walletAddress))
    then throw (m_assetName p +++ " has been exist")
    else
      let m' := pushReceiver m (receiverKey walletAddress p) (userAsset a p) in
      emitAll (mintExistingActions a p) ;;; ret m'
  else if allNew then
    let m' := pushReceiver m (receiverKey walletAddress p) (userAsset a p) in
    emitAll (mintNewActions a p) ;;; ret m'
  else
    throw "Transaction only supports either minting new assets or minting existing assets, not both in the same transaction".

Definition mixedMessage (existAssets : list string) : string :=
  "Transaction only supports either minting new or existing assets." +++ newline +++
  "Assets already exist: " +++ String.concat ", " existAssets.

(** [mint(params, utxosInput)].  [order] lists the elements of [params] in
    the order in which the callbacks of the second [Promise.all] resume
    after their lookups. *)
Definition mint (a : MeshAdapter) (params : list MintParam)
           (utxosInput : option (list UTxO)) (order : list MintParam) : TxM string :=
  w <- liftR (getWalletForTx a) ;;
  emit MintPlutusScriptV3 ;;;
  match utxosInput with
  | Some us => forEach (fun u => emit (TxIn (txHash (input u)) (outputIndex (input u)))) us
  | None => ret tt
  end ;;;
  let assetsWithUtxo :=
    map (fun p => (m_assetName p, hasPlutusData a (m_assetName p))) params in
  let allExist := forallb (fun x => snd x) assetsWithUtxo in
  let allNew := forallb (fun x => negb (snd x)) assetsWithUtxo in
  if negb allExist && negb allNew then
    throw (mixedMessage (map fst (filter (fun x => snd x) assetsWithUtxo)))
  else
    m <- foldM (mintOne a (wf_walletAddress w) allExist allNew) order [] ;;
    forEach (fun ra => emit (TxOut (fst ra) (snd ra))) m ;;;
    finalizeMint w.

(** *** update and burn: finding the reference-token UTxO *)

(** [txHash ? await getUtxoForTx(...) : await getAddressUTXOAsset(...)],
    then [if (!storeUtxo) throw]. *)
Definition locateStoreUtxo (a : MeshAdapter) (assetName : string) (hash : option string)
  : result UTxO :=
  match (if truthyStr hash
         then match getUtxoForTx a (storeAddress a) (match hash with Some h => h | None => "" end) with
              | Ok u => Ok (Some u)
              | Err e => Err e
              end
         else Ok (getAddressUTXOAsset a (storeAddress a) (refUnit a assetName)))
  with
  | Err e => Err e
  | Ok None => Err "Store UTXO not found"
  | Ok (Some u) => Ok u
  end.

(** *** update *)

Definition updateActions (a : MeshAdapter) (p : UpdateParam) (storeUtxo : UTxO) : list Action :=
  [ SpendingPlutusScriptV3;
    TxIn (txHash (input storeUtxo)) (outputIndex (input storeUtxo));
    TxInInlineDatumPresent;
    TxInRedeemerValue (mConStr0 []);
    TxInScript (storeScriptCbor a);
    TxOut (storeAddress a)
          [ {| asset_unit := refUnit a (u_assetName p); asset_quantity := "1" |} ];
    TxOutInlineDatumValue (metadataToCip68 (u_metadata p)) ].

Definition updateOne (a : MeshAdapter) (p : UpdateParam) : TxM unit :=
  storeUtxo <- liftR (locateStoreUtxo a (u_assetName p) (u_txHash p)) ;;
  emitAll (updateActions a p storeUtxo).

(** [update(params)]; [order] lists the elements of [params] in the order in
    which their callbacks resume. *)
Definition update (a : MeshAdapter) (order : list UpdateParam) : TxM string :=
  w <- liftR (getWalletForTx a) ;;
  forEach (updateOne a) order ;;;
  finalizeSpend w.

(** *** burn *)

(** The two nested [reduce] calls: what the wallet holds of the user token. *)
Definition heldAmount (a : MeshAdapter) (walletAddress assetName : string) : jsnum :=
  fold_left
    (fun total utxos =>
       jsAdd total
             (fold_left
                (fun amt utxo =>
                   if String.eqb (asset_unit utxo) (userUnit a assetName)
                   then jsAdd amt (js_Number (asset_quantity utxo))
                   else amt)
                (amount (output utxos)) jsZero))
    (getAddressUTXOAssets a walletAddress (userUnit a assetName))
    jsZero.

Definition fullBurnActions (a : MeshAdapter) (p : BurnParam) (storeUtxo : UTxO) : list Action :=
  [ MintPlutusScriptV3;
    Mint (b_quantity p) (policyId a) (CIP68_222 (stringToHex (b_assetName p)));
    MintRedeemerValue (mConStr1 []);
    MintingScript (mintScriptCbor a);
    MintPlutusScriptV3;
    Mint "-1" (policyId a) (CIP68_100 (stringToHex (b_assetName p)));
    MintRedeemerValue (mConStr1 []);
    MintingScript (mintScriptCbor a);
    SpendingPlutusScriptV3;
    TxIn (txHash (input storeUtxo)) (outputIndex (input storeUtxo));
    TxInInlineDatumPresent;
    TxInRedeemerValue (mConStr1 []);
    TxInScript (storeScriptCbor a) ].

Definition partialBurnActions (a : MeshAdapter) (walletAddress : string) (p : BurnParam)
           (held : jsnum) : list Action :=
  [ MintPlutusScriptV3;
    Mint (b_quantity p) (policyId a) (CIP68_222 (stringToHex (b_assetName p)));
    MintRedeemerValue (mConStr1 []);
    MintingScript (mintScriptCbor a);
    TxOut walletAddress
          [ {| asset_unit := userUnit a (b_assetName p);
               asset_quantity := js_String (jsAdd held (js_Number (b_quantity p))) |} ] ].

(** The body of [params.map(async ...)] of burn, for one asset. *)
Definition burnOne (a : MeshAdapter) (walletAddress : string) (p : BurnParam) : TxM unit :=
  let amount := heldAmount a walletAddress (b_assetName p) in
  storeUtxo <- liftR (locateStoreUtxo a (b_assetName p) (b_txHash p)) ;;
  if jsStrictEq (jsNeg (js_Number (b_quantity p))) amount
  then emitAll (fullBurnActions a p storeUtxo)
  else emitAll (partialBurnActions a walletAddress p amount).

(** [burn(params)]; [order] lists the elements of [params] in the order in
    which their callbacks resume. *)
Definition burn (a : MeshAdapter) (order : list BurnParam) : TxM string :=
  w <- liftR (getWalletForTx a) ;;
  forEach (burnOne a (wf_walletAddress w)) order ;;;
  finalizeSpend w.
End Builder.

(** ** The batch-mint request handler *)

(** A parsed JSON value ([request.body] after [express.json()]). *)
Inductive json : Type :=
| JNull
| JBool (b : bool)
| JNum (n : jsnum)
| JStr (s : string)
| JArr (items : list json)
| JObj (fields : list (string * json)).

Fixpoint lookupField (fields : list (string * json)) (k : string) : option json :=
  match fields with
  | [] => None
  | (k', v) :: rest => if String.eqb k' k then Some v else lookupField rest k
  end.

(** [v.k] for one of the keys read here; [None] is [undefined].  Reading a
    property of [null] throws a [TypeError]. *)
Definition prop (v : json) (k : string) : result (option json) :=
  match v with
  | JNull => Err "TypeError"
  | JObj fields => Ok (lookupField fields k)
  | _ => Ok None
  end.

(** [!!v]. *)
Definition truthy (v : option json) : bool :=
  match v with
  | None | Some JNull => false
  | Some (JBool b) => b
  | Some (JNum n) => match n with S754_zero _ | S754_nan => false | _ => true end
  | Some (JStr s) => negb (String.eqb s "")
  | Some (JArr _) | Some (JObj _) => true
  end.

Inductive Body : Type :=
| ErrorBody (error : string) (details : option string)
| BatchMinted (tx_hash policy_id : string) (minted_count : Z) (asset_names : list (option json)).

Record Response := { status : Z; body : Body }.

Definition badRequest (error : string) : Response :=
  {| status := 400; body := ErrorBody error None |}.
Definition batchFailed (details : string) : Response :=
  {| status := 500; body := ErrorBody "Failed to batch mint assets" (Some details) |}.

(** What the handler does to the provider, the wallet and the builder. *)
Inductive Interaction : Type :=
| NewBlockfrostProvider
| NewMeshWallet
| WalletGetChangeAddress
| NewMeshTxBuilder
| BuilderMint
| WalletSignTx
| WalletSubmitTx
| OnTxConfirmed.

(** The outcome of a request: the response, if one is ever sent, and the
    interactions made on the way. *)
Record Outcome := { response : option Response; trace : list Interaction }.

(** The services behind the handler. *)
Record Host := {
  host_fetcher : Fetcher;
  host_wallet : MeshWallet;
  host_order : list MintParam -> list MintParam;
  signTx : string -> result string;
  submitTx : string -> result string;
  txConfirmed : string -> bool;
  (** what happens from the first chain interaction on when a field that
      passed validation is not of the JSON type the builder expects *)
  dynamicOutcome : json -> Outcome
}.

(** The three per-item checks of the validation loop. *)
Definition itemComplete (item : json) : result bool :=
  match prop item "asset_name", prop item "metadata", prop item "receiver" with
  | Ok a, Ok m, Ok r => Ok (truthy a && truthy m && truthy r)
  | _, _, _ => Err "TypeError"
  end.

(** [for (const item of items) { if (...) return 400 }]: the early answer of
    the loop, if any. *)
Fixpoint checkItems (items : list json) : option Response :=
  match items with
  | [] => None
  | item :: rest =>
      match itemComplete item with
      | Err e => Some (batchFailed e)
      | Ok false => Some (badRequest "Each item must have: asset_name, metadata, receiver")
      | Ok true => checkItems rest
      end
  end.

Section Handler.
Context {E : Externals}.

Fixpoint metadataOfFields (fields : list (string * json)) : option Metadata :=
  match fields with
  | [] => Some []
  | (k, JStr v) :: rest =>
      match metadataOfFields rest with
      | Some md => Some ((k, v) :: md)
      | None => None
      end
  | _ => None
  end.

(** [(item.quantity || '1').toString()] *)
Definition quantityText (q : option json) : option string :=
  if truthy q then
    match q with
    | Some (JStr s) => Some s
    | Some (JNum n) => Some (js_String n)
    | Some (JBool _) => Some "true"
    | _ => None
    end
  else Some "1".

(** One element of [items.map(...)], when its fields have the types the
    builder is declared with. *)
Definition paramOfItem (item : json) : option MintParam :=
  match item with
  | JObj fields =>
      match lookupField fields "asset_name", lookupField fields "metadata",
            lookupField fields "receiver", quantityText (lookupField fields "quantity") with
      | Some (JStr name), Some (JObj md), Some (JStr receiver), Some q =>
          match metadataOfFields md with
          | Some metadata =>
              Some {| m_assetName := name; m_metadata := metadata;
                      m_quantity := Some q; m_receiver := Some receiver |}
          | None => None
          end
      | _, _, _, _ => None
      end
  | _ => None
  end.

Fixpoint paramsOfItems (items : list json) : option (list MintParam) :=
  match items with
  | [] => Some []
  | item :: rest =>
      match paramOfItem item, paramsOfItems rest with
      | Some p, Some ps => Some (p :: ps)
      | _, _ => None
      end
  end.

Definition assetNameOf (item : json) : option json :=
  match prop item "asset_name" with Ok v => v | Err _ => None end.

(** From [new BlockfrostProvider(...)] to the answer. *)
Definition chainPhase (h : Host) (body : json) (course : string) (items : list json)
           (params : list MintParam) : Outcome :=
  let t1 := [NewBlockfrostProvider; NewMeshWallet; WalletGetChangeAddress; NewMeshTxBuilder] in
  match newMeshAdapter (host_fetcher h) (host_wallet h) course
                       (getChangeAddress (host_wallet h)) with
  | Err e => {| response := Some (batchFailed e); trace := t1 |}
  | Ok builder =>
      let t2 := t1 ++ [BuilderMint] in
      match fst (mint builder params None (host_order h params) []) with
      | Err e => {| response := Some (batchFailed e); trace := t2 |}
      | Ok unsignedTx =>
          let t3 := t2 ++ [WalletSignTx] in
          match signTx h unsignedTx with
          | Err e => {| response := Some (batchFailed e); trace := t3 |}
          | Ok signedTx =>
              let t4 := t3 ++ [WalletSubmitTx] in
              match submitTx h signedTx with
              | Err e => {| response := Some (batchFailed e); trace := t4 |}
              | Ok hash =>
                  let t5 := t4 ++ [OnTxConfirmed] in
                  if txConfirmed h hash
                  then {| response :=
                            Some {| status := 200;
                                    body := BatchMinted hash (policyId builder)
                                              (Z.of_nat (List.length items))
                                              (map assetNameOf items) |};
                          trace := t5 |}
                  else {| response := None; trace := t5 |}
              end
          end
      end
  end.

(** The checks that precede the first chain interaction: the early
    answer, if any.  A [TypeError] raised on the way is caught by the
    handler's [catch] and answered with 500. *)
Definition validateBatch (body : json) : option Response :=
  match prop body "course", prop body "items" with
  | Ok course, Ok items =>
      match items with
      | Some (JArr l) =>
          if negb (truthy course) || (Z.of_nat (List.length l) =? 0)
          then Some (badRequest "Missing required fields: course, items (array)")
          else if 15 <? Z.of_nat (List.length l)
          then Some (badRequest "Maximum 15 items per batch (Cardano tx size limit)")
          else checkItems l
      | _ => Some (badRequest "Missing required fields: course, items (array)")
      end
  | _, _ => Some (batchFailed "TypeError")
  end.

(** [batchMint(request, response)]. *)
Definition batchMint (h : Host) (body : json) : Outcome :=
  match validateBatch body with
  | Some r => {| response := Some r; trace := [] |}
  | None =>
      match prop body "course", prop body "items" with
      | Ok (Some (JStr c)), Ok (Some (JArr l)) =>
          match paramsOfItems l with
          | Some params => chainPhase h body c l params
          | None => dynamicOutcome h body
          end
      | _, _ => dynamicOutcome h body
      end
  end.
End Handler.

(** ** A reference instance of the externals

    One executable rendition of what the code takes from outside, used to
    evaluate the model on concrete inputs.  Numbers are converted from and to
    plain decimal integer literals; CIP-68 labels, hex conversion and the
    CBOR reading and writing of data follow the published formats; script
    application, hashing and addresses are symbolic (a reference address is
    written as its payment-key hash). *)

Module Ref.

(** *** Hex and bytes *)

Definition hexChar (n : N) : ascii :=
  match String.get (N.to_nat n) "0123456789abcdef" with
  | Some c => c
  | None => "0"%char
  end.

Definition hexVal (c : ascii) : option N :=
  let n := N_of_ascii c in
  if ((48 <=? n) && (n <=? 57))%N then Some (n - 48)%N
  else if ((97 <=? n) && (n <=? 102))%N then Some (n - 87)%N
  else if ((65 <=? n) && (n <=? 70))%N then Some (n - 55)%N
  else None.

Fixpoint bufferToHex (b : string) : string :=
  match b with
  | EmptyString => EmptyString
  | String c rest =>
      String (hexChar (N_of_ascii c / 16)) (String (hexChar (N_of_ascii c mod 16)) (bufferToHex rest))
  end.

Fixpoint bytesOfHex (s : string) : option (list N) :=
  match s with
  | EmptyString => Some []
  | String a (String b rest) =>
      match hexVal a, hexVal b, bytesOfHex rest with
      | Some x, Some y, Some bs => Some ((x * 16 + y)%N :: bs)
      | _, _, _ => None
      end
  | _ => None
  end.

Definition stringOfBytes (bs : list N) : string :=
  fold_right (fun b s => String (ascii_of_N b) s) EmptyString bs.
Definition bytesOfString (s : string) : list N :=
  map N_of_ascii (list_ascii_of_string s).
Definition hexOfBytes (bs : list N) : string := bufferToHex (stringOfBytes bs).

Definition stringToHex (s : string) : string := bufferToHex s.

(** *** CBOR, the part data on chain uses *)

Definition readArg (info : N) (bs : list N) : option (N * list N) :=
  if (info <? 24)%N then Some (info, bs)
  else if (info =? 24)%N then
    match bs with b :: r => Some (b, r) | _ => None end
  else if (info =? 25)%N then
    match bs with b1 :: b2 :: r => Some ((b1 * 256 + b2)%N, r) | _ => None end
  else None.

Fixpoint takeBytes (n : nat) (bs : list N) : option (list N * list N) :=
  match n with
  | O => Some ([], bs)
  | S n' =>
      match bs with
      | [] => None
      | b :: r =>
          match takeBytes n' r with
          | Some (xs, r') => Some (b :: xs, r')
          | None => None
          end
      end
  end.

Fixpoint decodeItem (fuel : nat) (bs : list N) : option (cbor * list N) :=
  match fuel with
  | O => None
  | S fuel' =>
      let items :=
        fix items (n : nat) (bs : list N) : option (list cbor * list N) :=
          match n with
          | O => Some ([], bs)
          | S n' =>
              match decodeItem fuel' bs with
              | Some (x, bs') =>
                  match items n' bs' with
                  | Some (xs, bs'') => Some (x :: xs, bs'')
                  | None => None
                  end
              | None => None
              end
          end in
      let untilBreak :=
        fix untilBreak (k : nat) (bs : list N) : option (list cbor * list N) :=
          match k with
          | O => None
          | S k' =>
              match bs with
              | [] => None
              | b :: r =>
                  if (b =? 255)%N then Some ([], r)
                  else match decodeItem fuel' bs with
                       | Some (x, bs') =>
                           match untilBreak k' bs' with
                           | Some (xs, bs'') => Some (x :: xs, bs'')
                           | None => None
                           end
                       | None => None
                       end
              end
          end in
      let pairs :=
        fix pairs (xs : list cbor) : list (cbor * cbor) :=
          match xs with
          | k :: v :: rest => (k, v) :: pairs rest
          | _ => []
          end in
      match bs with
      | [] => None
      | b :: r =>
          let major := (b / 32)%N in
          let info := (b mod 32)%N in
          if ((major =? 4) && (info =? 31))%N then
            match untilBreak fuel' r with
            | Some (xs, r') => Some (CborArray xs, r')
            | None => None
            end
          else
            match readArg info r with
            | None => None
            | Some (arg, r1) =>
                if (major =? 0)%N then Some (CborInt (Z.of_N arg), r1)
                else if (major =? 1)%N then Some (CborInt (- 1 - Z.of_N arg), r1)
                else if (major =? 2)%N then
                  match takeBytes (N.to_nat arg) r1 with
                  | Some (payload, r2) => Some (CborBytes (stringOfBytes payload), r2)
                  | None => None
                  end
                else if (major =? 4)%N then
                  match items (N.to_nat arg) r1 with
                  | Some (xs, r2) => Some (CborArray xs, r2)
                  | None => None
                  end
                else if (major =? 5)%N then
                  match items (2 * N.to_nat arg)%nat r1 with
                  | Some (xs, r2) => Some (CborMap (pairs xs), r2)
                  | None => None
                  end
                else if (major =? 6)%N then
                  match decodeItem fuel' r1 with
                  | Some (x, r2) => Some (CborTagged (Z.of_N arg) x, r2)
                  | None => None
                  end
                else None
            end
      end
  end.

Definition decodeFirst (datum : string) : result cbor :=
  match bytesOfHex datum with
  | None => Err "Invalid hex"
  | Some bs =>
      match decodeItem (S (List.length bs)) bs with
      | Some (c, _) => Ok c
      | None => Err "Insufficient data"
      end
  end.

Definition head (major : N) (arg : N) : list N :=
  if (arg <? 24)%N then [(major * 32 + arg)%N]
  else if (arg <? 256)%N then [(major * 32 + 24)%N; arg]
  else [(major * 32 + 25)%N; (arg / 256)%N; (arg mod 256)%N].

(** The SDK writes a string that is an even number of hex digits as the
    bytes it spells, and any other string as its UTF-8 bytes. *)
Definition toBytes (s : string) : list N :=
  match bytesOfHex s with
  | Some bs => bs
  | None => bytesOfString s
  end.

Fixpoint encodeData (d : Data) : list N :=
  match d with
  | DStr s => head 2 (N.of_nat (List.length (toBytes s))) ++ toBytes s
  | DInt z => if z <? 0 then head 1 (Z.to_N (- 1 - z)) else head 0 (Z.to_N z)
  | DList l => [159%N] ++ flat_map encodeData l ++ [255%N]
  | DMap m =>
      head 5 (N.of_nat (List.length m)) ++
      flat_map (fun kv => encodeData (fst kv) ++ encodeData (snd kv)) m
  | DConstr alt fields =>
      head 6 (Z.to_N (121 + alt)) ++
      match fields with
      | [] => [128%N]
      | _ => [159%N] ++ flat_map encodeData fields ++ [255%N]
      end
  end.

Definition serializeData (d : Data) : string := hexOfBytes (encodeData d).

(** *** Numbers from and to decimal integer literals *)

(** The value of a non-empty run of decimal digits. *)
Definition digitsValue (s : string) : option Z :=
  match s with
  | EmptyString => None
  | _ => match NilEmpty.uint_of_string s with
         | Some u => Some (Z.of_uint u)
         | None => None
         end
  end.

(** [Number(s)] on an optionally signed run of decimal digits and on the
    empty string: the nearest double.  Literals of other shapes (fractions,
    exponents, radix prefixes, blanks, Infinity) are not covered by this
    reference conversion and read as NaN here. *)
Definition js_Number (s : string) : jsnum :=
  match s with
  | EmptyString => jsZero
  | String c rest =>
      if Ascii.eqb c "-"%char then
        match digitsValue rest with Some z => jsNeg (ofZ z) | None => S754_nan end
      else if Ascii.eqb c "+"%char then
        match digitsValue rest with Some z => ofZ z | None => S754_nan end
      else
        match digitsValue s with Some z => ofZ z | None => S754_nan end
  end.

(** The integer a decimal literal denotes, exactly. *)
Definition literalValue (s : string) : Z :=
  match s with
  | EmptyString => 0
  | String c rest =>
      if Ascii.eqb c "-"%char then
        match digitsValue rest with Some z => - z | None => 0 end
      else if Ascii.eqb c "+"%char then
        match digitsValue rest with Some z => z | None => 0 end
      else
        match digitsValue s with Some z => z | None => 0 end
  end.

(** [String(n)] on integer-valued doubles, in plain decimal digits (the
    exponent notation the language uses from 1e21 on and fractions are not
    covered). *)
Definition js_String (n : jsnum) : string :=
  match n with
  | S754_nan => "NaN"
  | S754_infinity false => "Infinity"
  | S754_infinity true => "-Infinity"
  | _ => match toZ n with
         | Some z => NilZero.string_of_int (Z.to_int z)
         | None => "NaN"
         end
  end.

(** *** The SDK *)

Definition CIP68_100 (hex : string) : string := "000643b0" +++ hex.
Definition CIP68_222 (hex : string) : string := "000de140" +++ hex.

Definition deserializeAddress (addr : string) : DeserializedAddress :=
  {| pubKeyHash := addr; stakeCredentialHash := "stake:" +++ addr; scriptHash := "script:" +++ addr |}.

Definition metadataToCip68 (md : Metadata) : Data :=
  DConstr 0 [DMap (map (fun kv => (DStr (fst kv), DStr (snd kv))) md); DInt 1].

Definition applyParamsToScript (code : string) (params : list string) : string :=
  code +++ "(" +++ String.concat "," params +++ ")".

Definition plutus : Plutus :=
  {| validators := [ {| title := "store.store.spend"; compiledCode := "5901" |};
                     {| title := "mint.mint.mint"; compiledCode := "5902" |} ] |}.

Definition serializePlutusScript_address (code : string) (networkId : Z) : string :=
  "addr:" +++ code.
Definition scriptAddress (script stake : string) : string := script +++ "/" +++ stake.
Definition serializeAddressObj (obj : string) (networkId : Z) : string := obj.
Definition resolveScriptHash (code : string) : string := "policy:" +++ code.
Definition completeTx (log : list Action) : result string := Ok "84a4".

#[export] Instance externals : Externals :=
  Build_Externals
    js_Number js_String stringToHex CIP68_100 CIP68_222 deserializeAddress
    metadataToCip68 applyParamsToScript serializePlutusScript_address scriptAddress
    serializeAddressObj resolveScriptHash completeTx serializeData decodeFirst
    bufferToHex plutus "store.store.spend" "mint.mint.mint" 0 "preview".

(** *** A reference chain and wallet *)

(** A provider that answers from a fixed list of unspent outputs. *)
Definition fetcherOf (utxos : list UTxO) : Fetcher :=
  {| fetchAddressUTxOs := fun addr unit =>
       filter (fun u =>
                 String.eqb (address (output u)) addr &&
                 match unit with
                 | None => true
                 | Some un => existsb (fun x => String.eqb (asset_unit x) un) (amount (output u))
                 end) utxos |}.

Definition lovelace (q : string) : Asset := {| asset_unit := "lovelace"; asset_quantity := q |}.

Definition utxo (hash : string) (index : Z) (addr : string) (assets : list Asset)
           (datum : option string) : UTxO :=
  {| input := {| txHash := hash; outputIndex := index |};
     output := {| address := addr; amount := assets; plutusData := datum |} |}.

(** The issuer's wallet: payment-key hash [aabb]. *)
Definition walletAddress : string := "aabb".
Definition wallet : MeshWallet :=
  {| getUtxos := Some [utxo "f0" 0 walletAddress [lovelace "50000000"] None];
     getCollateral := Some [utxo "f1" 0 walletAddress [lovelace "5000000"] None];
     getChangeAddress := walletAddress |}.

Definition emptyAdapter : MeshAdapter :=
  {| fetcher := fetcherOf []; meshWallet := wallet;
     storeCompileCode := ""; storeScriptCbor := ""; storeAddress := "";
     mintCompileCode := ""; mintScriptCbor := ""; policyId := "" |}.

(** The adapter of course ["c1"] issued by the wallet, over a given chain. *)
Definition adapterOn (utxos : list UTxO) : MeshAdapter :=
  match newMeshAdapter (fetcherOf utxos) wallet "c1" walletAddress with
  | Ok a => a
  | Err _ => emptyAdapter
  end.

Definition policy : string := Eval vm_compute in policyId (adapterOn []).
Definition store : string := Eval vm_compute in storeAddress (adapterOn []).

(** The reference-token output of asset [name] with the given datum. *)
Definition refUtxo (hash name : string) (md : Metadata) : UTxO :=
  utxo hash 0 store
       [lovelace "2000000";
        {| asset_unit := policy +++ CIP68_100 (stringToHex name); asset_quantity := "1" |}]
       (Some (serializeData (metadataToCip68 md))).

(** An output of the wallet holding [q] user tokens of asset [name]. *)
Definition userUtxo (hash name q : string) : UTxO :=
  utxo hash 0 walletAddress
       [lovelace "2000000";
        {| asset_unit := policy +++ CIP68_222 (stringToHex name); asset_quantity := q |}]
       None.
End Ref.


(** ** Concrete chains and requests *)

Module Scenario.
Import Ref.

(** Asset "A" is active: its reference token is at the store address, owned
    by the wallet ([_pk] = aabb), and the wallet holds 5 user tokens. *)
Definition chainA : list UTxO :=
  [ refUtxo "a1" "A" [("name", "old"); ("_pk", "aabb")];
    userUtxo "u1" "A" "5" ].
Definition adapterA : MeshAdapter := adapterOn chainA.
Definition storeUtxoA : UTxO := refUtxo "a1" "A" [("name", "old"); ("_pk", "aabb")].

(** Asset "A" is active and owned by somebody else ([_pk] = ccdd). *)
Definition chainForeign : list UTxO :=
  [ refUtxo "a1" "A" [("name", "old"); ("_pk", "ccdd")] ].
Definition adapterForeign : MeshAdapter := adapterOn chainForeign.

(** The wallet holds 2^53 + 1 user tokens of "A" in one output. *)
Definition chainBig : list UTxO :=
  [ refUtxo "a1" "A" [("name", "old"); ("_pk", "aabb")];
    userUtxo "u1" "A" "9007199254740993" ].
Definition adapterBig : MeshAdapter := adapterOn chainBig.

(** The wallet holds user tokens of "A" whose reference token is gone. *)
Definition chainOrphan : list UTxO := [ userUtxo "u1" "A" "5" ].
Definition adapterOrphan : MeshAdapter := adapterOn chainOrphan.

(** Nothing minted yet. *)
Definition adapterFresh : MeshAdapter := adapterOn [].

Definition mintParam (name quantity receiver : string) : MintParam :=
  {| m_assetName := name; m_metadata := [("name", name); ("_pk", "aabb")];
     m_quantity := Some quantity; m_receiver := Some receiver |}.
Definition burnParam (name quantity : string) : BurnParam :=
  {| b_assetName := name; b_quantity := quantity; b_txHash := None |}.
Definition updateParam (name : string) (md : Metadata) : UpdateParam :=
  {| u_assetName := name; u_metadata := md; u_txHash := None |}.

(** Three new assets, two of them for the same receiver, the third for the
    wallet itself; the callbacks resume in another order. *)
Definition threeNew : list MintParam :=
  [ mintParam "A" "1" "r1"; mintParam "B" "2" ""; mintParam "C" "3" "r1" ].
Definition threeNewResumed : list MintParam :=
  [ mintParam "B" "2" ""; mintParam "A" "1" "r1"; mintParam "C" "3" "r1" ].

Definition host : Host :=
  {| host_fetcher := fetcherOf []; host_wallet := wallet;
     host_order := fun ps => ps;
     signTx := fun tx => Ok ("signed:" +++ tx);
     submitTx := fun _ => Ok "txhash";
     txConfirmed := fun _ => true;
     dynamicOutcome := fun _ => {| response := None; trace := [NewBlockfrostProvider] |} |}.

Definition item (name receiver : string) : json :=
  JObj [ ("asset_name", JStr name);
         ("metadata", JObj [("name", JStr name)]);
         ("receiver", JStr receiver) ].
Definition request (items : list json) : list (string * json) :=
  [ ("course", JStr "c1"); ("items", JArr items) ].
End Scenario.

(** ** Vocabulary of the statements *)

Definition mapResult {A B} (f : A -> B) (r : result A) : result B :=
  match r with
  | Ok a => Ok (f a)
  | Err e => Err e
  end.

(** A computation only appends calls, and every call it appends satisfies [P]. *)
Definition appendsOnly {A} (P : Action -> Prop) (m : TxM A) : Prop :=
  forall log, exists added, snd (m log) = log ++ added /\ Forall P added.

Definition notComplete (x : Action) : Prop := x <> Complete.

(** Calls that put a mint, an output or a spend into the transaction, or
    build it. *)
Definition isEffect (x : Action) : bool :=
  match x with
  | Mint _ _ _ | TxOut _ _ | TxOutInlineDatumValue _ | Complete => true
  | _ => false
  end.

(** The lookup of the reference-token UTxO finds nothing: no output of the
    given transaction at the store address when a hash is given, no output
    holding the reference token there otherwise. *)
Definition storeUtxoAbsent {E : Externals} (a : MeshAdapter) (assetName : string)
           (hash : option string) : Prop :=
  if truthyStr hash
  then forall u, In u (fetchAddressUTxOs (fetcher a) (storeAddress a) None) ->
                 Some (txHash (input u)) <> hash
  else fetchAddressUTxOs (fetcher a) (storeAddress a) (Some (refUnit a assetName)) = [].

(** The held total in integers: the two nested sums of [heldAmount] over
    the integers [intOf] reads the quantity strings as. *)
Definition innerInt (intOf : string -> Z) (unit : string) (assets : list Asset) (start : Z) : Z :=
  fold_left (fun amt x => if String.eqb (asset_unit x) unit
                          then amt + intOf (asset_quantity x) else amt)
            assets start.

Definition heldInt {E : Externals} (intOf : string -> Z) (a : MeshAdapter)
           (walletAddress assetName : string) : Z :=
  fold_left (fun total u => total + innerInt intOf (userUnit a assetName) (amount (output u)) 0)
            (getAddressUTXOAssets a walletAddress (userUnit a assetName)) 0.

(** The sum of the magnitudes of the same quantities. *)
Definition innerAbs (intOf : string -> Z) (unit : string) (assets : list Asset) : Z :=
  fold_right (fun x acc => (if String.eqb (asset_unit x) unit
                            then Z.abs (intOf (asset_quantity x)) else 0) + acc)
             0 assets.

Definition heldAbs {E : Externals} (intOf : string -> Z) (a : MeshAdapter)
           (walletAddress assetName : string) : Z :=
  fold_right (fun u acc => innerAbs intOf (userUnit a assetName) (amount (output u)) + acc)
             0 (getAddressUTXOAssets a walletAddress (userUnit a assetName)).

(** Every quantity of the user token in the wallet's outputs is read by
    [Number] as the double of the integer [intOf] gives. *)
Definition quantitiesReadAs {E : Externals} (intOf : string -> Z) (a : MeshAdapter)
           (walletAddress assetName : string) : Prop :=
  forall u x,
    In u (getAddressUTXOAssets a walletAddress (userUnit a assetName)) ->
    In x (amount (output u)) ->
    asset_unit x = userUnit a assetName ->
    js_Number (asset_quantity x) = ofZ (intOf (asset_quantity x)).

(** The stored owner of an asset: what [getPkHash] reads from the datum of
    its reference-token UTxO. *)
Definition storedPk {E : Externals} (a : MeshAdapter) (assetName : string)
  : result (option string) :=
  getPkHash (plutusDataOf (getAddressUTXOAsset a (storeAddress a) (refUnit a assetName))).

(** The caller: the public-key hash of the wallet's change address. *)
Definition callerPkh {E : Externals} (a : MeshAdapter) : string :=
  pubKeyHash (deserializeAddress (getChangeAddress (meshWallet a))).

(** The calls one asset adds to a mint, by the state of the assets. *)
Definition mintActions {E : Externals} (a : MeshAdapter) (allExist : bool) (p : MintParam)
  : list Action :=
  if allExist then mintExistingActions a p else mintNewActions a p.



(** The last five calls of mint before [complete]. *)
Definition mintClosing {E : Externals} (w : WalletForTx) : list Action :=
  [ ChangeAddress (wf_walletAddress w);
    RequiredSignerHash (pubKeyHash (deserializeAddress (wf_walletAddress w)));
    SelectUtxosFrom (wf_utxos w);
    TxInCollateral (txHash (input (wf_collateral w))) (outputIndex (input (wf_collateral w)))
                   (amount (output (wf_collateral w))) (address (output (wf_collateral w)));
    SetNetwork APP_NETWORK;
    Complete ].


(** A field of an item is there and truthy. *)
Definition hasField (k : string) (item : json) : bool :=
  match item with
  | JObj fields => truthy (lookupField fields k)
  | _ => false
  end.

Definition completeItem (item : json) : bool :=
  hasField "asset_name" item && hasField "metadata" item && hasField "receiver" item.

(** The calls mint makes before the assets are looked at. *)
Definition mintOpening (utxosInput : option (list UTxO)) : list Action :=
  MintPlutusScriptV3 ::
  match utxosInput with
  | Some us => map (fun u => TxIn (txHash (input u)) (outputIndex (input u))) us
  | None => []
  end.

(** [allExist] and [allNew] of mint. *)
Definition allExistOf {E : Externals} (a : MeshAdapter) (params : list MintParam) : bool :=
  forallb (fun p => hasPlutusData a (m_assetName p)) params.
Definition allNewOf {E : Externals} (a : MeshAdapter) (params : list MintParam) : bool :=
  forallb (fun p => negb (hasPlutusData a (m_assetName p))) params.

(** The receiver map after the callbacks of [order] have run on [m0]. *)
Definition collectReceivers {E : Externals} (a : MeshAdapter) (walletAddress : string)
           (order : list MintParam) (m0 : ReceiverMap) : ReceiverMap :=
  fold_left (fun acc p => pushReceiver acc (receiverKey walletAddress p) (userAsset a p))
            order m0.

(** The calls the callback of one asset adds to a burn. *)
Definition burnActions {E : Externals} (a : MeshAdapter) (walletAddress : string)
           (p : BurnParam) : list Action :=
  match locateStoreUtxo a (b_assetName p) (b_txHash p) with
  | Ok storeUtxo =>
      if jsStrictEq (jsNeg (js_Number (b_quantity p)))
                    (heldAmount a walletAddress (b_assetName p))
      then fullBurnActions a p storeUtxo
      else partialBurnActions a walletAddress p (heldAmount a walletAddress (b_assetName p))
  | Err _ => []
  end.

(** The last calls of update and burn. *)
Definition spendClosing {E : Externals} (w : WalletForTx) : list Action :=
  [ RequiredSignerHash (pubKeyHash (deserializeAddress (wf_walletAddress w)));
    ChangeAddress (wf_walletAddress w);
    SelectUtxosFrom (wf_utxos w);
    TxInCollateral (txHash (input (wf_collateral w))) (outputIndex (input (wf_collateral w)))
                   (amount (output (wf_collateral w))) (address (output (wf_collateral w)));
    SetNetwork APP_NETWORK;
    Complete ].

(** ** Further vocabulary: the adapter, whole runs, the single-mint handler *)

(** The descriptor has a validator with the given title. *)
Definition hasValidator (p : Plutus) (t : string) : bool :=
  existsb (fun v => String.eqb (title v) t) (validators p).

(** What the provider is asked when the reference-token UTxO is looked up. *)
Definition storeCandidates {E : Externals} (a : MeshAdapter) (assetName : string)
           (hash : option string) : list UTxO :=
  fetchAddressUTxOs (fetcher a) (storeAddress a)
                    (if truthyStr hash then None else Some (refUnit a assetName)).




(** Kinds of builder calls. *)
Definition isDatum (x : Action) : bool :=
  match x with TxOutInlineDatumValue _ => true | _ => false end.
(** Calls that spend from a script. *)
Definition isScriptSpend (x : Action) : bool :=
  match x with
  | SpendingPlutusScriptV3 | TxInInlineDatumPresent | TxInRedeemerValue _ | TxInScript _ => true
  | _ => false
  end.
(** Calls of a mint block. *)
Definition isMinting (x : Action) : bool :=
  match x with
  | MintPlutusScriptV3 | Mint _ _ _ | MintingScript _ | MintRedeemerValue _ => true
  | _ => false
  end.

(** The builder attaches a datum to the output declared last and starts a
    mint item under the mode declared last.  A log keeps to that protocol
    when every datum directly follows an output to [store] that holds one
    asset in quantity "1", and every mint directly follows
    [mintPlutusScriptV3]; [prev] is the call before. *)
Fixpoint protocolOk (store : string) (prev : option Action) (log : list Action) : bool :=
  match log with
  | [] => true
  | x :: rest =>
      match x with
      | TxOutInlineDatumValue _ =>
          match prev with
          | Some (TxOut addr [x]) => String.eqb addr store && String.eqb (asset_quantity x) "1"
          | _ => false
          end
      | Mint _ _ _ =>
          match prev with
          | Some MintPlutusScriptV3 => true
          | _ => false
          end
      | _ => true
      end && protocolOk store (Some x) rest
  end.

(** A computation only appends calls, and the calls it appends, taken
    together, satisfy [Q]. *)
Definition appendsBlock {A} (Q : list Action -> Prop) (m : TxM A) : Prop :=
  forall log, exists added, snd (m log) = log ++ added /\ Q added.

(** The calls the callback of one asset adds to an update. *)
Definition updateActionsOf {E : Externals} (a : MeshAdapter) (p : UpdateParam) : list Action :=
  match locateStoreUtxo a (u_assetName p) (u_txHash p) with
  | Ok storeUtxo => updateActions a p storeUtxo
  | Err _ => []
  end.

(** The quantities of the user token of [assetName], output by output, in
    what the provider reports for the wallet. *)
Definition heldQuantities {E : Externals} (a : MeshAdapter) (walletAddress assetName : string)
  : list (list string) :=
  map (fun u => map asset_quantity
                    (filter (fun x => String.eqb (asset_unit x) (userUnit a assetName))
                            (amount (output u))))
      (getAddressUTXOAssets a walletAddress (userUnit a assetName)).

(** *** The single-mint handler ([mint] of the controller) *)

Inductive MintBody : Type :=
| MintError (error : string) (details : option string)
| Minted (tx_hash policy_id : string) (asset_name : option json).

Record MintResponse := { mintStatus : Z; mintBody : MintBody }.
Record MintOutcome := { mintResponse : option MintResponse; mintTrace : list Interaction }.

Definition mintBadRequest : MintResponse :=
  {| mintStatus := 400;
     mintBody := MintError "Missing required fields: asset_name, metadata, or receiver, course"
                           None |}.
(** The answer of the [catch]: [details: error.message || 'Unknown error']. *)
Definition mintFailed (message : string) : MintResponse :=
  {| mintStatus := 500;
     mintBody := MintError "Failed to mint asset"
                           (Some (if String.eqb message "" then "Unknown error" else message)) |}.

(** The answer given before any interaction, if any: a missing field, or a
    [TypeError] of the destructuring caught by the handler. *)
Definition validateMint (body : json) : option MintResponse :=
  match prop body "course", prop body "asset_name", prop body "metadata",
        prop body "receiver" with
  | Ok course, Ok asset_name, Ok metadata, Ok receiver =>
      if negb (truthy asset_name) || negb (truthy metadata) || negb (truthy receiver)
         || negb (truthy course)
      then Some mintBadRequest
      else None
  | _, _, _, _ => Some (mintFailed "TypeError")
  end.

Section MintHandler.
Context {E : Externals}.

(** [quantity.toString()] after the default ['1'] of the destructuring, which
    applies to a missing quantity only; [null] has no [toString]. *)
Definition mintQuantityText (q : option json) : result (option string) :=
  match q with
  | None => Ok (Some "1")
  | Some JNull => Err "TypeError"
  | Some (JStr s) => Ok (Some s)
  | Some (JNum n) => Ok (Some (js_String n))
  | Some (JBool b) => Ok (Some (if b then "true" else "false"))
  | Some _ => Ok None
  end.

(** The one element of [params], when the fields have the types the builder
    is declared with. *)
Definition paramOfBody (body : json) (quantity : string) : option MintParam :=
  match body with
  | JObj fields =>
      match lookupField fields "asset_name", lookupField fields "metadata",
            lookupField fields "receiver" with
      | Some (JStr name), Some (JObj md), Some (JStr receiver) =>
          match metadataOfFields md with
          | Some metadata =>
              Some {| m_assetName := name; m_metadata := metadata;
                      m_quantity := Some quantity; m_receiver := Some receiver |}
          | None => None
          end
      | _, _, _ => None
      end
  | _ => None
  end.

(** From [new MeshWallet(...)] to the answer. *)
Definition mintChainPhase (h : Host) (body : json) (course : string) (p : MintParam)
  : MintOutcome :=
  let t1 := [NewBlockfrostProvider; NewMeshWallet; WalletGetChangeAddress; NewMeshTxBuilder] in
  match newMeshAdapter (host_fetcher h) (host_wallet h) course
                       (getChangeAddress (host_wallet h)) with
  | Err e => {| mintResponse := Some (mintFailed e); mintTrace := t1 |}
  | Ok builder =>
      let t2 := t1 ++ [BuilderMint] in
      match fst (mint builder [p] None (host_order h [p]) []) with
      | Err e => {| mintResponse := Some (mintFailed e); mintTrace := t2 |}
      | Ok unsignedTx =>
          let t3 := t2 ++ [WalletSignTx] in
          match signTx h unsignedTx with
          | Err e => {| mintResponse := Some (mintFailed e); mintTrace := t3 |}
          | Ok signedTx =>
              let t4 := t3 ++ [WalletSubmitTx] in
              match submitTx h signedTx with
              | Err e => {| mintResponse := Some (mintFailed e); mintTrace := t4 |}
              | Ok hash =>
                  let t5 := t4 ++ [OnTxConfirmed] in
                  if txConfirmed h hash
                  then {| mintResponse :=
                            Some {| mintStatus := 200;
                                    mintBody := Minted hash (policyId builder)
                                                       (assetNameOf body) |};
                          mintTrace := t5 |}
                  else {| mintResponse := None; mintTrace := t5 |}
              end
          end
      end
  end.

(** [mint(request, response)] of the controller.  [dynamic] stands for what
    happens from the first interaction on when a field that passed the check
    is not of the JSON type the builder expects. *)
Definition mintHandler (h : Host) (dynamic : json -> MintOutcome) (body : json) : MintOutcome :=
  match validateMint body with
  | Some r => {| mintResponse := Some r; mintTrace := [] |}
  | None =>
      match prop body "quantity" with
      | Err e => {| mintResponse := Some (mintFailed e); mintTrace := [] |}
      | Ok quantity =>
          match mintQuantityText quantity with
          | Err e => {| mintResponse := Some (mintFailed e); mintTrace := [NewBlockfrostProvider] |}
          | Ok None => dynamic body
          | Ok (Some q) =>
              match prop body "course", paramOfBody body q with
              | Ok (Some (JStr c)), Some p => mintChainPhase h body c p
              | _, _ => dynamic body
              end
          end
      end
  end.
End MintHandler.


(** The three operations of the builder, as calls. *)
Inductive Operation : Type :=
| OpMint (params : list MintParam) (utxosInput : option (list UTxO)) (order : list MintParam)
| OpUpdate (order : list UpdateParam)
| OpBurn (order : list BurnParam).

Definition runOp {E : Externals} (a : MeshAdapter) (op : Operation) : TxM string :=
  match op with
  | OpMint params utxosInput order => mint a params utxosInput order
  | OpUpdate order => update a order
  | OpBurn order => burn a order
  end.


(** The interactions of a mint request that runs to its end, in order. *)
Definition mintPipeline : list Interaction :=
  [ NewBlockfrostProvider; NewMeshWallet; WalletGetChangeAddress; NewMeshTxBuilder;
    BuilderMint; WalletSignTx; WalletSubmitTx; OnTxConfirmed ].

(** The builder a handler makes for [course] and the transaction its mint
    builds for [params]. *)
Definition buildMint {E : Externals} (h : Host) (course : string) (params : list MintParam)
  : result (MeshAdapter * string) :=
  match newMeshAdapter (host_fetcher h) (host_wallet h) course
                       (getChangeAddress (host_wallet h)) with
  | Err e => Err e
  | Ok builder =>
      match fst (mint builder params None (host_order h params) []) with
      | Err e => Err e
      | Ok unsignedTx => Ok (builder, unsignedTx)
      end
  end.

(** The first element of a batch that is not a complete item. *)
Definition firstIncomplete (items : list json) : option json :=
  find (fun item => negb (completeItem item)) items.


Definition isMint (x : Action) : bool :=
  match x with Mint _ _ _ => true | _ => false end.


(* ================================================================= *)
(** * Part II: facts *)
(* ================================================================= *)

(** ** Doubles are exact on integers up to 2^53 *)

Lemma two53_pow : two53 = 2 ^ 53.
Proof. reflexivity. Qed.

Lemma digits2_size p : digits2_pos p = Pos.size p.
Proof. induction p; simpl; congruence. Qed.

Lemma digits_bounds p : 2 ^ (Zpos (digits2_pos p) - 1) <= Zpos p < 2 ^ Zpos (digits2_pos p).
Proof.
  rewrite digits2_size. split.
  - pose proof (Pos.size_le p) as H.
    assert (Hs : (2 ^ Pos.size p <= p~0)%positive) by exact H.
    apply Pos2Z.pos_le_pos in Hs. rewrite Pos2Z.inj_pow in Hs.
    replace (Zpos (Pos.size p)) with (Z.succ (Zpos (Pos.size p) - 1)) in Hs by lia.
    rewrite Z.pow_succ_r in Hs by lia. lia.
  - pose proof (Pos.size_gt p) as H.
    apply Pos2Z.pos_lt_pos in H. rewrite Pos2Z.inj_pow in H. exact H.
Qed.

Lemma digits_unique p D : 2 ^ (D - 1) <= Zpos p < 2 ^ D -> Zpos (digits2_pos p) = D.
Proof.
  intros [Hlo Hhi]. pose proof (digits_bounds p) as [Blo Bhi].
  assert (HD : 0 < D).
  { destruct (Z_lt_le_dec 0 D); auto.
    assert (2 ^ D <= 1).
    { destruct (Z.eq_dec D 0) as [->|]; [simpl; lia|].
      rewrite Z.pow_neg_r by lia. lia. }
    lia. }
  set (d := Zpos (digits2_pos p)) in *.
  destruct (Z.lt_trichotomy d D) as [Hlt | [Heq | Hgt]]; auto; exfalso.
  - assert (2 ^ d <= 2 ^ (D - 1)) by (apply Z.pow_le_mono_r; lia). lia.
  - assert (2 ^ D <= 2 ^ (d - 1)) by (apply Z.pow_le_mono_r; lia). lia.
Qed.

Lemma iter_pos_eq {A} (f : A -> A) p : forall x, iter_pos f p x = Pos.iter f x p.
Proof.
  induction p; intros x; simpl.
  - rewrite !IHp. rewrite <- !Pos.iter_swap. reflexivity.
  - rewrite !IHp. reflexivity.
  - reflexivity.
Qed.

Lemma shr_trailing p : forall m, iter_pos shr_1 p (exactRec (Pos.iter xO m p)) = exactRec m.
Proof.
  intros m. rewrite iter_pos_eq. revert m.
  induction p using Pos.peano_ind; intros m.
  - reflexivity.
  - rewrite Pos.iter_succ_r. rewrite Pos.iter_succ. simpl. apply IHp.
Qed.

Lemma shift_pos_value m p : Zpos (Pos.iter xO m p) = Zpos m * 2 ^ Zpos p.
Proof.
  change (Pos.iter xO m p) with (shift_pos p m).
  rewrite shift_pos_correct, Zpower_pos_nat, Zpower_nat_Z, positive_nat_Z. lia.
Qed.

Lemma shr_trailing_value M m p :
  Zpos M = Zpos m * 2 ^ Zpos p -> iter_pos shr_1 p (exactRec M) = exactRec m.
Proof.
  intros H. rewrite <- shift_pos_value in H. injection H as ->. apply shr_trailing.
Qed.

Lemma fexp_canon e : -1074 <= e -> fexp prec emax (53 + e) = e.
Proof. intros. unfold fexp, emin, prec, emax. lia. Qed.

Lemma shr_fexp_canon m e :
  canonical53 m e -> shr_fexp prec emax (Zpos m) e loc_Exact = (exactRec m, e).
Proof.
  intros [Hd He]. unfold shr_fexp. simpl Zdigits2. rewrite Hd.
  rewrite fexp_canon by lia. rewrite Z.sub_diag. reflexivity.
Qed.

Lemma round_tail s m e :
  canonical53 m e ->
  (let '(mrs'', e'') := shr_fexp prec emax (round_nearest_even (shr_m (exactRec m)) (loc_of_shr_record (exactRec m))) e loc_Exact in
   match shr_m mrs'' with
   | Z0 => S754_zero s
   | Zpos m => if Z.leb e'' (emax - prec) then S754_finite s m e'' else S754_infinity s
   | _ => S754_nan
   end) = S754_finite s m e.
Proof.
  intros Hc. simpl round_nearest_even. rewrite (shr_fexp_canon _ _ Hc). simpl shr_m.
  destruct Hc as [_ He]. unfold emax, prec.
  destruct (Z.leb_spec e (1024 - 53)); [reflexivity | lia].
Qed.

(** Any exact binary representation of a canonical double rounds to it. *)
Lemma round_repr s M E m e :
  canonical53 m e ->
  (E <= e /\ Zpos M = Zpos m * 2 ^ (e - E)) \/ (e <= E /\ Zpos m = Zpos M * 2 ^ (E - e)) ->
  binary_round prec emax s M E = S754_finite s m e.
Proof.
  intros Hc Hrep. pose proof Hc as [Hd He].
  unfold binary_round.
  destruct Hrep as [[Hle HM] | [Hle Hm]].
  - (* trailing zeros to shift out *)
    assert (HdM : Zpos (digits2_pos M) = 53 + (e - E)).
    { apply digits_unique. pose proof (digits_bounds m) as [Blo Bhi].
      rewrite Hd in Blo, Bhi. rewrite HM.
      replace (53 + (e - E) - 1) with (52 + (e - E)) by lia.
      rewrite !Z.pow_add_r by lia.
      assert (0 < 2 ^ (e - E)) by (apply Z.pow_pos_nonneg; lia).
      split; nia. }
    rewrite HdM. replace (53 + (e - E) + E) with (53 + e) by lia.
    rewrite fexp_canon by lia.
    assert (Hal : shl_align M E e = (M, E)).
    { unfold shl_align. destruct (e - E) eqn:Hi; try reflexivity. lia. }
    rewrite Hal. unfold binary_round_aux.
    assert (Hs : shr_fexp prec emax (Zpos M) E loc_Exact = (exactRec m, e)).
    { unfold shr_fexp. simpl Zdigits2. rewrite HdM.
      replace (53 + (e - E) + E) with (53 + e) by lia.
      rewrite fexp_canon by lia. simpl shr_record_of_loc.
      unfold shr. destruct (e - E) eqn:Hi.
      - assert (E = e) by lia. subst E. rewrite Z.pow_0_r in HM.
        assert (M = m) by lia. subst. reflexivity.
      - pose proof (shr_trailing_value M m p HM) as Hx. unfold exactRec in Hx |- *.
        rewrite Hx. f_equal. lia.
      - lia. }
    rewrite Hs. apply round_tail; assumption.
  - (* digits to shift in *)
    assert (HdM : Zpos (digits2_pos M) = 53 - (E - e)).
    { apply digits_unique. pose proof (digits_bounds m) as [Blo Bhi].
      rewrite Hd in Blo, Bhi. rewrite Hm in Blo, Bhi.
      assert (0 < 2 ^ (E - e)) by (apply Z.pow_pos_nonneg; lia).
      assert (E - e <= 52).
      { destruct (Z_le_gt_dec (E - e) 52); auto.
        assert (2 ^ 53 <= 2 ^ (E - e)) by (apply Z.pow_le_mono_r; lia).
        assert (1 <= Zpos M) by lia. nia. }
      replace (2 ^ (53 - 1)) with (2 ^ (53 - (E - e) - 1) * 2 ^ (E - e)) in Blo
        by (rewrite <- Z.pow_add_r by lia; f_equal; lia).
      replace (2 ^ 53) with (2 ^ (53 - (E - e)) * 2 ^ (E - e)) in Bhi
        by (rewrite <- Z.pow_add_r by lia; f_equal; lia).
      split; nia. }
    rewrite HdM. replace (53 - (E - e) + E) with (53 + e) by lia.
    rewrite fexp_canon by lia.
    assert (Hal : shl_align M E e = (m, e)).
    { unfold shl_align. destruct (e - E) eqn:Hi.
      - assert (E = e) by lia. subst E. rewrite Z.sub_diag, Z.pow_0_r in Hm.
        assert (M = m) by lia. subst. reflexivity.
      - lia.
      - replace (E - e) with (Zpos p) in Hm by lia.
        rewrite <- shift_pos_value in Hm. injection Hm as ->. reflexivity. }
    rewrite Hal. unfold binary_round_aux.
    rewrite (shr_fexp_canon _ _ Hc). apply round_tail; assumption.
Qed.

(** The canonical double of a positive integer not above 2^53. *)
Lemma canon_exists (n : positive) :
  Zpos n <= two53 ->
  exists m e, canonical53 m e /\ -52 <= e <= 1 /\
    ((e <= 0 /\ Zpos m = Zpos n * 2 ^ (- e)) \/ (e = 1 /\ Zpos n = 2 * Zpos m)).
Proof.
  intros Hn. pose proof (digits_bounds n) as [Blo Bhi].
  set (d := Zpos (digits2_pos n)) in *.
  assert (Hd1 : 1 <= d) by (unfold d; lia).
  destruct (Z_le_gt_dec d 53) as [Hd | Hd].
  - assert (Hpos : 0 < Zpos n * 2 ^ (53 - d)).
    { assert (0 < 2 ^ (53 - d)) by (apply Z.pow_pos_nonneg; lia). nia. }
    exists (Z.to_pos (Zpos n * 2 ^ (53 - d))), (d - 53).
    assert (Hv : Zpos (Z.to_pos (Zpos n * 2 ^ (53 - d))) = Zpos n * 2 ^ (53 - d))
      by (rewrite Z2Pos.id; lia).
    split; [split|split]; try lia.
    + apply digits_unique. rewrite Hv.
      assert (0 < 2 ^ (53 - d)) by (apply Z.pow_pos_nonneg; lia).
      replace (2 ^ (53 - 1)) with (2 ^ (d - 1) * 2 ^ (53 - d))
        by (rewrite <- Z.pow_add_r by lia; f_equal; lia).
      replace (2 ^ 53) with (2 ^ d * 2 ^ (53 - d))
        by (rewrite <- Z.pow_add_r by lia; f_equal; lia).
      split; nia.
    + left. split; [lia|]. rewrite Hv. f_equal. f_equal. lia.
  - assert (H54 : 2 ^ 53 <= 2 ^ (d - 1)) by (apply Z.pow_le_mono_r; lia).
    rewrite two53_pow in Hn.
    assert (Heq : Zpos n = 2 ^ 53) by lia.
    exists 4503599627370496%positive, 1.
    split; [split; [reflexivity | lia]|]. split; [lia|].
    right. split; [reflexivity|]. rewrite Heq. reflexivity.
Qed.

(** Trailing zero bits do not change the result of rounding an integer
    that fits in 53 bits (or is 2^53 itself). *)
Lemma round_int s (M n : positive) k :
  0 <= k -> Zpos M = Zpos n * 2 ^ k -> Zpos n <= two53 ->
  binary_round prec emax s M (- k) = binary_round prec emax s n 0.
Proof.
  intros Hk HM Hn.
  destruct (canon_exists n Hn) as (m & e & Hc & He & Hrep).
  rewrite (round_repr s n 0 m e Hc).
  - apply round_repr; [assumption|].
    destruct Hrep as [[He0 Hm] | [He1 Hm]].
    + destruct (Z_le_gt_dec (- k) e).
      * left. split; [assumption|]. rewrite HM, Hm.
        rewrite <- Z.mul_assoc, <- Z.pow_add_r by lia. f_equal. f_equal. lia.
      * right. split; [lia|]. rewrite HM, Hm.
        rewrite <- Z.mul_assoc, <- Z.pow_add_r by lia. f_equal. f_equal. lia.
    + left. split; [lia|]. subst e. rewrite HM, Hm.
      replace (1 - - k) with (Z.succ k) by lia. rewrite Z.pow_succ_r by lia. lia.
  - destruct Hrep as [[He0 Hm] | [He1 Hm]].
    + right. split; [lia|]. rewrite Hm. f_equal.
    + left. split; [lia|]. subst e. rewrite Hm. simpl. lia.
Qed.

Lemma ofZ_form a :
  safeInt a -> a <> 0 ->
  exists m e, ofZ a = S754_finite (a <? 0) m e /\ canonical53 m e /\ -52 <= e <= 1 /\
              reprOf m e (Z.abs a).
Proof.
  intros Ha Hnz. unfold safeInt in Ha.
  destruct a as [|p|p]; [congruence| |].
  - destruct (canon_exists p ltac:(lia)) as (m & e & Hc & He & Hrep).
    exists m, e. split; [|split; [assumption|split; [assumption|exact Hrep]]].
    unfold ofZ, binary_normalize. change (Zpos p <? 0) with false.
    apply round_repr; [assumption|].
    destruct Hrep as [[He0 Hm] | [He1 Hm]].
    + right. split; [lia|]. rewrite Hm. f_equal.
    + left. split; [lia|]. subst e. rewrite Hm. simpl. lia.
  - destruct (canon_exists p ltac:(lia)) as (m & e & Hc & He & Hrep).
    exists m, e. split; [|split; [assumption|split; [assumption|exact Hrep]]].
    unfold ofZ, binary_normalize. change (Zneg p <? 0) with true.
    apply round_repr; [assumption|].
    destruct Hrep as [[He0 Hm] | [He1 Hm]].
    + right. split; [lia|]. rewrite Hm. f_equal.
    + left. split; [lia|]. subst e. rewrite Hm. simpl. lia.
Qed.

Lemma shl_align_value m e e' :
  e' <= e -> shl_align m e e' = (Z.to_pos (Zpos m * 2 ^ (e - e')), e').
Proof.
  intros Hle. unfold shl_align. destruct (e' - e) eqn:Hd.
  - assert (e' = e) by lia. subst. rewrite Z.sub_diag. simpl. f_equal. lia.
  - lia.
  - replace (e - e') with (Zpos p) by lia. rewrite <- shift_pos_value. reflexivity.
Qed.

Lemma cond_Zopp_sign a c : cond_Zopp (a <? 0) (Z.abs a * c) = a * c.
Proof. unfold cond_Zopp. destruct (Z.ltb_spec a 0); nia. Qed.

Lemma normalize_scaled v k :
  0 <= k -> safeInt v ->
  binary_normalize prec emax (v * 2 ^ k) (- k) false = ofZ v.
Proof.
  intros Hk Hv. unfold safeInt in Hv. unfold ofZ.
  assert (Hp : 0 < 2 ^ k) by (apply Z.pow_pos_nonneg; lia).
  destruct v as [|p|p].
  - reflexivity.
  - destruct (Zpos p * 2 ^ k) as [|M|M] eqn:HM; try lia.
    unfold binary_normalize. apply round_int; auto; lia.
  - destruct (Zneg p * 2 ^ k) as [|M|M] eqn:HM; try lia.
    unfold binary_normalize. apply round_int; auto; lia.
Qed.

Lemma aligned_value m e v ez :
  canonical53 m e -> reprOf m e v -> ez <= e -> ez <= 0 -> 0 < v ->
  Zpos (fst (shl_align m e ez)) = v * 2 ^ (- ez).
Proof.
  intros Hc Hr Hle Hz Hv. rewrite shl_align_value by assumption. cbn [fst].
  assert (0 < 2 ^ (e - ez)) by (apply Z.pow_pos_nonneg; lia).
  rewrite Z2Pos.id by (apply Z.mul_pos_pos; lia).
  destruct Hr as [[He Hm] | [He Hm]].
  - rewrite Hm, <- Z.mul_assoc, <- Z.pow_add_r by lia. f_equal. f_equal. lia.
  - subst e v. replace (1 - ez) with (Z.succ (- ez)) by lia.
    rewrite Z.pow_succ_r by lia. lia.
Qed.

Theorem add_exact a b :
  safeInt a -> safeInt b -> safeInt (a + b) -> jsAdd (ofZ a) (ofZ b) = ofZ (a + b).
Proof.
  intros Ha Hb Hab.
  destruct (Z.eq_dec b 0) as [->|Hnb].
  { rewrite Z.add_0_r. destruct (Z.eq_dec a 0) as [->|Hna]; [reflexivity|].
    destruct (ofZ_form a Ha Hna) as (ma & ea & Ea & _). rewrite Ea. reflexivity. }
  destruct (Z.eq_dec a 0) as [->|Hna].
  { simpl Z.add. destruct (ofZ_form b Hb Hnb) as (mb & eb & Eb & _). rewrite Eb. reflexivity. }
  destruct (ofZ_form a Ha Hna) as (ma & ea & Ea & Hca & Hea & Hra).
  destruct (ofZ_form b Hb Hnb) as (mb & eb & Eb & Hcb & Heb & Hrb).
  rewrite Ea, Eb. unfold jsAdd, SFadd.
  set (ez := Z.min ea eb).
  destruct (Z_le_gt_dec ez 0) as [Hz | Hz].
  - rewrite (aligned_value ma ea (Z.abs a) ez) by (auto; lia).
    rewrite (aligned_value mb eb (Z.abs b) ez) by (auto; lia).
    rewrite !cond_Zopp_sign.
    rewrite <- Z.mul_add_distr_r.
    rewrite <- (normalize_scaled (a + b) (- ez)) by (auto; lia).
    rewrite Z.opp_involutive. reflexivity.
  - (* both operands are +-2^53 *)
    assert (ea = 1 /\ eb = 1) as [-> ->] by lia.
    destruct Hra as [[? _]|[_ Hra]]; [lia|].
    destruct Hrb as [[? _]|[_ Hrb]]; [lia|].
    destruct Hca as [Hda _]. destruct Hcb as [Hdb _].
    pose proof (digits_bounds ma) as [Bal _]. rewrite Hda in Bal.
    pose proof (digits_bounds mb) as [Bbl _]. rewrite Hdb in Bbl.
    change (2 ^ (53 - 1)) with 4503599627370496 in *.
    unfold safeInt, two53 in *.
    assert (Zpos ma = 4503599627370496) by lia.
    assert (Zpos mb = 4503599627370496) by lia.
    assert (a + b = 0) by lia.
    replace (a + b) with 0 by lia.
    unfold ez. simpl Z.min.
    assert (ma = 4503599627370496%positive) by lia.
    assert (mb = 4503599627370496%positive) by lia. subst ma mb.
    destruct a, b; try lia; reflexivity.
Qed.

Lemma reprOf_inj m e v1 v2 : reprOf m e v1 -> reprOf m e v2 -> v1 = v2.
Proof.
  intros [[He H1]|[He H1]] [[He' H2]|[He' H2]]; try lia.
  assert (0 < 2 ^ (- e)) by (apply Z.pow_pos_nonneg; lia).
  rewrite H1 in H2. apply Z.mul_reg_r in H2; lia.
Qed.

Lemma SFeqb_finite s1 m1 e1 s2 m2 e2 :
  SFeqb (S754_finite s1 m1 e1) (S754_finite s2 m2 e2) = true <->
  s1 = s2 /\ m1 = m2 /\ e1 = e2.
Proof.
  unfold SFeqb, SFcompare. split.
  - destruct s1, s2; try discriminate;
      destruct (Z.compare_spec e1 e2); try discriminate;
      change (Pos.compare_cont Eq m1 m2) with (Pos.compare m1 m2);
      destruct (Pos.compare_spec m1 m2); try discriminate; intros _; auto.
  - intros (-> & -> & ->). rewrite Z.compare_refl.
    change (Pos.compare_cont Eq m2 m2) with (Pos.compare m2 m2).
    rewrite Pos.compare_refl. destruct s2; reflexivity.
Qed.

Lemma ltb_abs_eq a b : Z.abs a = Z.abs b -> (a <? 0) = (b <? 0) -> a = b.
Proof. intros H1 H2. destruct (Z.ltb_spec a 0), (Z.ltb_spec b 0); try discriminate; lia. Qed.

Theorem eqb_exact a b :
  safeInt a -> safeInt b -> jsStrictEq (ofZ a) (ofZ b) = (a =? b).
Proof.
  intros Ha Hb. unfold jsStrictEq.
  destruct (Z.eq_dec a 0) as [->|Hna]; destruct (Z.eq_dec b 0) as [->|Hnb].
  - reflexivity.
  - destruct (ofZ_form b Hb Hnb) as (mb & eb & Eb & _). rewrite Eb.
    change (ofZ 0) with (S754_zero false).
    destruct (Z.eqb_spec 0 b); [congruence|]. destruct (b <? 0); reflexivity.
  - destruct (ofZ_form a Ha Hna) as (ma & ea & Ea & _). rewrite Ea.
    change (ofZ 0) with (S754_zero false).
    destruct (Z.eqb_spec a 0); [congruence|]. destruct (a <? 0); reflexivity.
  - destruct (ofZ_form a Ha Hna) as (ma & ea & Ea & Hca & Hea & Hra).
    destruct (ofZ_form b Hb Hnb) as (mb & eb & Eb & Hcb & Heb & Hrb).
    rewrite Ea, Eb.
    destruct (Z.eqb_spec a b) as [Heq | Hne].
    + subst b. rewrite Ea in Eb. injection Eb as -> ->.
      apply SFeqb_finite. auto.
    + destruct (SFeqb _ _) eqn:E; [|reflexivity].
      apply SFeqb_finite in E. destruct E as (Hs & -> & ->).
      exfalso. apply Hne. apply ltb_abs_eq; [|assumption].
      eapply reprOf_inj; eassumption.
Qed.

Lemma SFeqb_opp_zero y : SFeqb (S754_zero true) y = SFeqb (S754_zero false) y.
Proof. reflexivity. Qed.

Lemma neg_ofZ a : safeInt a -> a <> 0 -> jsNeg (ofZ a) = ofZ (- a).
Proof.
  intros Ha Hna. unfold safeInt in Ha.
  destruct a as [|p|p]; [congruence| |];
    destruct (canon_exists p ltac:(lia)) as (m & e & Hc & He & Hrep);
    assert (Hr : forall s, binary_round prec emax s p 0 = S754_finite s m e)
      by (intros s; apply round_repr; [assumption|];
          destruct Hrep as [[He0 Hm] | [He1 Hm]];
          [right; split; [lia|]; rewrite Hm; f_equal
          |left; split; [lia|]; subst e; rewrite Hm; simpl; lia]);
    unfold jsNeg, ofZ; simpl Z.opp; unfold binary_normalize; rewrite !Hr; reflexivity.
Qed.

Theorem neg_eqb_exact q h :
  safeInt q -> safeInt h -> jsStrictEq (jsNeg (ofZ q)) (ofZ h) = (- q =? h).
Proof.
  intros Hq Hh. destruct (Z.eq_dec q 0) as [->|Hnq].
  - change (jsNeg (ofZ 0)) with (S754_zero true). unfold jsStrictEq.
    rewrite SFeqb_opp_zero. change (S754_zero false) with (ofZ 0).
    apply (eqb_exact 0 h); [unfold safeInt, two53; lia | assumption].
  - rewrite neg_ofZ by assumption. apply eqb_exact; [|assumption].
    unfold safeInt in *. lia.
Qed.

(** ** The builder monad *)

(** [H : In x l] for an explicit list [l] none of whose elements can be [x]. *)
Ltac not_in_list H :=
  simpl in H; repeat (destruct H as [H | H]; [discriminate|]); try contradiction.

Create HintDb appends.

Lemma bind_ok {A B} (m : TxM A) (k : A -> TxM B) log a log' :
  m log = (Ok a, log') -> bind m k log = k a log'.
Proof. intros H. unfold bind. rewrite H. reflexivity. Qed.

Lemma bind_err {A B} (m : TxM A) (k : A -> TxM B) log e log' :
  m log = (Err e, log') -> bind m k log = (Err e, log').
Proof. intros H. unfold bind. rewrite H. reflexivity. Qed.

Lemma appendsOnly_ret {A} P (a : A) : appendsOnly P (ret a).
Proof. intros log. exists []. rewrite app_nil_r. split; [reflexivity | constructor]. Qed.

Lemma appendsOnly_throw {A} P e : appendsOnly P (@throw A e).
Proof. intros log. exists []. rewrite app_nil_r. split; [reflexivity | constructor]. Qed.

Lemma appendsOnly_liftR {A} P (r : result A) : appendsOnly P (liftR r).
Proof. intros log. exists []. rewrite app_nil_r. split; [reflexivity | constructor]. Qed.

#[export] Hint Resolve appendsOnly_ret appendsOnly_throw appendsOnly_liftR : appends.

Lemma appendsOnly_emitAll (P : Action -> Prop) acts : Forall P acts -> appendsOnly P (emitAll acts).
Proof. intros H log. exists acts. split; [reflexivity | assumption]. Qed.

Lemma appendsOnly_bind {A B} P (m : TxM A) (k : A -> TxM B) :
  appendsOnly P m -> (forall a, appendsOnly P (k a)) -> appendsOnly P (bind m k).
Proof.
  intros Hm Hk log. destruct (Hm log) as (added & Hs & Hf).
  unfold bind. destruct (m log) as [[a | e] log'] eqn:Em; simpl in Hs; subst log'.
  - destruct (Hk a (log ++ added)) as (added' & Hs' & Hf').
    exists (added ++ added'). rewrite Hs', app_assoc. split; [reflexivity|].
    apply Forall_app; split; assumption.
  - exists added. split; [reflexivity | assumption].
Qed.

Lemma appendsOnly_forEach {A} P (f : A -> TxM unit) xs :
  (forall x, In x xs -> appendsOnly P (f x)) -> appendsOnly P (forEach f xs).
Proof.
  induction xs as [|x xs IH]; intros Hf; simpl.
  - apply appendsOnly_ret.
  - apply appendsOnly_bind.
    + apply Hf. left. reflexivity.
    + intros _. apply IH. intros y Hy. apply Hf. right. assumption.
Qed.

Lemma appendsOnly_foldM {A S} P (f : A -> S -> TxM S) xs :
  (forall x s, In x xs -> appendsOnly P (f x s)) -> forall s, appendsOnly P (foldM f xs s).
Proof.
  induction xs as [|x xs IH]; intros Hf s; simpl.
  - apply appendsOnly_ret.
  - apply appendsOnly_bind.
    + apply Hf. left. reflexivity.
    + intros s'. apply IH. intros y s'' Hy. apply Hf. right. assumption.
Qed.

(** A loop fails as soon as one of its elements fails whatever the log is. *)
Lemma forEach_fails {A} (f : A -> TxM unit) xs x :
  In x xs -> (forall log, exists e, fst (f x log) = Err e) ->
  forall log, exists e, fst (forEach f xs log) = Err e.
Proof.
  induction xs as [|y ys IH]; intros Hin Hx log; [contradiction|].
  simpl. unfold bind. destruct (f y log) as [[[] | e] log'] eqn:Ey.
  - destruct Hin as [-> | Hin].
    + destruct (Hx log) as (e & He). rewrite Ey in He. discriminate.
    + apply IH; assumption.
  - exists e. reflexivity.
Qed.

Lemma foldM_fails {A S} (f : A -> S -> TxM S) xs x :
  In x xs -> (forall s log, exists e, fst (f x s log) = Err e) ->
  forall s log, exists e, fst (foldM f xs s log) = Err e.
Proof.
  induction xs as [|y ys IH]; intros Hin Hx s log; [contradiction|].
  simpl. unfold bind. destruct (f y s log) as [[s' | e] log'] eqn:Ey.
  - destruct Hin as [-> | Hin].
    + destruct (Hx s log) as (e & He). rewrite Ey in He. discriminate.
    + apply IH; assumption.
  - exists e. reflexivity.
Qed.

(** ** Magnitudes and signs of doubles *)




(** ** Burn: the reference-token UTxO must be found (claim C10) *)

Section BurnFacts.
Context {E : Externals}.

Lemma getUtxoForTx_none a addr h :
  (forall u, In u (fetchAddressUTxOs (fetcher a) addr None) -> txHash (input u) <> h) ->
  getUtxoForTx a addr h = Err "No UTXOs found in getUtxoForTx method.".
Proof.
  intros Hno. unfold getUtxoForTx.
  destruct (find _ _) as [u|] eqn:Ef; [|reflexivity].
  apply find_some in Ef. destruct Ef as [Hin Heq].
  apply String.eqb_eq in Heq. exfalso. exact (Hno u Hin Heq).
Qed.

Lemma locate_absent a name hash :
  storeUtxoAbsent a name hash ->
  locateStoreUtxo a name hash =
  Err (if truthyStr hash then "No UTXOs found in getUtxoForTx method."
       else "Store UTXO not found").
Proof.
  unfold storeUtxoAbsent, locateStoreUtxo. destruct (truthyStr hash) eqn:Et; intros Habs.
  - destruct hash as [h|]; [|discriminate].
    rewrite getUtxoForTx_none; [reflexivity|].
    intros u Hin Heq. apply (Habs u Hin). congruence.
  - unfold getAddressUTXOAsset. rewrite Habs. reflexivity.
Qed.


Lemma burnOne_appends a wa p : appendsOnly notComplete (burnOne a wa p).
Proof.
  unfold burnOne. apply appendsOnly_bind; [auto with appends|].
  intros su. destruct (jsStrictEq _ _); apply appendsOnly_emitAll;
    unfold fullBurnActions, partialBurnActions, notComplete;
    repeat constructor; discriminate.
Qed.

(** When a loop of the builder fails for one element, the whole operation
    throws and never reaches [complete]. *)
Lemma spend_loop_fails {A} (f : A -> TxM unit) (a : MeshAdapter) xs x log :
  In x xs ->
  (forall y, appendsOnly notComplete (f y)) ->
  (forall log', exists e, fst (f x log') = Err e) ->
  exists msg added,
    (w <- liftR (getWalletForTx a) ;; forEach f xs ;;; finalizeSpend w) log
    = (Err msg, log ++ added) /\ Forall notComplete added.
Proof.
  intros Hin Happ Hfail. unfold bind at 1, liftR.
  destruct (getWalletForTx a) as [w | e].
  - destruct (forEach_fails f xs x Hin Hfail log) as (e & He).
    destruct (appendsOnly_forEach notComplete f xs (fun y _ => Happ y) log)
      as (added & Hs & Hf).
    unfold bind. destruct (forEach f xs log) as [[[] | e'] log'] eqn:Ef;
      simpl in He, Hs; [discriminate|]. subst log'.
    exists e', added. split; [reflexivity | assumption].
  - exists e, []. rewrite app_nil_r. split; [reflexivity | constructor].
Qed.

End BurnFacts.

(** ** Burn: the two branches (claims C3 and C5) *)

Section BurnBranches.
Context {E : Externals}.

Lemma burnOne_located a wa p storeUtxo log :
  locateStoreUtxo a (b_assetName p) (b_txHash p) = Ok storeUtxo ->
  burnOne a wa p log =
  (Ok tt, log ++ if jsStrictEq (jsNeg (js_Number (b_quantity p)))
                               (heldAmount a wa (b_assetName p))
                 then fullBurnActions a p storeUtxo
                 else partialBurnActions a wa p (heldAmount a wa (b_assetName p))).
Proof.
  intros Hloc. unfold burnOne.
  rewrite (bind_ok _ _ log storeUtxo log) by (unfold liftR; rewrite Hloc; reflexivity).
  destruct (jsStrictEq _ _); reflexivity.
Qed.

(** A burn whose reference-token UTxOs are all found runs the callbacks of
    its assets in the order in which they resume, then closes and builds the
    transaction. *)
Lemma burn_runs_callbacks a order log w :
  getWalletForTx a = Ok w ->
  (forall p, In p order -> isErr (locateStoreUtxo a (b_assetName p) (b_txHash p)) = false) ->
  burn a order log =
  (completeTx (log ++ flat_map (burnActions a (wf_walletAddress w)) order
                   ++ removelast (spendClosing w)),
   log ++ flat_map (burnActions a (wf_walletAddress w)) order ++ spendClosing w).
Proof.
  intros Hw Hloc. unfold burn.
  rewrite (bind_ok _ _ log w log) by (unfold liftR; rewrite Hw; reflexivity).
  assert (Hloop : forEach (burnOne a (wf_walletAddress w)) order log
                  = (Ok tt, log ++ flat_map (burnActions a (wf_walletAddress w)) order)).
  { revert log. induction order as [|p ps IH]; intros log; simpl.
    - unfold ret. rewrite app_nil_r. reflexivity.
    - pose proof (Hloc p (or_introl eq_refl)) as Hp.
      destruct (locateStoreUtxo a (b_assetName p) (b_txHash p)) as [su | e] eqn:El;
        [|discriminate].
      rewrite (bind_ok _ _ log tt _ (burnOne_located a _ p su log El)).
      rewrite IH by (intros q Hq; apply Hloc; right; assumption).
      unfold burnActions at 2. rewrite El, <- app_assoc. reflexivity. }
  rewrite (bind_ok _ _ log tt _ Hloop).
  unfold finalizeSpend, spendClosing, bind, emit, complete. cbn [removelast].
  rewrite <- !app_assoc. reflexivity.
Qed.

(** C3, as amended.  For an asset whose reference-token UTxO is found, let
    [H] be the total the code computes for the wallet's holdings of the user
    token.  If the negation of the requested quantity equals [H], burn adds a
    full burn: a mint of the requested quantity of the user token, a mint of
    -1 of the reference token and a spend of the reference-token UTxO, each
    under the redeemer of constructor 1.  Otherwise it adds the mint of the
    requested quantity and one output to the wallet carrying [H] plus the
    quantity.  Mint uses the redeemer of constructor 0 throughout. *)
Theorem burn_full_iff_negation_equals_held
        (a : MeshAdapter) (wa : string) (p : BurnParam) (storeUtxo : UTxO) (log : list Action) :
  locateStoreUtxo a (b_assetName p) (b_txHash p) = Ok storeUtxo ->
  let H := heldAmount a wa (b_assetName p) in
  let name222 := CIP68_222 (stringToHex (b_assetName p)) in
  let name100 := CIP68_100 (stringToHex (b_assetName p)) in
  (jsStrictEq (jsNeg (js_Number (b_quantity p))) H = true ->
   burnOne a wa p log =
   (Ok tt,
    log ++ [ MintPlutusScriptV3;
             Mint (b_quantity p) (policyId a) name222;
             MintRedeemerValue (DConstr 1 []);
             MintingScript (mintScriptCbor a);
             MintPlutusScriptV3;
             Mint "-1" (policyId a) name100;
             MintRedeemerValue (DConstr 1 []);
             MintingScript (mintScriptCbor a);
             SpendingPlutusScriptV3;
             TxIn (txHash (input storeUtxo)) (outputIndex (input storeUtxo));
             TxInInlineDatumPresent;
             TxInRedeemerValue (DConstr 1 []);
             TxInScript (storeScriptCbor a) ]))
  /\ (jsStrictEq (jsNeg (js_Number (b_quantity p))) H = false ->
      burnOne a wa p log =
      (Ok tt,
       log ++ [ MintPlutusScriptV3;
                Mint (b_quantity p) (policyId a) name222;
                MintRedeemerValue (DConstr 1 []);
                MintingScript (mintScriptCbor a);
                TxOut wa [ {| asset_unit := policyId a +++ name222;
                              asset_quantity := js_String (jsAdd H (js_Number (b_quantity p))) |} ] ]))
  /\ (forall (mp : MintParam) (r : Data),
         In (MintRedeemerValue r) (mintExistingActions a mp ++ mintNewActions a mp) ->
         r = DConstr 0 [] /\ r <> DConstr 1 []).
Proof.
  intros Hloc H name222 name100. split; [|split].
  - intros Heq. rewrite (burnOne_located a wa p storeUtxo log Hloc).
    fold H. rewrite Heq. reflexivity.
  - intros Hne. rewrite (burnOne_located a wa p storeUtxo log Hloc).
    fold H. rewrite Hne. reflexivity.
  - intros mp r Hin. unfold mintExistingActions, mintNewActions, mConStr0 in Hin.
    simpl in Hin.
    repeat (destruct Hin as [Hin | Hin];
            [first [discriminate
                   | injection Hin as Hr; subst r; split; [reflexivity | discriminate]] |]).
    contradiction.
Qed.

End BurnBranches.

(** ** Burn: the arithmetic (claim C8) *)

Lemma ofZ_negative z : safeInt z -> z < 0 -> jsLt (ofZ z) jsZero = true.
Proof.
  intros Hs Hz. destruct (ofZ_form z Hs ltac:(lia)) as (m & e & Ez & _).
  rewrite Ez. destruct (Z.ltb_spec z 0); [reflexivity | lia].
Qed.

Section BurnArithmetic.
Context {E : Externals}.
Variable intOf : string -> Z.

Lemma innerAbs_nonneg unit assets : 0 <= innerAbs intOf unit assets.
Proof.
  induction assets as [|x xs IH]; simpl; [lia|].
  destruct (String.eqb _ _); lia.
Qed.

Lemma inner_exact unit assets :
  forall z0,
    (forall x, In x assets -> asset_unit x = unit ->
               js_Number (asset_quantity x) = ofZ (intOf (asset_quantity x))) ->
    Z.abs z0 + innerAbs intOf unit assets <= two53 ->
    fold_left (fun amt utxo => if String.eqb (asset_unit utxo) unit
                               then jsAdd amt (js_Number (asset_quantity utxo)) else amt)
              assets (ofZ z0)
    = ofZ (innerInt intOf unit assets z0)
    /\ Z.abs (innerInt intOf unit assets z0) <= Z.abs z0 + innerAbs intOf unit assets.
Proof.
  induction assets as [|x xs IH]; intros z0 Hread Hb; simpl in *.
  - split; [reflexivity | lia].
  - pose proof (innerAbs_nonneg unit xs) as Hnn.
    destruct (String.eqb (asset_unit x) unit) eqn:Eu.
    + apply String.eqb_eq in Eu.
      rewrite (Hread x (or_introl eq_refl) Eu).
      rewrite add_exact by (unfold safeInt; lia).
      destruct (IH (z0 + intOf (asset_quantity x))) as [IH1 IH2].
      * intros y Hy. apply Hread. right. assumption.
      * lia.
      * unfold innerInt in *. simpl. split; [exact IH1 | lia].
    + destruct (IH z0) as [IH1 IH2].
      * intros y Hy. apply Hread. right. assumption.
      * lia.
      * unfold innerInt in *. simpl. try rewrite Eu. split; [exact IH1 | lia].
Qed.

Lemma outer_exact unit utxos :
  forall z0,
    (forall u x, In u utxos -> In x (amount (output u)) -> asset_unit x = unit ->
                 js_Number (asset_quantity x) = ofZ (intOf (asset_quantity x))) ->
    Z.abs z0 + fold_right (fun u acc => innerAbs intOf unit (amount (output u)) + acc) 0 utxos
      <= two53 ->
    fold_left
      (fun total utxos =>
         jsAdd total
               (fold_left (fun amt utxo => if String.eqb (asset_unit utxo) unit
                                           then jsAdd amt (js_Number (asset_quantity utxo)) else amt)
                          (amount (output utxos)) jsZero))
      utxos (ofZ z0)
    = ofZ (fold_left (fun total u => total + innerInt intOf unit (amount (output u)) 0) utxos z0)
    /\ Z.abs (fold_left (fun total u => total + innerInt intOf unit (amount (output u)) 0) utxos z0)
       <= Z.abs z0 + fold_right (fun u acc => innerAbs intOf unit (amount (output u)) + acc) 0 utxos.
Proof.
  induction utxos as [|u us IH]; intros z0 Hread Hb; simpl in *.
  - split; [reflexivity | lia].
  - assert (Hnn : 0 <= fold_right (fun u acc => innerAbs intOf unit (amount (output u)) + acc) 0 us).
    { clear. induction us as [|v vs IHv]; simpl; [lia|].
      pose proof (innerAbs_nonneg unit (amount (output v))). lia. }
    pose proof (innerAbs_nonneg unit (amount (output u))) as Hnu.
    destruct (inner_exact unit (amount (output u)) 0) as [I1 I2].
    + intros x Hx. apply (Hread u x); auto.
    + simpl. lia.
    + change jsZero with (ofZ 0). rewrite I1.
      simpl in I2.
      rewrite add_exact by (unfold safeInt; lia).
      destruct (IH (z0 + innerInt intOf unit (amount (output u)) 0)) as [IH1 IH2].
      * intros v x Hv. apply Hread. right. assumption.
      * lia.
      * split; [exact IH1 | lia].
Qed.

Lemma heldAmount_exact a wa name :
  quantitiesReadAs intOf a wa name ->
  heldAbs intOf a wa name <= two53 ->
  heldAmount a wa name = ofZ (heldInt intOf a wa name)
  /\ safeInt (heldInt intOf a wa name).
Proof.
  intros Hread Hb. unfold heldAmount, heldInt, heldAbs in *.
  destruct (outer_exact (userUnit a name) (getAddressUTXOAssets a wa (userUnit a name)) 0)
    as [H1 H2].
  - exact Hread.
  - simpl. lia.
  - change jsZero with (ofZ 0). split; [exact H1|]. unfold safeInt. simpl in H2. lia.
Qed.

(** C8, as amended.  The quantity of a burn is checked by nothing but the
    equality that selects the branch: whenever the negation of
    [Number(quantity)] differs from the held total the partial branch is
    taken and the output carries the total plus the quantity.  The
    arithmetic is that of doubles; it is exact integer arithmetic as long as
    the quantities are integer literals whose magnitudes sum to at most
    2^53, the requested quantity and the result lie within 2^53 as well: then
    the total is the integer sum, the full branch is taken exactly when the
    quantity is the negated total, and the partial output is the integer
    total plus the quantity, negative when the quantity's magnitude exceeds
    the total. *)
Theorem burn_quantity_unchecked_exact_to_2_53
        (a : MeshAdapter) (wa : string) (p : BurnParam) (storeUtxo : UTxO) (log : list Action) :
  locateStoreUtxo a (b_assetName p) (b_txHash p) = Ok storeUtxo ->
  (jsStrictEq (jsNeg (js_Number (b_quantity p))) (heldAmount a wa (b_assetName p)) = false ->
   burnOne a wa p log =
   (Ok tt,
    log ++ [ MintPlutusScriptV3;
             Mint (b_quantity p) (policyId a) (CIP68_222 (stringToHex (b_assetName p)));
             MintRedeemerValue (DConstr 1 []);
             MintingScript (mintScriptCbor a);
             TxOut wa [ {| asset_unit := userUnit a (b_assetName p);
                           asset_quantity :=
                             js_String (jsAdd (heldAmount a wa (b_assetName p))
                                              (js_Number (b_quantity p))) |} ] ]))
  /\ (forall zq : Z,
        quantitiesReadAs intOf a wa (b_assetName p) ->
        heldAbs intOf a wa (b_assetName p) <= two53 ->
        js_Number (b_quantity p) = ofZ zq ->
        safeInt zq ->
        safeInt (heldInt intOf a wa (b_assetName p) + zq) ->
        let H := heldInt intOf a wa (b_assetName p) in
        heldAmount a wa (b_assetName p) = ofZ H
        /\ (- zq = H -> burnOne a wa p log = (Ok tt, log ++ fullBurnActions a p storeUtxo))
        /\ (- zq <> H ->
            burnOne a wa p log =
            (Ok tt,
             log ++ [ MintPlutusScriptV3;
                      Mint (b_quantity p) (policyId a) (CIP68_222 (stringToHex (b_assetName p)));
                      MintRedeemerValue (DConstr 1 []);
                      MintingScript (mintScriptCbor a);
                      TxOut wa [ {| asset_unit := userUnit a (b_assetName p);
                                    asset_quantity := js_String (ofZ (H + zq)) |} ] ]))
        /\ (H + zq < 0 -> jsLt (ofZ (H + zq)) jsZero = true)).
Proof.
  intros Hloc. split.
  - intros Hne. rewrite (burnOne_located a wa p storeUtxo log Hloc), Hne. reflexivity.
  - intros zq Hread Hb Hq Hsq Hsum H.
    destruct (heldAmount_exact a wa (b_assetName p) Hread Hb) as [Hheld HsH].
    fold H in Hheld, HsH.
    assert (Hbranch : jsStrictEq (jsNeg (js_Number (b_quantity p)))
                                 (heldAmount a wa (b_assetName p)) = (- zq =? H)).
    { rewrite Hq, Hheld. apply neg_eqb_exact; assumption. }
    split; [exact Hheld|]. split; [|split].
    + intros Heq. rewrite (burnOne_located a wa p storeUtxo log Hloc), Hbranch.
      apply Z.eqb_eq in Heq. rewrite Heq. reflexivity.
    + intros Hne. rewrite (burnOne_located a wa p storeUtxo log Hloc), Hbranch.
      apply Z.eqb_neq in Hne. rewrite Hne.
      unfold partialBurnActions. rewrite Hq, Hheld, add_exact by assumption. reflexivity.
    + intros Hneg. apply ofZ_negative; assumption.
Qed.
End BurnArithmetic.

(** ** The constructor (claim C9) *)

(** C9.  Two constructions with the same course and issuer derive the same
    store script, mint script, policy id and store address (or fail alike),
    whatever provider and wallet they are given: the derivation reads
    nothing but the contract descriptor and the two parameters. *)
Theorem derivation_is_deterministic {E : Externals}
        (f1 f2 : Fetcher) (w1 w2 : MeshWallet) (course issuer : string) :
  mapResult derived (newMeshAdapter f1 w1 course issuer)
  = mapResult derived (newMeshAdapter f2 w2 course issuer).
Proof.
  unfold newMeshAdapter.
  destruct (readValidator plutus title_store); [|reflexivity].
  destruct (readValidator plutus title_mint); reflexivity.
Qed.

(** ** Update (claim C4) *)


(** ** Mint: the structure of a run *)

Section MintFacts.
Context {E : Externals}.

Lemma forEach_emit {A} (g : A -> Action) xs log :
  forEach (fun x => emit (g x)) xs log = (Ok tt, log ++ map g xs).
Proof.
  revert log. induction xs as [|x xs IH]; intros log; simpl.
  - unfold ret. rewrite app_nil_r. reflexivity.
  - unfold bind, emit at 1. rewrite IH, <- app_assoc. reflexivity.
Qed.

(** mint, once the wallet has answered. *)
Lemma mint_unfold a params ui order log w :
  getWalletForTx a = Ok w ->
  mint a params ui order log =
  if negb (allExistOf a params) && negb (allNewOf a params)
  then (Err (mixedMessage (map m_assetName
                               (filter (fun p => hasPlutusData a (m_assetName p)) params))),
        log ++ mintOpening ui)
  else (m <- foldM (mintOne a (wf_walletAddress w) (allExistOf a params) (allNewOf a params))
                   order [] ;;
        forEach (fun ra => emit (TxOut (fst ra) (snd ra))) m ;;;
        finalizeMint w) (log ++ mintOpening ui).
Proof.
  intros Hw. unfold mint.
  rewrite (bind_ok _ _ log w log) by (unfold liftR; rewrite Hw; reflexivity).
  rewrite (bind_ok _ _ log tt (log ++ [MintPlutusScriptV3])) by reflexivity.
  assert (Hin : (match ui with
                 | Some us => forEach (fun u => emit (TxIn (txHash (input u)) (outputIndex (input u)))) us
                 | None => ret tt
                 end) (log ++ [MintPlutusScriptV3]) = (Ok tt, log ++ mintOpening ui)).
  { unfold mintOpening. destruct ui as [us|].
    - rewrite forEach_emit, <- app_assoc. reflexivity.
    - unfold ret. reflexivity. }
  rewrite (bind_ok _ _ _ tt _ Hin).
  unfold allExistOf, allNewOf.
  assert (Hex : forall (g : bool -> bool),
             forallb (fun x : string * bool => g (snd x))
                     (map (fun p => (m_assetName p, hasPlutusData a (m_assetName p))) params)
             = forallb (fun p => g (hasPlutusData a (m_assetName p))) params).
  { intros g. clear. induction params as [|p ps IH]; simpl; [reflexivity|].
    rewrite IH. reflexivity. }
  pose proof (Hex (fun b => b)) as Hex1. pose proof (Hex negb) as Hex2.
  simpl in Hex1, Hex2. cbv zeta. rewrite Hex1, Hex2.
  replace (map fst (filter (fun x => snd x)
                           (map (fun p => (m_assetName p, hasPlutusData a (m_assetName p))) params)))
    with (map m_assetName (filter (fun p => hasPlutusData a (m_assetName p)) params)).
  - simpl. destruct (negb _ && negb _); reflexivity.
  - clear. induction params as [|p ps IH]; simpl; [reflexivity|].
    destruct (hasPlutusData a (m_assetName p)); simpl; rewrite IH; reflexivity.
Qed.

Lemma mint_wallet_error a params ui order log e :
  getWalletForTx a = Err e -> mint a params ui order log = (Err e, log).
Proof.
  intros Hw. unfold mint. apply bind_err. unfold liftR. rewrite Hw. reflexivity.
Qed.

Lemma mintOne_appends a wa ex nw p m : appendsOnly notComplete (mintOne a wa ex nw p m).
Proof.
  unfold mintOne. destruct ex; [|destruct nw].
  - apply appendsOnly_bind; [auto with appends|]. intros pk.
    destruct (pkDiffers _ _); [auto with appends|].
    apply appendsOnly_bind; [|auto with appends].
    apply appendsOnly_emitAll. unfold mintExistingActions, notComplete.
    repeat constructor; discriminate.
  - apply appendsOnly_bind; [|auto with appends].
    apply appendsOnly_emitAll. unfold mintNewActions, notComplete.
    repeat constructor; discriminate.
  - auto with appends.
Qed.

(** Where the error of a failed loop comes from. *)
Lemma foldM_error_source {A S} (f : A -> S -> TxM S) xs :
  forall s log e, fst (foldM f xs s log) = Err e ->
                  exists x s' log', In x xs /\ fst (f x s' log') = Err e.
Proof.
  induction xs as [|x xs IH]; intros s log e He; simpl in He; [discriminate|].
  unfold bind in He. destruct (f x s log) as [[s1 | e1] log1] eqn:Ef.
  - destruct (IH s1 log1 e He) as (y & s' & log' & Hy & Hf).
    exists y, s', log'. split; [right; assumption | assumption].
  - simpl in He. injection He as ->. exists x, s, log. rewrite Ef. split; [left|]; reflexivity.
Qed.

Lemma mintOne_existing_error a wa p m log e :
  fst (mintOne a wa true false p m log) = Err e \/ fst (mintOne a wa true true p m log) = Err e ->
  storedPk a (m_assetName p) = Err e \/ e = m_assetName p +++ " has been exist".
Proof.
  unfold mintOne, storedPk, bind, liftR.
  destruct (getPkHash _) as [pk | e'].
  - destruct (pkDiffers _ _).
    + intros [H | H]; simpl in H; injection H as <-; right; reflexivity.
    + intros [H | H]; simpl in H; discriminate.
  - intros [H | H]; simpl in H; injection H as <-; left; reflexivity.
Qed.

(** A successful loop over the assets: the receiver map it builds and the
    calls it makes. *)
Lemma foldM_mintOne_ok a wa ex nw order :
  forall m0 log m log',
    foldM (mintOne a wa ex nw) order m0 log = (Ok m, log') ->
    m = fold_left (fun acc p => pushReceiver acc (receiverKey wa p) (userAsset a p)) order m0
    /\ log' = log ++ flat_map (mintActions a ex) order.
Proof.
  induction order as [|p ps IH]; intros m0 log m log' Hrun; simpl in Hrun.
  - unfold ret in Hrun. injection Hrun as <- <-. simpl. rewrite app_nil_r. split; reflexivity.
  - unfold bind at 1 in Hrun.
    destruct (mintOne a wa ex nw p m0 log) as [[m1 | e1] log1] eqn:Eone; [|discriminate].
    assert (Hone : m1 = pushReceiver m0 (receiverKey wa p) (userAsset a p)
                   /\ log1 = log ++ mintActions a ex p).
    { unfold mintOne in Eone. unfold mintActions. destruct ex; [|destruct nw].
      - unfold bind, liftR in Eone. destruct (getPkHash _); [|discriminate].
        destruct (pkDiffers _ _); [discriminate|].
        simpl in Eone. injection Eone as <- <-. split; reflexivity.
      - unfold bind in Eone. simpl in Eone. injection Eone as <- <-. split; reflexivity.
      - discriminate. }
    destruct Hone as [-> ->].
    destruct (IH _ _ _ _ Hrun) as [-> ->]. simpl. rewrite <- app_assoc. split; reflexivity.
Qed.

Lemma finalizeMint_run w log :
  finalizeMint w log = (completeTx (log ++ removelast (mintClosing w)), log ++ mintClosing w).
Proof.
  unfold finalizeMint, mintClosing, bind, emit, complete. simpl.
  rewrite <- !app_assoc. reflexivity.
Qed.
End MintFacts.

(** ** Mint: mixed assets and ownership (claims C2 and C1) *)

Section MintGuards.
Context {E : Externals}.

Lemma existsb_forallb_false {A} (f : A -> bool) xs :
  existsb (fun x => negb (f x)) xs = true -> forallb f xs = false.
Proof.
  induction xs as [|x xs IH]; simpl; [discriminate|].
  destruct (f x); simpl; [exact IH | reflexivity].
Qed.

Lemma existsb_forallb_negb_false {A} (f : A -> bool) xs :
  existsb f xs = true -> forallb (fun x => negb (f x)) xs = false.
Proof.
  induction xs as [|x xs IH]; simpl; [discriminate|].
  destruct (f x); simpl; [reflexivity | exact IH].
Qed.

Lemma mintOpening_no_effect ui : Forall (fun x => isEffect x = false) (mintOpening ui).
Proof.
  unfold mintOpening. constructor; [reflexivity|].
  destruct ui as [us|]; [|constructor].
  apply Forall_forall. intros x Hx. apply in_map_iff in Hx.
  destruct Hx as (u & <- & _). reflexivity.
Qed.

(** C2.  A mint call whose list holds an asset whose reference token is at
    the store address (with its datum) and an asset whose reference token is
    not throws.  What it has added to the builder by then is no mint, no
    output and no built transaction: only the opening mode switch and the
    inputs the caller passed.  Once the wallet has answered, the error is the
    one that lists the names of the assets that exist. *)
Theorem mint_rejects_mixed_assets
        (a : MeshAdapter) (params : list MintParam) (ui : option (list UTxO))
        (order : list MintParam) (log : list Action) :
  existsb (fun p => hasPlutusData a (m_assetName p)) params = true ->
  existsb (fun p => negb (hasPlutusData a (m_assetName p))) params = true ->
  exists msg added,
    mint a params ui order log = (Err msg, log ++ added)
    /\ Forall (fun x => isEffect x = false) added
    /\ (forall w, getWalletForTx a = Ok w ->
                  msg = "Transaction only supports either minting new or existing assets."
                        +++ newline +++ "Assets already exist: "
                        +++ String.concat ", "
                              (map m_assetName
                                   (filter (fun p => hasPlutusData a (m_assetName p)) params))
                  /\ added = mintOpening ui).
Proof.
  intros Hex Hnew.
  assert (HallNew : allNewOf a params = false).
  { unfold allNewOf.
    apply (existsb_forallb_negb_false (fun p => hasPlutusData a (m_assetName p))). exact Hex. }
  assert (HallEx : allExistOf a params = false).
  { unfold allExistOf.
    apply (existsb_forallb_false (fun p => hasPlutusData a (m_assetName p))). exact Hnew. }
  destruct (getWalletForTx a) as [w | e] eqn:Ew.
  - rewrite (mint_unfold a params ui order log w Ew), HallEx, HallNew. simpl.
    eexists. exists (mintOpening ui). split; [reflexivity|]. split.
    + apply mintOpening_no_effect.
    + intros w' _. split; reflexivity.
  - rewrite (mint_wallet_error a params ui order log e Ew).
    exists e, []. rewrite app_nil_r. split; [reflexivity|]. split; [constructor|].
    intros w' Hw'. discriminate.
Qed.

Lemma mintOne_other_issuer a wa nw p m log stored :
  getPkHash (plutusDataOf (getAddressUTXOAsset a (storeAddress a) (refUnit a (m_assetName p))))
  = Ok stored ->
  pkDiffers stored (pubKeyHash (deserializeAddress wa)) = true ->
  mintOne a wa true nw p m log = (Err (m_assetName p +++ " has been exist"), log).
Proof.
  intros Hpk Hdiff. unfold mintOne.
  rewrite (bind_ok _ _ log stored log) by (unfold liftR; rewrite Hpk; reflexivity).
  rewrite Hdiff. reflexivity.
Qed.

Lemma mintOpening_notComplete ui : Forall notComplete (mintOpening ui).
Proof.
  unfold mintOpening, notComplete. constructor; [discriminate|].
  destruct ui as [us|]; [|constructor].
  apply Forall_forall. intros x Hx. apply in_map_iff in Hx.
  destruct Hx as (u & <- & _). discriminate.
Qed.

(** C1.  In a mint call whose assets all have their reference token, an
    asset whose stored [_pk] differs from the public-key hash of the calling
    wallet (or has none) makes its callback throw the ownership error with
    the builder untouched: no mint call is added for it.  The mint as a whole
    then throws, and never calls [complete]: no transaction is built.  When
    every datum of the call can be read, the error thrown is the ownership
    error of one of the assets. *)
Theorem mint_existing_requires_owner
        (a : MeshAdapter) (params : list MintParam) (ui : option (list UTxO))
        (order : list MintParam) (p : MintParam) (stored : option string) :
  allExistOf a params = true ->
  Permutation params order ->
  In p params ->
  storedPk a (m_assetName p) = Ok stored ->
  pkDiffers stored (callerPkh a) = true ->
  (forall nw m log,
      mintOne a (getChangeAddress (meshWallet a)) true nw p m log
      = (Err (m_assetName p +++ " has been exist"), log))
  /\ (forall log,
         exists msg added,
           mint a params ui order log = (Err msg, log ++ added)
           /\ Forall notComplete added
           /\ (forall w, getWalletForTx a = Ok w ->
                         (forall q, In q params -> isErr (storedPk a (m_assetName q)) = false) ->
                         exists q, In q params /\ msg = m_assetName q +++ " has been exist")).
Proof.
  intros Hall Hperm Hin Hpk Hdiff. split.
  - intros nw m log. apply (mintOne_other_issuer a _ nw p m log stored); assumption.
  - intros log. destruct (getWalletForTx a) as [w | e] eqn:Ew.
    + rewrite (mint_unfold a params ui order log w Ew), Hall. simpl.
      assert (Hwa : wf_walletAddress w = getChangeAddress (meshWallet a)).
      { unfold getWalletForTx in Ew.
        destruct (getUtxos (meshWallet a)) as [[|u us]|]; try discriminate.
        destruct (getCollateral (meshWallet a)) as [[|c cs]|]; try discriminate.
        destruct (String.eqb _ _); [discriminate|]. injection Ew as <-. reflexivity. }
      set (f := mintOne a (wf_walletAddress w) true (allNewOf a params)).
      assert (Hp : forall s l, exists e, fst (f p s l) = Err e).
      { intros s l. unfold f. rewrite Hwa.
        rewrite (mintOne_other_issuer a _ _ p s l stored Hpk Hdiff). eexists. reflexivity. }
      assert (Hino : In p order) by (eapply Permutation_in; eassumption).
      destruct (foldM_fails f order p Hino Hp [] (log ++ mintOpening ui)) as (e & He).
      destruct (appendsOnly_foldM notComplete f order
                  (fun x s _ => mintOne_appends a _ _ _ x s) [] (log ++ mintOpening ui))
        as (added & Hs & Hf).
      unfold bind at 1.
      destruct (foldM f order [] (log ++ mintOpening ui)) as [[m1 | e1] log1] eqn:Efold;
        simpl in He, Hs; [discriminate|]. injection He as ->. subst log1.
      exists e, (mintOpening ui ++ added). rewrite app_assoc. split; [reflexivity|]. split.
      * apply Forall_app. split; [apply mintOpening_notComplete | assumption].
      * intros w' _ Hread.
        assert (Hsrc : fst (foldM f order [] (log ++ mintOpening ui)) = Err e)
          by (rewrite Efold; reflexivity).
        destruct (foldM_error_source f order _ _ _ Hsrc) as (q & s' & l' & Hq & Hqe).
        assert (Hqp : In q params) by (eapply Permutation_in; [apply Permutation_sym|]; eassumption).
        exists q. split; [assumption|].
        unfold f in Hqe.
        destruct (mintOne_existing_error a (wf_walletAddress w) q s' l' e) as [Herr | Hmsg].
        -- destruct (allNewOf a params); [right | left]; assumption.
        -- specialize (Hread q Hqp). rewrite Herr in Hread. discriminate.
        -- assumption.
    + rewrite (mint_wallet_error a params ui order log e Ew).
      exists e, []. rewrite app_nil_r. split; [reflexivity|]. split; [constructor|].
      intros w' Hw'. discriminate.
Qed.
End MintGuards.

(** ** Mint: one output per receiver (claim C7) *)

Section MintOutputs.
Context {E : Externals}.









End MintOutputs.

(** ** Batch mint: validation (claim C6) *)

Section BatchValidation.
Context {E : Externals}.

Lemma itemComplete_object fields :
  itemComplete (JObj fields) = Ok (completeItem (JObj fields)).
Proof. reflexivity. Qed.




End BatchValidation.

(* ================================================================= *)
(** * Part III: further properties of the code *)
(* ================================================================= *)

(** ** The adapter: constructor and lookups *)

Section AdapterFacts.
Context {E : Externals}.

Lemma readValidator_hasValidator p t :
  match readValidator p t with
  | Ok code => hasValidator p t = true
               /\ exists v, In v (validators p) /\ title v = t /\ compiledCode v = code
  | Err e => hasValidator p t = false /\ e = t +++ " validator not found."
  end.
Proof.
  unfold readValidator, hasValidator.
  destruct (find _ _) as [v|] eqn:Ef.
  - apply find_some in Ef. destruct Ef as [Hin Ht]. split.
    + apply existsb_exists. exists v. split; assumption.
    + exists v. apply String.eqb_eq in Ht. repeat split; assumption.
  - split; [|reflexivity].
    destruct (existsb _ _) eqn:Ex; [|reflexivity].
    apply existsb_exists in Ex. destruct Ex as (v & Hin & Ht).
    rewrite (find_none _ _ Ef v Hin) in Ht. discriminate.
Qed.

(** X1.  The constructor succeeds exactly when the compiled-contract
    descriptor has a validator under the store title and one under the mint
    title.  A missing store validator is reported first, also when the mint
    validator is missing too.  The adapter it returns keeps the provider and
    the wallet it was given, holds the code of the validators found, and
    its policy id is the hash of its mint script. *)
Theorem constructor_needs_both_validators
        (f : Fetcher) (w : MeshWallet) (course issuer : string) :
  match newMeshAdapter f w course issuer with
  | Ok a =>
      hasValidator plutus title_store = true /\ hasValidator plutus title_mint = true
      /\ fetcher a = f /\ meshWallet a = w
      /\ readValidator plutus title_store = Ok (storeCompileCode a)
      /\ readValidator plutus title_mint = Ok (mintCompileCode a)
      /\ policyId a = resolveScriptHash (mintScriptCbor a)
  | Err e =>
      (hasValidator plutus title_store = false
       /\ e = title_store +++ " validator not found.")
      \/ (hasValidator plutus title_store = true /\ hasValidator plutus title_mint = false
          /\ e = title_mint +++ " validator not found.")
  end.
Proof.
  unfold newMeshAdapter.
  pose proof (readValidator_hasValidator plutus title_store) as Hs.
  pose proof (readValidator_hasValidator plutus title_mint) as Hm.
  destruct (readValidator plutus title_store) as [sc | es].
  - destruct Hs as [Hs _].
    destruct (readValidator plutus title_mint) as [mc | em].
    + destruct Hm as [Hm _]. simpl. repeat split; assumption || reflexivity.
    + destruct Hm as [Hm ->]. right. repeat split; assumption.
  - destruct Hs as [Hs ->]. left. split; [assumption | reflexivity].
Qed.

Lemma find_split {A} (f : A -> bool) l x :
  find f l = Some x ->
  exists before after, l = before ++ x :: after /\ f x = true
                       /\ forall y, In y before -> f y = false.
Proof.
  induction l as [|y l IH]; simpl; [discriminate|].
  destruct (f y) eqn:Ey.
  - intros H. injection H as <-. exists [], l. repeat split; [assumption | contradiction].
  - intros H. destruct (IH H) as (b & af & -> & Hx & Hb).
    exists (y :: b), af. repeat split; [assumption|].
    intros z [<- | Hz]; [assumption | apply Hb; assumption].
Qed.

Lemma lastOf_some {A} (xs : list A) x : lastOf xs = Some x -> exists before, xs = before ++ [x].
Proof.
  unfold lastOf. destruct (rev xs) as [|y r] eqn:Er; [discriminate|].
  intros H. injection H as <-. exists (rev r).
  rewrite <- (rev_involutive xs), Er. reflexivity.
Qed.

Lemma lastOf_none {A} (xs : list A) : lastOf xs = None <-> xs = [].
Proof.
  unfold lastOf. split.
  - destruct (rev xs) as [|y r] eqn:Er; [|discriminate].
    intros _. rewrite <- (rev_involutive xs), Er. reflexivity.
  - intros ->. reflexivity.
Qed.

(** X2.  The lookup of the reference-token UTxO that update and burn share
    throws exactly when nothing is there to find: with a transaction hash,
    when no output at the store address comes from that transaction; without
    one, when the provider reports no output holding the reference token
    there.  The message is that of [getUtxoForTx] in the first case and
    'Store UTXO not found' in the second. *)
Theorem locate_fails_iff_absent (a : MeshAdapter) (name : string) (hash : option string) :
  (storeUtxoAbsent a name hash <-> isErr (locateStoreUtxo a name hash) = true)
  /\ (forall e, locateStoreUtxo a name hash = Err e ->
                e = if truthyStr hash then "No UTXOs found in getUtxoForTx method."
                    else "Store UTXO not found").
Proof.
  split.
  - split.
    + intros Habs. rewrite (locate_absent a name hash Habs). reflexivity.
    + unfold storeUtxoAbsent, locateStoreUtxo.
      destruct (truthyStr hash) eqn:Et.
      * destruct hash as [h|]; [|discriminate].
        unfold getUtxoForTx. destruct (find _ _) as [u|] eqn:Ef; [discriminate|].
        intros _ u Hin Heq. injection Heq as Heq.
        pose proof (find_none _ _ Ef u Hin) as Hn. simpl in Hn.
        rewrite Heq, String.eqb_refl in Hn. discriminate.
      * unfold getAddressUTXOAsset.
        destruct (lastOf _) as [u|] eqn:El; [discriminate|].
        intros _. apply lastOf_none. assumption.
  - intros e. unfold locateStoreUtxo. destruct (truthyStr hash).
    + unfold getUtxoForTx. destruct (find _ _); [discriminate|].
      intros H. injection H as <-. reflexivity.
    + destruct (getAddressUTXOAsset _ _ _); [discriminate|].
      intros H. injection H as <-. reflexivity.
Qed.

(** X3.  What the lookup returns is one of the outputs the provider reports
    at the store address.  With a transaction hash it is the first output of
    that transaction in the provider's list, and the asset name plays no
    part: the same output is returned for every asset name.  Without a hash
    it is the last output the provider reports for the reference token. *)
Theorem locate_returns_candidate
        (a : MeshAdapter) (name : string) (hash : option string) (u : UTxO) :
  locateStoreUtxo a name hash = Ok u ->
  In u (storeCandidates a name hash)
  /\ (if truthyStr hash
      then Some (txHash (input u)) = hash
           /\ (forall name', locateStoreUtxo a name' hash = Ok u)
           /\ exists before after,
               storeCandidates a name hash = before ++ u :: after
               /\ forall v, In v before -> Some (txHash (input v)) <> hash
      else exists before, storeCandidates a name hash = before ++ [u]).
Proof.
  unfold locateStoreUtxo, storeCandidates. destruct (truthyStr hash) eqn:Et.
  - destruct hash as [h|]; [|discriminate].
    unfold getUtxoForTx. destruct (find _ _) as [v|] eqn:Ef; [|discriminate].
    intros H. injection H as ->.
    destruct (find_split _ _ _ Ef) as (b & af & Hl & Hu & Hb).
    apply String.eqb_eq in Hu. split; [|split; [|split]].
    + rewrite Hl. apply in_or_app. right. left. reflexivity.
    + rewrite Hu. reflexivity.
    + intros name'. reflexivity.
    + exists b, af. split; [assumption|].
      intros v Hv Heq. injection Heq as Heq. specialize (Hb v Hv). simpl in Hb.
      rewrite Heq, String.eqb_refl in Hb. discriminate.
  - unfold getAddressUTXOAsset. destruct (lastOf _) as [v|] eqn:El; [|discriminate].
    intros H. injection H as ->.
    destruct (lastOf_some _ _ El) as (b & Hl). split.
    + rewrite Hl. apply in_or_app. right. left. reflexivity.
    + exists b. assumption.
Qed.
End AdapterFacts.


(** ** The adapter: decoding a datum *)

Section DatumFacts.
Context {E : Externals}.













End DatumFacts.


Section KeyValueFacts.
Context {E : Externals}.
Variable hexToUtf8 : string -> string.


End KeyValueFacts.


(** ** The builder: the wallet, and when an operation succeeds *)

Section OperationFacts.
Context {E : Externals}.

Lemma getWalletForTx_address a w :
  getWalletForTx a = Ok w -> wf_walletAddress w = getChangeAddress (meshWallet a).
Proof.
  unfold getWalletForTx.
  destruct (getUtxos (meshWallet a)) as [[|u us]|]; try discriminate.
  destruct (getCollateral (meshWallet a)) as [[|c cs]|]; try discriminate.
  destruct (String.eqb (getChangeAddress (meshWallet a)) ""); [discriminate|].
  intros H. injection H as <-. reflexivity.
Qed.

(** X8.  Every operation starts by asking the wallet for its UTxOs, its
    collateral and its change address.  If the wallet has no UTxO, no
    collateral or an empty change address, mint, update and burn alike throw
    the matching message of [getWalletForTx] before a single call is made on
    the transaction builder; the checks are made in that order.  Otherwise
    the operation works with all UTxOs of the wallet, the first collateral
    and the change address. *)
Theorem wallet_failure_stops_every_operation (a : MeshAdapter) :
  match getWalletForTx a with
  | Ok w =>
      getUtxos (meshWallet a) = Some (wf_utxos w) /\ wf_utxos w <> []
      /\ (exists others, getCollateral (meshWallet a) = Some (wf_collateral w :: others))
      /\ wf_walletAddress w = getChangeAddress (meshWallet a)
      /\ wf_walletAddress w <> ""
  | Err e =>
      (forall op log, runOp a op log = (Err e, log))
      /\ ((e = "No UTXOs found in getWalletForTx method."
           /\ (getUtxos (meshWallet a) = None \/ getUtxos (meshWallet a) = Some []))
          \/ (e = "No collateral found in getWalletForTx method."
              /\ (exists u us, getUtxos (meshWallet a) = Some (u :: us))
              /\ (getCollateral (meshWallet a) = None
                  \/ getCollateral (meshWallet a) = Some []))
          \/ (e = "No wallet address found in getWalletForTx method."
              /\ (exists u us, getUtxos (meshWallet a) = Some (u :: us))
              /\ (exists c cs, getCollateral (meshWallet a) = Some (c :: cs))
              /\ getChangeAddress (meshWallet a) = ""))
  end.
Proof.
  destruct (getWalletForTx a) as [w | e] eqn:Ew.
  - unfold getWalletForTx in Ew.
    destruct (getUtxos (meshWallet a)) as [[|u us]|]; try discriminate.
    destruct (getCollateral (meshWallet a)) as [[|c cs]|]; try discriminate.
    destruct (String.eqb_spec (getChangeAddress (meshWallet a)) "") as [He | Hne];
      [discriminate|].
    injection Ew as <-. simpl. repeat split; try assumption; try discriminate.
    exists cs. reflexivity.
  - split.
    + intros op log. destruct op; simpl; apply bind_err; unfold liftR; rewrite Ew; reflexivity.
    + unfold getWalletForTx in Ew.
      destruct (getUtxos (meshWallet a)) as [[|u us]|];
        try (injection Ew as <-; left; split; [reflexivity | auto]).
      destruct (getCollateral (meshWallet a)) as [[|c cs]|];
        try (injection Ew as <-; right; left; split; [reflexivity|]; split; eauto).
      destruct (String.eqb_spec (getChangeAddress (meshWallet a)) "") as [He | Hne];
        [|discriminate].
      injection Ew as <-. right. right. split; [reflexivity|]. repeat split; eauto.
Qed.

End OperationFacts.


Section SuccessFacts.
Context {E : Externals}.

Lemma pkDiffers_false pk h : pkDiffers pk h = false <-> pk = Some h.
Proof.
  unfold pkDiffers. destruct pk as [p|].
  - split.
    + intros H. apply negb_false_iff, String.eqb_eq in H. subst. reflexivity.
    + intros H. injection H as ->. rewrite String.eqb_refl. reflexivity.
  - split; discriminate.
Qed.

Lemma mintOne_run a wa ex nw p m log :
  ex = true \/ nw = true ->
  (ex = true -> storedPk a (m_assetName p) = Ok (Some (pubKeyHash (deserializeAddress wa)))) ->
  mintOne a wa ex nw p m log
  = (Ok (pushReceiver m (receiverKey wa p) (userAsset a p)), log ++ mintActions a ex p).
Proof.
  intros Hor Hpk. unfold mintOne, mintActions. destruct ex.
  - unfold storedPk in Hpk. unfold bind, liftR. rewrite (Hpk eq_refl).
    rewrite (proj2 (pkDiffers_false _ _) eq_refl). reflexivity.
  - destruct Hor as [Hex | ->]; [discriminate|]. reflexivity.
Qed.

Lemma foldM_mintOne_run a wa ex nw order :
  ex = true \/ nw = true ->
  (ex = true -> forall p, In p order ->
                storedPk a (m_assetName p) = Ok (Some (pubKeyHash (deserializeAddress wa)))) ->
  forall m0 log,
    foldM (mintOne a wa ex nw) order m0 log
    = (Ok (collectReceivers a wa order m0), log ++ flat_map (mintActions a ex) order).
Proof.
  intros Hor. induction order as [|p ps IH]; intros Hpk m0 log; simpl.
  - unfold ret. rewrite app_nil_r. reflexivity.
  - rewrite (bind_ok _ _ log _ _
               (mintOne_run a wa ex nw p m0 log Hor
                  (fun Hex => Hpk Hex p (or_introl eq_refl)))).
    rewrite IH by (intros Hex q Hq; apply (Hpk Hex); right; assumption).
    unfold collectReceivers. simpl. rewrite <- app_assoc. reflexivity.
Qed.

Lemma foldM_mintOne_owner a wa nw order :
  forall m0 log m log',
    foldM (mintOne a wa true nw) order m0 log = (Ok m, log') ->
    forall p, In p order ->
              storedPk a (m_assetName p) = Ok (Some (pubKeyHash (deserializeAddress wa))).
Proof.
  induction order as [|q qs IH]; intros m0 log m log' Hrun p Hin; [contradiction|].
  cbn [foldM] in Hrun. unfold bind at 1 in Hrun.
  destruct (mintOne a wa true nw q m0 log) as [[m1 | e1] log1] eqn:Eone; [|discriminate].
  destruct Hin as [<- | Hin]; [|exact (IH _ _ _ _ Hrun p Hin)].
  unfold mintOne, bind, liftR in Eone. unfold storedPk.
  destruct (getPkHash _) as [pk | e]; [|discriminate].
  destruct (pkDiffers pk _) eqn:Ed; [discriminate|].
  apply pkDiffers_false in Ed. rewrite Ed. reflexivity.
Qed.

(** X9.  When mint returns a transaction.  It does exactly when the wallet
    is usable, the assets of the request all have a reference-token datum at
    the store address or all have none, in the first case the owner stored
    for each asset is the caller's key hash, and [complete] builds the
    transaction.  No other condition enters: not the quantities, not the
    receivers, and for new assets not the stored owner.  The calls made are
    then the opening, the calls of the assets in the order in which their
    callbacks resume, one output per receiver, and the closing; the
    transaction returned is what [complete] makes of all calls before it. *)
Theorem mint_succeeds_iff
        (a : MeshAdapter) (params : list MintParam) (ui : option (list UTxO))
        (order : list MintParam) (log log' : list Action) (tx : string) :
  mint a params ui order log = (Ok tx, log') <->
  exists w,
    getWalletForTx a = Ok w
    /\ (allExistOf a params = true \/ allNewOf a params = true)
    /\ (allExistOf a params = true ->
        forall p, In p order -> storedPk a (m_assetName p) = Ok (Some (callerPkh a)))
    /\ completeTx (log ++ mintOpening ui
                       ++ flat_map (mintActions a (allExistOf a params)) order
                       ++ map (fun g => TxOut (fst g) (snd g))
                              (collectReceivers a (wf_walletAddress w) order [])
                       ++ removelast (mintClosing w))
       = Ok tx
    /\ log' = log ++ mintOpening ui
                  ++ flat_map (mintActions a (allExistOf a params)) order
                  ++ map (fun g => TxOut (fst g) (snd g))
                         (collectReceivers a (wf_walletAddress w) order [])
                  ++ mintClosing w.
Proof.
  split.
  - intros Hrun.
    destruct (getWalletForTx a) as [w | e] eqn:Ew;
      [|rewrite (mint_wallet_error a params ui order log e Ew) in Hrun; discriminate].
    rewrite (mint_unfold a params ui order log w Ew) in Hrun.
    destruct (negb (allExistOf a params) && negb (allNewOf a params)) eqn:Emix;
      [discriminate|].
    unfold bind at 1 in Hrun.
    destruct (foldM (mintOne a (wf_walletAddress w) (allExistOf a params) (allNewOf a params))
                    order [] (log ++ mintOpening ui)) as [[m | e] log1] eqn:Efold;
      [|discriminate].
    destruct (foldM_mintOne_ok a _ _ _ order _ _ _ _ Efold) as [Hm Hlog1].
    rewrite (bind_ok _ _ log1 tt (log1 ++ map (fun g => TxOut (fst g) (snd g)) m)) in Hrun
      by apply forEach_emit.
    rewrite finalizeMint_run in Hrun. injection Hrun as Htx <-.
    exists w. split; [reflexivity|]. split; [|split; [|split]].
    + destruct (allExistOf a params); [left; reflexivity|].
      destruct (allNewOf a params); [right; reflexivity | discriminate].
    + intros Hex p Hp. rewrite Hex in Efold. unfold callerPkh.
      rewrite <- (getWalletForTx_address a w Ew).
      exact (foldM_mintOne_owner a _ _ order _ _ _ _ Efold p Hp).
    + rewrite <- Htx. unfold collectReceivers. rewrite <- Hm, Hlog1, <- !app_assoc.
      reflexivity.
    + unfold collectReceivers. rewrite <- Hm, Hlog1, <- !app_assoc. reflexivity.
  - intros (w & Ew & Hor & Hpk & Htx & ->).
    rewrite (mint_unfold a params ui order log w Ew).
    assert (Emix : negb (allExistOf a params) && negb (allNewOf a params) = false).
    { destruct Hor as [-> | ->]; [reflexivity | apply andb_false_r]. }
    rewrite Emix.
    assert (Hpk' : allExistOf a params = true ->
                   forall p, In p order ->
                             storedPk a (m_assetName p)
                             = Ok (Some (pubKeyHash (deserializeAddress (wf_walletAddress w))))).
    { intros Hex p Hp. rewrite (getWalletForTx_address a w Ew). exact (Hpk Hex p Hp). }
    rewrite (bind_ok _ _ _ _ _
               (foldM_mintOne_run a (wf_walletAddress w) _ _ order Hor Hpk' []
                                  (log ++ mintOpening ui))).
    rewrite (bind_ok _ _ _ tt _ (forEach_emit _ _ _)).
    rewrite finalizeMint_run, <- !app_assoc, Htx. reflexivity.
Qed.
End SuccessFacts.


Section SpendFacts.
Context {E : Externals}.

Lemma finalizeSpend_run w log :
  finalizeSpend w log = (completeTx (log ++ removelast (spendClosing w)), log ++ spendClosing w).
Proof.
  unfold finalizeSpend, spendClosing, bind, emit, complete. cbn [removelast].
  rewrite <- !app_assoc. reflexivity.
Qed.

Lemma updateOne_located a p storeUtxo log :
  locateStoreUtxo a (u_assetName p) (u_txHash p) = Ok storeUtxo ->
  updateOne a p log = (Ok tt, log ++ updateActions a p storeUtxo).
Proof.
  intros Hloc. unfold updateOne.
  rewrite (bind_ok _ _ log storeUtxo log) by (unfold liftR; rewrite Hloc; reflexivity).
  reflexivity.
Qed.

Lemma updateOne_absent a p log e :
  locateStoreUtxo a (u_assetName p) (u_txHash p) = Err e ->
  updateOne a p log = (Err e, log).
Proof.
  intros Hloc. unfold updateOne. apply bind_err. unfold liftR. rewrite Hloc. reflexivity.
Qed.

Lemma updateOne_appends a p : appendsOnly notComplete (updateOne a p).
Proof.
  unfold updateOne. apply appendsOnly_bind; [auto with appends|].
  intros su. apply appendsOnly_emitAll. unfold updateActions, notComplete.
  repeat constructor; discriminate.
Qed.

Lemma update_runs_callbacks a order log w :
  getWalletForTx a = Ok w ->
  (forall p, In p order -> isErr (locateStoreUtxo a (u_assetName p) (u_txHash p)) = false) ->
  update a order log =
  (completeTx (log ++ flat_map (updateActionsOf a) order ++ removelast (spendClosing w)),
   log ++ flat_map (updateActionsOf a) order ++ spendClosing w).
Proof.
  intros Hw Hloc. unfold update.
  rewrite (bind_ok _ _ log w log) by (unfold liftR; rewrite Hw; reflexivity).
  assert (Hloop : forEach (updateOne a) order log
                  = (Ok tt, log ++ flat_map (updateActionsOf a) order)).
  { revert log. induction order as [|p ps IH]; intros log; simpl.
    - unfold ret. rewrite app_nil_r. reflexivity.
    - pose proof (Hloc p (or_introl eq_refl)) as Hp.
      destruct (locateStoreUtxo a (u_assetName p) (u_txHash p)) as [su | e] eqn:El;
        [|discriminate].
      rewrite (bind_ok _ _ log tt _ (updateOne_located a p su log El)).
      rewrite IH by (intros q Hq; apply Hloc; right; assumption).
      unfold updateActionsOf at 2. rewrite El, <- app_assoc. reflexivity. }
  rewrite (bind_ok _ _ log tt _ Hloop).
  rewrite finalizeSpend_run, <- !app_assoc. reflexivity.
Qed.

(** X10.  When update returns a transaction.  It does exactly when the
    wallet is usable, the reference-token UTxO of every asset of the request
    is found, and [complete] builds the transaction; the stored owner and
    the old datum are never read.  The calls made are then, for each asset
    in the order in which the callbacks resume, the spend of the UTxO found
    and the output that re-creates it, followed by the closing; the
    transaction returned is what [complete] makes of all calls before it. *)
Theorem update_succeeds_iff
        (a : MeshAdapter) (order : list UpdateParam) (log log' : list Action) (tx : string) :
  update a order log = (Ok tx, log') <->
  exists w,
    getWalletForTx a = Ok w
    /\ (forall p, In p order ->
                  isErr (locateStoreUtxo a (u_assetName p) (u_txHash p)) = false)
    /\ completeTx (log ++ flat_map (updateActionsOf a) order ++ removelast (spendClosing w))
       = Ok tx
    /\ log' = log ++ flat_map (updateActionsOf a) order ++ spendClosing w.
Proof.
  split.
  - intros Hrun.
    destruct (getWalletForTx a) as [w | e] eqn:Ew.
    + assert (Hloc : forall p, In p order ->
                       isErr (locateStoreUtxo a (u_assetName p) (u_txHash p)) = false).
      { intros p Hp.
        destruct (locateStoreUtxo a (u_assetName p) (u_txHash p)) as [su | e] eqn:El;
          [reflexivity|].
        destruct (spend_loop_fails (updateOne a) a order p log Hp (updateOne_appends a))
          as (msg & added & Hfail & _).
        - intros log0. exists e. rewrite (updateOne_absent a p log0 e El). reflexivity.
        - unfold update in Hrun. rewrite Hfail in Hrun. discriminate. }
      rewrite (update_runs_callbacks a order log w Ew Hloc) in Hrun.
      injection Hrun as Htx <-. exists w. repeat split; assumption.
    + unfold update in Hrun.
      rewrite (bind_err _ _ log e log) in Hrun by (unfold liftR; rewrite Ew; reflexivity).
      discriminate.
  - intros (w & Ew & Hloc & Htx & ->).
    rewrite (update_runs_callbacks a order log w Ew Hloc), Htx. reflexivity.
Qed.

(** X11.  When burn returns a transaction.  It does exactly when the wallet
    is usable, the reference-token UTxO of every asset of the request is
    found, and [complete] builds the transaction.  Neither the stored owner
    nor the relation of the quantity to what the wallet holds can make burn
    throw: they only choose between the calls of a full and of a partial
    burn.  The calls made are the calls of the assets in the order in which
    the callbacks resume, followed by the closing. *)
Theorem burn_succeeds_iff
        (a : MeshAdapter) (order : list BurnParam) (log log' : list Action) (tx : string) :
  burn a order log = (Ok tx, log') <->
  exists w,
    getWalletForTx a = Ok w
    /\ (forall p, In p order ->
                  isErr (locateStoreUtxo a (b_assetName p) (b_txHash p)) = false)
    /\ completeTx (log ++ flat_map (burnActions a (wf_walletAddress w)) order
                       ++ removelast (spendClosing w))
       = Ok tx
    /\ log' = log ++ flat_map (burnActions a (wf_walletAddress w)) order ++ spendClosing w.
Proof.
  split.
  - intros Hrun.
    destruct (getWalletForTx a) as [w | e] eqn:Ew.
    + assert (Hloc : forall p, In p order ->
                       isErr (locateStoreUtxo a (b_assetName p) (b_txHash p)) = false).
      { intros p Hp.
        destruct (locateStoreUtxo a (b_assetName p) (b_txHash p)) as [su | e] eqn:El;
          [reflexivity|].
        pose proof (spend_loop_fails (burnOne a (wf_walletAddress w)) a order p log Hp
                      (burnOne_appends a (wf_walletAddress w))) as H.
        unfold bind at 1, liftR in H. rewrite Ew in H.
        destruct H as (msg & added & Hfail & _).
        - intros log0. exists e. unfold burnOne.
          rewrite (bind_err _ _ log0 e log0) by (unfold liftR; rewrite El; reflexivity).
          reflexivity.
        - unfold burn in Hrun. unfold bind at 1, liftR in Hrun. rewrite Ew in Hrun.
          rewrite Hfail in Hrun. discriminate. }
      rewrite (burn_runs_callbacks a order log w Ew Hloc) in Hrun.
      injection Hrun as Htx <-. exists w. repeat split; assumption.
    + unfold burn in Hrun.
      rewrite (bind_err _ _ log e log) in Hrun by (unfold liftR; rewrite Ew; reflexivity).
      discriminate.
  - intros (w & Ew & Hloc & Htx & ->).
    rewrite (burn_runs_callbacks a order log w Ew Hloc), Htx. reflexivity.
Qed.

(** X12.  Update looks the reference-token UTxO up before it makes any call
    for the asset.  When the lookup finds nothing, the callback of the asset
    throws without adding a call, and the update as a whole throws without
    building a transaction. *)
Theorem update_requires_store_utxo (a : MeshAdapter) (p : UpdateParam) :
  storeUtxoAbsent a (u_assetName p) (u_txHash p) ->
  (forall log,
      updateOne a p log =
      (Err (if truthyStr (u_txHash p) then "No UTXOs found in getUtxoForTx method."
            else "Store UTXO not found"), log))
  /\ (forall order log, In p order ->
        exists msg added, update a order log = (Err msg, log ++ added) /\
                          Forall notComplete added).
Proof.
  intros Habs. pose proof (locate_absent a _ _ Habs) as Hloc. split.
  - intros log. apply updateOne_absent. assumption.
  - intros order log Hin. unfold update.
    apply (spend_loop_fails (updateOne a) a order p log Hin (updateOne_appends a)).
    intros log0. eexists. rewrite (updateOne_absent a p log0 _ Hloc). reflexivity.
Qed.

(** X13.  None of the operations guards against an empty request.  With a
    usable wallet, mint, update and burn of no asset at all still ask
    [complete] for a transaction, made of the opening and closing calls
    only; update and burn of nothing make the very same calls. *)
Theorem empty_requests_still_build
        (a : MeshAdapter) (w : WalletForTx) (ui : option (list UTxO)) (log : list Action) :
  getWalletForTx a = Ok w ->
  mint a [] ui [] log
  = (completeTx (log ++ mintOpening ui ++ removelast (mintClosing w)),
     log ++ mintOpening ui ++ mintClosing w)
  /\ update a [] log
     = (completeTx (log ++ removelast (spendClosing w)), log ++ spendClosing w)
  /\ burn a [] log = update a [] log.
Proof.
  intros Ew. split; [|split].
  - rewrite (mint_unfold a [] ui [] log w Ew). simpl.
    unfold bind at 1, ret. unfold bind at 1. simpl.
    rewrite finalizeMint_run, <- !app_assoc. reflexivity.
  - rewrite (update_runs_callbacks a [] log w Ew) by (intros p []). reflexivity.
  - rewrite (update_runs_callbacks a [] log w Ew) by (intros p []).
    rewrite (burn_runs_callbacks a [] log w Ew) by (intros p []). reflexivity.
Qed.
End SpendFacts.


(** ** The builder: what the calls of any run look like *)

Section BlockFacts.
Context {E : Externals}.
Variable Q : list Action -> Prop.
Hypothesis Qnil : Q [].
Hypothesis Qapp : forall l1 l2, Q l1 -> Q l2 -> Q (l1 ++ l2).

Lemma block_ret {A} (x : A) : appendsBlock Q (ret x).
Proof. intros log. exists []. rewrite app_nil_r. split; [reflexivity | exact Qnil]. Qed.

Lemma block_throw {A} e : appendsBlock Q (@throw A e).
Proof. intros log. exists []. rewrite app_nil_r. split; [reflexivity | exact Qnil]. Qed.

Lemma block_liftR {A} (r : result A) : appendsBlock Q (liftR r).
Proof. intros log. exists []. rewrite app_nil_r. split; [reflexivity | exact Qnil]. Qed.

Lemma block_emit x : Q [x] -> appendsBlock Q (emit x).
Proof. intros H log. exists [x]. split; [reflexivity | exact H]. Qed.

Lemma block_emitAll acts : Q acts -> appendsBlock Q (emitAll acts).
Proof. intros H log. exists acts. split; [reflexivity | exact H]. Qed.

Lemma block_complete : Q [Complete] -> appendsBlock Q complete.
Proof. intros H log. exists [Complete]. split; [reflexivity | exact H]. Qed.

Lemma block_bind {A B} (m : TxM A) (k : A -> TxM B) :
  appendsBlock Q m -> (forall x, appendsBlock Q (k x)) -> appendsBlock Q (bind m k).
Proof.
  intros Hm Hk log. destruct (Hm log) as (added & Hs & Hq).
  unfold bind. destruct (m log) as [[x | e] log1]; simpl in Hs; subst log1.
  - destruct (Hk x (log ++ added)) as (added' & Hs' & Hq').
    exists (added ++ added'). rewrite Hs', app_assoc. split; [reflexivity|].
    apply Qapp; assumption.
  - exists added. split; [reflexivity | assumption].
Qed.

Lemma block_forEach {A} (f : A -> TxM unit) xs :
  (forall x, appendsBlock Q (f x)) -> appendsBlock Q (forEach f xs).
Proof.
  intros Hf. induction xs as [|x xs IH]; simpl.
  - apply block_ret.
  - apply block_bind; [apply Hf | intros _; exact IH].
Qed.

Lemma block_foldM {A S} (f : A -> S -> TxM S) xs :
  (forall x s, appendsBlock Q (f x s)) -> forall s, appendsBlock Q (foldM f xs s).
Proof.
  intros Hf. induction xs as [|x xs IH]; intros s; simpl.
  - apply block_ret.
  - apply block_bind; [apply Hf | intros s'; apply IH].
Qed.
End BlockFacts.

(** Takes a computation of the builder apart, down to the calls it makes. *)
Ltac block_steps Qnil Qapp :=
  repeat first
         [ apply (block_bind _ Qapp); [|intros ?]
         | apply (block_ret _ Qnil)
         | apply (block_throw _ Qnil)
         | apply (block_liftR _ Qnil)
         | apply block_emit
         | apply block_emitAll
         | apply block_complete
         | apply (block_forEach _ Qnil Qapp); intros ?
         | apply (block_foldM _ Qnil Qapp); intros ? ?
         | match goal with
           | |- appendsBlock _ (if ?b then _ else _) => destruct b
           | |- appendsBlock _ (match ?x with _ => _ end) => destruct x
           end ].

Ltac unfold_operations :=
  unfold runOp, mint, update, burn, mintOne, updateOne, burnOne, finalizeMint, finalizeSpend,
    mintExistingActions, mintNewActions, updateActions, fullBurnActions, partialBurnActions.

Section ShapeFacts.
Context {E : Externals}.

Lemma Forall_block (P : Action -> Prop) :
  Forall P [] /\ (forall l1 l2, Forall P l1 -> Forall P l2 -> Forall P (l1 ++ l2)).
Proof. split; [constructor|]. intros l1 l2 H1 H2. apply Forall_app. split; assumption. Qed.

(** X14.  Whatever the request and whether the run succeeds or throws, each
    operation only adds calls to the builder, and keeps to its kind: mint
    never spends from a script (no spending script, redeemer or datum of an
    input), update never mints or burns, and burn never attaches a datum to
    an output. *)
Theorem operations_keep_to_their_kind (a : MeshAdapter) :
  (forall params ui order,
      appendsOnly (fun x => isScriptSpend x = false) (mint a params ui order))
  /\ (forall order, appendsOnly (fun x => isMinting x = false) (update a order))
  /\ (forall order, appendsOnly (fun x => isDatum x = false) (burn a order)).
Proof.
  split; [|split]; intros;
    match goal with
    | |- appendsOnly ?P ?m =>
        change (appendsBlock (Forall P) m); destruct (Forall_block P) as [Qnil Qapp]
    end;
    unfold_operations; block_steps Qnil Qapp; repeat constructor.
Qed.

Lemma protocolOk_app store l1 :
  forall prev l2,
    protocolOk store prev l1 = true ->
    (forall prev', protocolOk store prev' l2 = true) ->
    protocolOk store prev (l1 ++ l2) = true.
Proof.
  induction l1 as [|x l1 IH]; intros prev l2 H1 H2; simpl in *.
  - apply H2.
  - apply andb_true_iff in H1. destruct H1 as [Hx H1].
    rewrite Hx. simpl. apply IH; assumption.
Qed.

Lemma protocol_block store :
  (forall prev, protocolOk store prev [] = true)
  /\ (forall l1 l2,
         (forall prev, protocolOk store prev l1 = true) ->
         (forall prev, protocolOk store prev l2 = true) ->
         forall prev, protocolOk store prev (l1 ++ l2) = true).
Proof.
  split; [reflexivity|]. intros l1 l2 H1 H2 prev. apply protocolOk_app; auto.
Qed.

(** X15.  Whatever the request and whether the run succeeds or throws, the
    calls an operation adds keep to the order the builder needs: an inline
    datum is only ever given directly after an output to the store address
    holding a single asset in quantity "1", so no datum ends up on the
    output of a receiver or of the wallet; and a mint is only ever given
    directly after the declaration of a Plutus V3 mint. *)
Theorem datum_follows_store_output
        (a : MeshAdapter) (op : Operation) (log : list Action) (prev : option Action) :
  exists added,
    snd (runOp a op log) = log ++ added
    /\ protocolOk (storeAddress a) prev added = true.
Proof.
  destruct (protocol_block (storeAddress a)) as [Qnil Qapp].
  assert (H : appendsBlock (fun l => forall prev, protocolOk (storeAddress a) prev l = true)
                           (runOp a op)).
  { destruct op; unfold_operations; block_steps Qnil Qapp;
      intros prev'; simpl; rewrite ?String.eqb_refl; reflexivity. }
  destruct (H log) as (added & Hs & Hq). exists added. split; [assumption | apply Hq].
Qed.
End ShapeFacts.


(** ** Burn: what counts as held *)

Section HeldFacts.
Context {E : Externals}.

Lemma inner_sum_filter unit assets :
  forall start,
    fold_left (fun amt utxo => if String.eqb (asset_unit utxo) unit
                               then jsAdd amt (js_Number (asset_quantity utxo))
                               else amt)
              assets start
    = fold_left (fun amt q => jsAdd amt (js_Number q))
                (map asset_quantity
                     (filter (fun x => String.eqb (asset_unit x) unit) assets))
                start.
Proof.
  induction assets as [|x rest IH]; intros start; simpl; [reflexivity|].
  destruct (String.eqb (asset_unit x) unit); simpl; apply IH.
Qed.

Lemma heldAmount_by_quantities a wa name :
  heldAmount a wa name
  = fold_left (fun total qs =>
                 jsAdd total (fold_left (fun amt q => jsAdd amt (js_Number q)) qs jsZero))
              (heldQuantities a wa name) jsZero.
Proof.
  unfold heldAmount, heldQuantities.
  generalize (getAddressUTXOAssets a wa (userUnit a name)) as utxos.
  assert (H : forall utxos start,
             fold_left
               (fun total utxos =>
                  jsAdd total
                        (fold_left
                           (fun amt utxo =>
                              if String.eqb (asset_unit utxo) (userUnit a name)
                              then jsAdd amt (js_Number (asset_quantity utxo))
                              else amt)
                           (amount (output utxos)) jsZero))
               utxos start
             = fold_left
                 (fun total qs =>
                    jsAdd total (fold_left (fun amt q => jsAdd amt (js_Number q)) qs jsZero))
                 (map (fun u => map asset_quantity
                                    (filter (fun x => String.eqb (asset_unit x)
                                                                 (userUnit a name))
                                            (amount (output u))))
                      utxos)
                 start).
  { induction utxos as [|u rest IH]; intros start; simpl; [reflexivity|].
    rewrite IH, inner_sum_filter. reflexivity. }
  intros utxos. apply H.
Qed.

Lemma heldAmount_nothing a wa name :
  Forall (fun qs => qs = []) (heldQuantities a wa name) -> heldAmount a wa name = jsZero.
Proof.
  rewrite heldAmount_by_quantities.
  generalize (heldQuantities a wa name) as qss.
  induction 1 as [|qs rest -> _ IH]; simpl; [reflexivity | exact IH].
Qed.

(** X16.  What burn takes the wallet to hold of an asset is computed from
    the quantities of the user token alone, output by output as the provider
    reports them for the wallet address: lovelace and other tokens in the
    same outputs never enter the sum.  When no reported output holds the
    user token, the result is the number 0. *)
Theorem heldAmount_counts_user_token_only (a : MeshAdapter) (wa name : string) :
  heldAmount a wa name
  = fold_left (fun total qs =>
                 jsAdd total (fold_left (fun amt q => jsAdd amt (js_Number q)) qs jsZero))
              (heldQuantities a wa name) jsZero
  /\ (Forall (fun qs => qs = []) (heldQuantities a wa name) -> heldAmount a wa name = jsZero).
Proof.
  split; [apply heldAmount_by_quantities | apply heldAmount_nothing].
Qed.

(** X17.  A burn of quantity zero by a wallet that holds none of the user
    token is taken for a full burn: the negation of the quantity equals the
    held total, both being zero, so burn adds the mint of -1 of the reference
    token and the spend of the reference-token UTxO. *)
Theorem burn_of_zero_with_no_holdings_is_full
        (a : MeshAdapter) (wa : string) (p : BurnParam) (storeUtxo : UTxO)
        (log : list Action) :
  locateStoreUtxo a (b_assetName p) (b_txHash p) = Ok storeUtxo ->
  Forall (fun qs => qs = []) (heldQuantities a wa (b_assetName p)) ->
  (exists sign, js_Number (b_quantity p) = S754_zero sign) ->
  burnOne a wa p log = (Ok tt, log ++ fullBurnActions a p storeUtxo)
  /\ In (Mint "-1" (policyId a) (CIP68_100 (stringToHex (b_assetName p))))
        (fullBurnActions a p storeUtxo)
  /\ In (TxIn (txHash (input storeUtxo)) (outputIndex (input storeUtxo)))
        (fullBurnActions a p storeUtxo).
Proof.
  intros Hloc Hnone (sign & Hq). split; [|split].
  - rewrite (burnOne_located a wa p storeUtxo log Hloc).
    rewrite (heldAmount_nothing a wa _ Hnone), Hq. destruct sign; reflexivity.
  - unfold fullBurnActions. simpl. auto 10.
  - unfold fullBurnActions. simpl. auto 15.
Qed.
End HeldFacts.


(** ** The handlers *)

Section HandlerFacts.
Context {E : Externals}.

Lemma itemComplete_cases item :
  itemComplete item = match item with
                      | JNull => Err "TypeError"
                      | _ => Ok (completeItem item)
                      end.
Proof. destruct item; reflexivity. Qed.

Lemma checkItems_first l :
  checkItems l = match firstIncomplete l with
                 | None => None
                 | Some JNull => Some (batchFailed "TypeError")
                 | Some _ =>
                     Some (badRequest "Each item must have: asset_name, metadata, receiver")
                 end.
Proof.
  unfold firstIncomplete. induction l as [|item rest IH]; [reflexivity|].
  cbn [checkItems find]. rewrite itemComplete_cases.
  destruct item; try (destruct (completeItem _) eqn:Ec; cbn [negb]; [exact IH | reflexivity]).
  reflexivity.
Qed.

(** X18.  The checks of a batch-mint request are made in a fixed order and
    the first that fails gives the answer, without any interaction with
    provider, wallet or builder.  A falsy course or an empty list is
    answered 400 with 'Missing required fields: course, items (array)'; then
    a list of more than 15 elements is answered 400 with the size message,
    whatever the elements are; then the first element that is not a complete
    item decides: [null] makes the handler answer 500 (reading a field of it
    throws), anything else is answered 400 with 'Each item must have:
    asset_name, metadata, receiver'.  Later elements are not looked at. *)
Theorem batch_mint_checks_in_order
        (h : Host) (fields : list (string * json)) (l : list json) :
  lookupField fields "items" = Some (JArr l) ->
  match (if negb (truthy (lookupField fields "course")) || (List.length l =? 0)%nat
         then Some (badRequest "Missing required fields: course, items (array)")
         else if (15 <? List.length l)%nat
              then Some (badRequest "Maximum 15 items per batch (Cardano tx size limit)")
              else match firstIncomplete l with
                   | None => None
                   | Some JNull => Some (batchFailed "TypeError")
                   | Some _ =>
                       Some (badRequest "Each item must have: asset_name, metadata, receiver")
                   end)
  with
  | Some r => batchMint h (JObj fields) = {| response := Some r; trace := [] |}
  | None => validateBatch (JObj fields) = None
  end.
Proof.
  intros Hitems.
  assert (Hv : validateBatch (JObj fields)
               = if negb (truthy (lookupField fields "course")) || (List.length l =? 0)%nat
                 then Some (badRequest "Missing required fields: course, items (array)")
                 else if (15 <? List.length l)%nat
                      then Some (badRequest "Maximum 15 items per batch (Cardano tx size limit)")
                      else checkItems l).
  { unfold validateBatch, prop. rewrite Hitems.
    replace (Z.of_nat (List.length l) =? 0) with (List.length l =? 0)%nat
      by (destruct (Nat.eqb_spec (List.length l) 0), (Z.eqb_spec (Z.of_nat (List.length l)) 0);
          try reflexivity; lia).
    replace (15 <? Z.of_nat (List.length l)) with (15 <? List.length l)%nat
      by (destruct (Nat.ltb_spec 15 (List.length l)), (Z.ltb_spec 15 (Z.of_nat (List.length l)));
          try reflexivity; lia).
    reflexivity. }
  rewrite checkItems_first in Hv. unfold batchMint. rewrite Hv.
  destruct (negb _ || _); [reflexivity|].
  destruct (15 <? List.length l)%nat; [reflexivity|].
  destruct (firstIncomplete l) as [[]|]; reflexivity.
Qed.

(** X19.  A batch-mint request that passes the checks and has fields of the
    declared types.  The handler makes its interactions in one fixed order
    and stops at the first that fails.  It signs only a transaction its
    builder has built and submits only what the wallet has signed.  It
    answers 200 only after the submitted transaction was confirmed, with the
    hash of the submission, the policy id of the builder, the number of
    items and their names; every failure is answered 500 under 'Failed to
    batch mint assets'; and when the confirmation never comes, no answer is
    sent at all. *)
Theorem batch_mint_outcome
        (h : Host) (fields : list (string * json)) (c : string) (l : list json)
        (params : list MintParam) :
  validateBatch (JObj fields) = None ->
  lookupField fields "course" = Some (JStr c) ->
  lookupField fields "items" = Some (JArr l) ->
  paramsOfItems l = Some params ->
  (exists n, (4 <= n)%nat /\ trace (batchMint h (JObj fields)) = firstn n mintPipeline)
  /\ (In WalletSignTx (trace (batchMint h (JObj fields))) ->
      exists b tx, buildMint h c params = Ok (b, tx))
  /\ (In WalletSubmitTx (trace (batchMint h (JObj fields))) ->
      exists b tx signed, buildMint h c params = Ok (b, tx) /\ signTx h tx = Ok signed)
  /\ (forall r, response (batchMint h (JObj fields)) = Some r ->
        (status r = 200
         /\ trace (batchMint h (JObj fields)) = mintPipeline
         /\ exists b tx signed hash,
             buildMint h c params = Ok (b, tx) /\ signTx h tx = Ok signed
             /\ submitTx h signed = Ok hash /\ txConfirmed h hash = true
             /\ body r = BatchMinted hash (policyId b) (Z.of_nat (List.length l))
                                     (map assetNameOf l))
        \/ (status r = 500
            /\ ~ In OnTxConfirmed (trace (batchMint h (JObj fields)))
            /\ exists details,
                body r = ErrorBody "Failed to batch mint assets" (Some details)))
  /\ (response (batchMint h (JObj fields)) = None ->
      trace (batchMint h (JObj fields)) = mintPipeline).
Proof.
  intros Hval Hc Hitems Hps.
  unfold batchMint. rewrite Hval. unfold prop. rewrite Hc, Hitems, Hps.
  unfold chainPhase, buildMint.
  destruct (newMeshAdapter _ _ _ _) as [b | e1].
  2:{ simpl. split; [exists 4%nat; split; [lia | reflexivity]|].
      split; [intros H; not_in_list H|]. split; [intros H; not_in_list H|].
      split; [|discriminate].
      intros r Hr. injection Hr as <-. right. simpl. split; [reflexivity|].
      split; [intros H; not_in_list H | eexists; reflexivity]. }
  destruct (fst (mint b params None (host_order h params) [])) as [tx | e2].
  2:{ simpl. split; [exists 5%nat; split; [lia | reflexivity]|].
      split; [intros H; not_in_list H|]. split; [intros H; not_in_list H|].
      split; [|discriminate].
      intros r Hr. injection Hr as <-. right. simpl. split; [reflexivity|].
      split; [intros H; not_in_list H | eexists; reflexivity]. }
  destruct (signTx h tx) as [signed | e3] eqn:Esign.
  2:{ simpl. split; [exists 6%nat; split; [lia | reflexivity]|].
      split; [intros _; eauto|]. split; [intros H; not_in_list H|].
      split; [|discriminate].
      intros r Hr. injection Hr as <-. right. simpl. split; [reflexivity|].
      split; [intros H; not_in_list H | eexists; reflexivity]. }
  destruct (submitTx h signed) as [hash | e4] eqn:Esub.
  2:{ simpl. split; [exists 7%nat; split; [lia | reflexivity]|].
      split; [intros _; eauto|]. split; [intros _; eauto|].
      split; [|discriminate].
      intros r Hr. injection Hr as <-. right. simpl. split; [reflexivity|].
      split; [intros H; not_in_list H | eexists; reflexivity]. }
  destruct (txConfirmed h hash) eqn:Econf; simpl.
  - split; [exists 8%nat; split; [lia | reflexivity]|].
    split; [intros _; eauto|]. split; [intros _; eauto|].
    split; [|discriminate].
    intros r Hr. injection Hr as <-. left. simpl. split; [reflexivity|].
    split; [reflexivity|]. exists b, tx, signed, hash. repeat split; assumption.
  - split; [exists 8%nat; split; [lia | reflexivity]|].
    split; [intros _; eauto|]. split; [intros _; eauto|].
    split; [discriminate | reflexivity].
Qed.
End HandlerFacts.


Section MintHandlerFacts.
Context {E : Externals}.

(** X20.  The checks of a single-mint request.  When asset_name, metadata,
    receiver or course is missing or falsy, the handler answers 400 with
    'Missing required fields: asset_name, metadata, or receiver, course'
    without any interaction.  Otherwise the request passes; the quantity is
    not among the checks.  A missing quantity stands for '1', but [null]
    does not: turning it into text throws once the provider has been
    created, and the handler answers 500.  A body that is [null] is answered
    500 as well. *)
Theorem mint_handler_validation
        (h : Host) (dynamic : json -> MintOutcome) (fields : list (string * json)) :
  (if truthy (lookupField fields "asset_name") && truthy (lookupField fields "metadata")
      && truthy (lookupField fields "receiver") && truthy (lookupField fields "course")
   then validateMint (JObj fields) = None
        /\ mintQuantityText None = Ok (Some "1")
        /\ (lookupField fields "quantity" = Some JNull ->
            mintHandler h dynamic (JObj fields)
            = {| mintResponse := Some (mintFailed "TypeError");
                 mintTrace := [NewBlockfrostProvider] |})
   else mintHandler h dynamic (JObj fields)
        = {| mintResponse := Some mintBadRequest; mintTrace := [] |})
  /\ mintHandler h dynamic JNull
     = {| mintResponse := Some (mintFailed "TypeError"); mintTrace := [] |}.
Proof.
  split; [|reflexivity].
  unfold mintHandler, validateMint, prop.
  destruct (truthy (lookupField fields "asset_name")),
           (truthy (lookupField fields "metadata")),
           (truthy (lookupField fields "receiver")),
           (truthy (lookupField fields "course")); simpl; try reflexivity.
  split; [reflexivity|]. split; [reflexivity|]. intros ->. reflexivity.
Qed.

(** X21.  A single-mint request that passes the checks and has fields of
    the declared types.  The builder is asked to mint one asset, with the
    quantity of the request as text.  The handler makes its interactions in
    one fixed order and stops at the first that fails; it signs only a
    transaction its builder has built and submits only what the wallet has
    signed.  It answers 200 only after the submitted transaction was
    confirmed, with the hash of the submission, the policy id of the builder
    and the asset name of the request; every failure is answered 500 under
    'Failed to mint asset'; and when the confirmation never comes, no answer
    is sent at all. *)
Theorem mint_handler_outcome
        (h : Host) (dynamic : json -> MintOutcome) (fields : list (string * json))
        (c q : string) (p : MintParam) :
  validateMint (JObj fields) = None ->
  lookupField fields "course" = Some (JStr c) ->
  mintQuantityText (lookupField fields "quantity") = Ok (Some q) ->
  paramOfBody (JObj fields) q = Some p ->
  m_quantity p = Some q
  /\ (exists n, (4 <= n)%nat
                /\ mintTrace (mintHandler h dynamic (JObj fields)) = firstn n mintPipeline)
  /\ (In WalletSignTx (mintTrace (mintHandler h dynamic (JObj fields))) ->
      exists b tx, buildMint h c [p] = Ok (b, tx))
  /\ (In WalletSubmitTx (mintTrace (mintHandler h dynamic (JObj fields))) ->
      exists b tx signed, buildMint h c [p] = Ok (b, tx) /\ signTx h tx = Ok signed)
  /\ (forall r, mintResponse (mintHandler h dynamic (JObj fields)) = Some r ->
        (mintStatus r = 200
         /\ mintTrace (mintHandler h dynamic (JObj fields)) = mintPipeline
         /\ exists b tx signed hash,
             buildMint h c [p] = Ok (b, tx) /\ signTx h tx = Ok signed
             /\ submitTx h signed = Ok hash /\ txConfirmed h hash = true
             /\ mintBody r = Minted hash (policyId b) (lookupField fields "asset_name"))
        \/ (mintStatus r = 500
            /\ ~ In OnTxConfirmed (mintTrace (mintHandler h dynamic (JObj fields)))
            /\ exists details,
                mintBody r = MintError "Failed to mint asset" (Some details)))
  /\ (mintResponse (mintHandler h dynamic (JObj fields)) = None ->
      mintTrace (mintHandler h dynamic (JObj fields)) = mintPipeline).
Proof.
  intros Hval Hc Hq Hp. split.
  { unfold paramOfBody in Hp.
    destruct (lookupField fields "asset_name") as [[]|]; try discriminate.
    destruct (lookupField fields "metadata") as [[]|]; try discriminate.
    destruct (lookupField fields "receiver") as [[]|]; try discriminate.
    destruct (metadataOfFields _); [|discriminate].
    injection Hp as <-. reflexivity. }
  unfold mintHandler. rewrite Hval. unfold prop. rewrite Hq, Hc, Hp.
  unfold mintChainPhase, buildMint.
  destruct (newMeshAdapter _ _ _ _) as [b | e1].
  2:{ simpl. split; [exists 4%nat; split; [lia | reflexivity]|].
      split; [intros H; not_in_list H|]. split; [intros H; not_in_list H|].
      split; [|discriminate].
      intros r Hr. injection Hr as <-. right. simpl. split; [reflexivity|].
      split; [intros H; not_in_list H | eexists; reflexivity]. }
  destruct (fst (mint b [p] None (host_order h [p]) [])) as [tx | e2].
  2:{ simpl. split; [exists 5%nat; split; [lia | reflexivity]|].
      split; [intros H; not_in_list H|]. split; [intros H; not_in_list H|].
      split; [|discriminate].
      intros r Hr. injection Hr as <-. right. simpl. split; [reflexivity|].
      split; [intros H; not_in_list H | eexists; reflexivity]. }
  destruct (signTx h tx) as [signed | e3] eqn:Esign.
  2:{ simpl. split; [exists 6%nat; split; [lia | reflexivity]|].
      split; [intros _; eauto|]. split; [intros H; not_in_list H|].
      split; [|discriminate].
      intros r Hr. injection Hr as <-. right. simpl. split; [reflexivity|].
      split; [intros H; not_in_list H | eexists; reflexivity]. }
  destruct (submitTx h signed) as [hash | e4] eqn:Esub.
  2:{ simpl. split; [exists 7%nat; split; [lia | reflexivity]|].
      split; [intros _; eauto|]. split; [intros _; eauto|].
      split; [|discriminate].
      intros r Hr. injection Hr as <-. right. simpl. split; [reflexivity|].
      split; [intros H; not_in_list H | eexists; reflexivity]. }
  destruct (txConfirmed h hash) eqn:Econf; simpl.
  - split; [exists 8%nat; split; [lia | reflexivity]|].
    split; [intros _; eauto|]. split; [intros _; eauto|].
    split; [|discriminate].
    intros r Hr. injection Hr as <-. left. simpl. split; [reflexivity|].
    split; [reflexivity|]. exists b, tx, signed, hash. repeat split; assumption.
  - split; [exists 8%nat; split; [lia | reflexivity]|].
    split; [intros _; eauto|]. split; [intros _; eauto|].
    split; [discriminate | reflexivity].
Qed.

(** X22.  A single-mint request and the batch of its one item are served
    alike.  For a request with fields of the declared types whose quantity
    is missing or a non-empty string, the single-mint handler and the
    batch-mint handler given the same course and the request as the only
    item ask the builder for the same mint, make the same interactions and
    answer with the same status; a 200 carries the same transaction hash and
    policy id. *)
Theorem mint_handler_agrees_with_batch_of_one
        (h : Host) (dynamic : json -> MintOutcome) (fields : list (string * json))
        (c q : string) (p : MintParam) :
  validateMint (JObj fields) = None ->
  lookupField fields "course" = Some (JStr c) ->
  (lookupField fields "quantity" = None /\ q = "1"
   \/ lookupField fields "quantity" = Some (JStr q) /\ q <> "") ->
  paramOfBody (JObj fields) q = Some p ->
  paramsOfItems [JObj fields] = Some [p]
  /\ mintTrace (mintHandler h dynamic (JObj fields))
     = trace (batchMint h (JObj [("course", JStr c); ("items", JArr [JObj fields])]))
  /\ match mintResponse (mintHandler h dynamic (JObj fields)),
           response (batchMint h (JObj [("course", JStr c); ("items", JArr [JObj fields])]))
     with
     | Some r1, Some r2 =>
         mintStatus r1 = status r2
         /\ (status r2 = 200 ->
             exists hash policy,
               mintBody r1 = Minted hash policy (lookupField fields "asset_name")
               /\ body r2 = BatchMinted hash policy 1 [lookupField fields "asset_name"])
     | None, None => True
     | _, _ => False
     end.
Proof.
  intros Hval Hc Hquant Hp.
  assert (Hq : mintQuantityText (lookupField fields "quantity") = Ok (Some q)
               /\ quantityText (lookupField fields "quantity") = Some q).
  { destruct Hquant as [[-> ->] | [-> Hne]]; [split; reflexivity|].
    split; [reflexivity|]. unfold quantityText, truthy.
    destruct (String.eqb_spec q ""); [contradiction | reflexivity]. }
  destruct Hq as [Hq1 Hq2].
  assert (Hitem : paramOfItem (JObj fields) = Some p).
  { unfold paramOfBody in Hp. unfold paramOfItem. rewrite Hq2.
    destruct (lookupField fields "asset_name") as [[]|]; try discriminate.
    destruct (lookupField fields "metadata") as [[]|]; try discriminate.
    destruct (lookupField fields "receiver") as [[]|]; try discriminate.
    assumption. }
  assert (Hbatch : validateBatch (JObj [("course", JStr c); ("items", JArr [JObj fields])])
                   = None).
  { unfold validateMint, prop in Hval. rewrite Hc in Hval.
    destruct (negb (truthy (lookupField fields "asset_name"))
              || negb (truthy (lookupField fields "metadata"))
              || negb (truthy (lookupField fields "receiver"))
              || negb (truthy (Some (JStr c)))) eqn:Ebad; [discriminate|].
    repeat (apply orb_false_iff in Ebad; destruct Ebad as [Ebad ?]).
    unfold validateBatch, prop. cbn [lookupField String.eqb Ascii.eqb Bool.eqb].
    cbn [List.length Z.of_nat]. rewrite H. cbn [orb Z.eqb Pos.of_succ_nat Z.ltb Z.compare
                                                    Pos.compare Pos.compare_cont].
    cbn [checkItems]. rewrite itemComplete_object. unfold completeItem, hasField.
    apply negb_false_iff in Ebad, H0, H1. rewrite Ebad, H0, H1. reflexivity. }
  split; [cbn [paramsOfItems]; rewrite Hitem; reflexivity|].
  unfold mintHandler, batchMint. rewrite Hval, Hbatch. unfold prop.
  cbn [lookupField String.eqb Ascii.eqb Bool.eqb].
  rewrite Hq1, Hc, Hp. cbn [paramsOfItems]. rewrite Hitem.
  unfold mintChainPhase, chainPhase.
  destruct (newMeshAdapter _ _ _ _) as [b | e1]; [|simpl; repeat split; discriminate].
  destruct (fst (mint b [p] None (host_order h [p]) [])) as [tx | e2];
    [|simpl; repeat split; discriminate].
  destruct (signTx h tx) as [signed | e3]; [|simpl; repeat split; discriminate].
  destruct (submitTx h signed) as [hash | e4]; [|simpl; repeat split; discriminate].
  destruct (txConfirmed h hash); simpl; [|split; [reflexivity | exact I]].
  split; [reflexivity|]. split; [reflexivity|]. intros _.
  exists hash, (policyId b). split; reflexivity.
Qed.
End MintHandlerFacts.


(** ** Mint: what a successful run adds, by the state of the assets *)

Section MintContents.
Context {E : Externals}.

Lemma mint_ok_shape a params ui order log tx log' :
  mint a params ui order log = (Ok tx, log') ->
  exists w,
    log' = log ++ mintOpening ui
               ++ flat_map (mintActions a (allExistOf a params)) order
               ++ map (fun g => TxOut (fst g) (snd g))
                      (collectReceivers a (wf_walletAddress w) order [])
               ++ mintClosing w.
Proof.
  intros Hrun.
  destruct (getWalletForTx a) as [w | e] eqn:Ew;
    [|rewrite (mint_wallet_error a params ui order log e Ew) in Hrun; discriminate].
  rewrite (mint_unfold a params ui order log w Ew) in Hrun.
  destruct (negb (allExistOf a params) && negb (allNewOf a params)); [discriminate|].
  unfold bind at 1 in Hrun.
  destruct (foldM (mintOne a (wf_walletAddress w) (allExistOf a params) (allNewOf a params))
                  order [] (log ++ mintOpening ui)) as [[m | e] log1] eqn:Efold;
    [|discriminate].
  destruct (foldM_mintOne_ok a _ _ _ order _ _ _ _ Efold) as [Hm Hlog1].
  rewrite (bind_ok _ _ log1 tt (log1 ++ map (fun g => TxOut (fst g) (snd g)) m)) in Hrun
    by apply forEach_emit.
  rewrite finalizeMint_run in Hrun. injection Hrun as _ <-.
  exists w. unfold collectReceivers. rewrite <- Hm, Hlog1, <- !app_assoc. reflexivity.
Qed.

Lemma filter_outputs_none (f : Action -> bool) (groups : ReceiverMap) :
  (forall r xs, f (TxOut r xs) = false) ->
  filter f (map (fun g => TxOut (fst g) (snd g)) groups) = [].
Proof.
  intros Hf. induction groups as [|g gs IH]; simpl; [reflexivity|].
  rewrite Hf. exact IH.
Qed.

Lemma filter_opening_none (f : Action -> bool) ui :
  f MintPlutusScriptV3 = false -> (forall h i, f (TxIn h i) = false) ->
  filter f (mintOpening ui) = [].
Proof.
  intros H1 H2. unfold mintOpening. simpl. rewrite H1.
  destruct ui as [us|]; [|reflexivity].
  induction us as [|u us IH]; simpl; [reflexivity|]. rewrite H2. exact IH.
Qed.

(** The calls of a kind among those a successful mint adds are those among
    the calls of its assets. *)
Lemma mint_added_of_kind (f : Action -> bool) a ex ui order w :
  f MintPlutusScriptV3 = false -> (forall h i, f (TxIn h i) = false) ->
  (forall r xs, f (TxOut r xs) = false) ->
  filter f (mintClosing w) = [] ->
  filter f (mintOpening ui ++ flat_map (mintActions a ex) order
              ++ map (fun g => TxOut (fst g) (snd g))
                     (collectReceivers a (wf_walletAddress w) order [])
              ++ mintClosing w)
  = filter f (flat_map (mintActions a ex) order).
Proof.
  intros H1 H2 H3 H4.
  rewrite !filter_app, (filter_opening_none f ui H1 H2), (filter_outputs_none f _ H3), H4.
  rewrite !app_nil_r. reflexivity.
Qed.

(** X23.  A successful mint of assets that are new.  For every element of
    the request, duplicates included, it adds a mint of the requested
    quantity of the user token, a mint of "1" of the reference token, and an
    output of the reference token to the store address whose inline datum is
    the encoding of the metadata supplied for that element and of nothing
    else: the builder adds no [_pk] of its own.  There are as many datums as
    elements and twice as many mints, and no datum but these. *)
Theorem mint_new_creates_reference_tokens
        (a : MeshAdapter) (params : list MintParam) (ui : option (list UTxO))
        (order : list MintParam) (log log' : list Action) (tx : string) :
  mint a params ui order log = (Ok tx, log') ->
  allExistOf a params = false ->
  exists added,
    log' = log ++ added
    /\ (forall p, In p order ->
          In (Mint (quantityOf p) (policyId a) (CIP68_222 (stringToHex (m_assetName p)))) added
          /\ In (Mint "1" (policyId a) (CIP68_100 (stringToHex (m_assetName p)))) added
          /\ In (TxOut (storeAddress a)
                       [ {| asset_unit := refUnit a (m_assetName p); asset_quantity := "1" |} ])
                added
          /\ In (TxOutInlineDatumValue (metadataToCip68 (m_metadata p))) added)
    /\ (forall d, In (TxOutInlineDatumValue d) added ->
                  exists p, In p order /\ d = metadataToCip68 (m_metadata p))
    /\ List.length (filter isDatum added) = List.length order
    /\ List.length (filter isMint added) = (2 * List.length order)%nat.
Proof.
  intros Hrun Hex. destruct (mint_ok_shape a params ui order log tx log' Hrun) as (w & ->).
  rewrite Hex. eexists. split; [reflexivity|].
  assert (Hin : forall x p, In p order -> In x (mintNewActions a p) ->
                            In x (mintOpening ui
                                    ++ flat_map (mintActions a false) order
                                    ++ map (fun g => TxOut (fst g) (snd g))
                                           (collectReceivers a (wf_walletAddress w) order [])
                                    ++ mintClosing w)).
  { intros x p Hp Hx. apply in_or_app. right. apply in_or_app. left.
    apply in_flat_map. exists p. split; assumption. }
  split; [|split; [|split]].
  - intros p Hp. repeat split; apply (Hin _ p Hp); unfold mintNewActions; simpl; auto 12.
  - intros d Hd.
    assert (Hf : In (TxOutInlineDatumValue d)
                    (filter isDatum (flat_map (mintActions a false) order))).
    { rewrite <- (mint_added_of_kind isDatum a false ui order w) by reflexivity.
      apply filter_In. split; [assumption | reflexivity]. }
    apply filter_In in Hf. destruct Hf as [Hf _].
    apply in_flat_map in Hf. destruct Hf as (p & Hp & Hx).
    exists p. split; [assumption|].
    unfold mintActions, mintNewActions in Hx. simpl in Hx.
    repeat (destruct Hx as [Hx | Hx]; [try discriminate|]); [|contradiction].
    injection Hx as <-. reflexivity.
  - rewrite (mint_added_of_kind isDatum a false ui order w) by reflexivity.
    clear. induction order as [|p ps IH]; simpl; [reflexivity|]. rewrite IH. reflexivity.
  - rewrite (mint_added_of_kind isMint a false ui order w) by reflexivity.
    clear. induction order as [|p ps IH]; simpl; [reflexivity|]. rewrite IH. lia.
Qed.

(** X24.  A successful mint of assets that exist already only adds user
    tokens.  For every element of the request it adds one mint, of the
    requested quantity of the user token, and these are all the mints it
    adds; it adds no inline datum, so the datums of the reference tokens
    stay as they are. *)
Theorem mint_existing_adds_user_tokens_only
        (a : MeshAdapter) (params : list MintParam) (ui : option (list UTxO))
        (order : list MintParam) (log log' : list Action) (tx : string) :
  mint a params ui order log = (Ok tx, log') ->
  allExistOf a params = true ->
  exists added,
    log' = log ++ added
    /\ (forall p, In p order ->
          In (Mint (quantityOf p) (policyId a) (CIP68_222 (stringToHex (m_assetName p)))) added)
    /\ (forall q policy name, In (Mint q policy name) added ->
          exists p, In p order /\ q = quantityOf p /\ policy = policyId a
                    /\ name = CIP68_222 (stringToHex (m_assetName p)))
    /\ List.length (filter isMint added) = List.length order
    /\ filter isDatum added = [].
Proof.
  intros Hrun Hex. destruct (mint_ok_shape a params ui order log tx log' Hrun) as (w & ->).
  rewrite Hex. eexists. split; [reflexivity|]. split; [|split; [|split]].
  - intros p Hp. apply in_or_app. right. apply in_or_app. left.
    apply in_flat_map. exists p. split; [assumption|].
    unfold mintActions, mintExistingActions. simpl. auto.
  - intros q policy name Hd.
    assert (Hf : In (Mint q policy name)
                    (filter isMint (flat_map (mintActions a true) order))).
    { rewrite <- (mint_added_of_kind isMint a true ui order w) by reflexivity.
      apply filter_In. split; [assumption | reflexivity]. }
    apply filter_In in Hf. destruct Hf as [Hf _].
    apply in_flat_map in Hf. destruct Hf as (p & Hp & Hx).
    exists p. split; [assumption|].
    unfold mintActions, mintExistingActions in Hx. simpl in Hx.
    repeat (destruct Hx as [Hx | Hx]; [try discriminate|]); try contradiction.
    injection Hx as <- <- <-. repeat split.
  - rewrite (mint_added_of_kind isMint a true ui order w) by reflexivity.
    clear. induction order as [|p ps IH]; simpl; [reflexivity|]. rewrite IH. reflexivity.
  - rewrite (mint_added_of_kind isDatum a true ui order w) by reflexivity.
    clear. induction order as [|p ps IH]; simpl; [reflexivity | exact IH].
Qed.
End MintContents.


(** ** The statements on concrete chains and requests *)

Import Ref Scenario.

(** The ownership check (C1) where the stored owner is ccdd and the caller
    aabb. *)
Lemma mint_existing_requires_owner_witness :
  (forall nw m log,
      mintOne adapterForeign (getChangeAddress (meshWallet adapterForeign)) true nw
              (mintParam "A" "1" "r1") m log
      = (Err "A has been exist", log))
  /\ (forall log,
         exists msg added,
           mint adapterForeign [mintParam "A" "1" "r1"] None [mintParam "A" "1" "r1"] log
           = (Err msg, log ++ added)
           /\ Forall notComplete added
           /\ (forall w, getWalletForTx adapterForeign = Ok w ->
                         (forall q, In q [mintParam "A" "1" "r1"] ->
                                    isErr (storedPk adapterForeign (m_assetName q)) = false) ->
                         exists q, In q [mintParam "A" "1" "r1"]
                                   /\ msg = m_assetName q +++ " has been exist")).
Proof.
  apply (mint_existing_requires_owner adapterForeign [mintParam "A" "1" "r1"] None
           [mintParam "A" "1" "r1"] (mintParam "A" "1" "r1") (Some "ccdd")).
  - vm_compute. reflexivity.
  - apply Permutation_refl.
  - simpl. left. reflexivity.
  - vm_compute. reflexivity.
  - vm_compute. reflexivity.
Defined.

(** The mixed call (C2): "A" is active, "B" is not. *)
Lemma mint_rejects_mixed_assets_witness :
  exists msg added,
    mint adapterA [mintParam "A" "1" "r1"; mintParam "B" "1" "r1"] None
         [mintParam "B" "1" "r1"; mintParam "A" "1" "r1"] []
    = (Err msg, [] ++ added)
    /\ Forall (fun x => isEffect x = false) added
    /\ (forall w, getWalletForTx adapterA = Ok w ->
                  msg = "Transaction only supports either minting new or existing assets."
                        +++ newline +++ "Assets already exist: "
                        +++ String.concat ", "
                              (map m_assetName
                                   (filter (fun p => hasPlutusData adapterA (m_assetName p))
                                           [mintParam "A" "1" "r1"; mintParam "B" "1" "r1"]))
                  /\ added = mintOpening None).
Proof.
  apply (mint_rejects_mixed_assets adapterA [mintParam "A" "1" "r1"; mintParam "B" "1" "r1"]).
  - vm_compute. reflexivity.
  - vm_compute. reflexivity.
Defined.

(** C3 fails as stated: the wallet holds 5 user tokens of "A" and the burn
    quantity is "5", so the magnitude of the quantity equals the held total;
    yet burn takes the partial branch: it mints +5, spends nothing, mints no
    reference token and sends an output of 10 to the wallet. *)
Lemma burn_positive_quantity_is_not_a_full_burn :
  jsStrictEq (jsAbs (js_Number "5")) (heldAmount adapterA walletAddress "A") = true
  /\ burnOne adapterA walletAddress (burnParam "A" "5") []
     = (Ok tt,
        [ MintPlutusScriptV3;
          Mint "5" (policyId adapterA) "000de14041";
          MintRedeemerValue (DConstr 1 []);
          MintingScript (mintScriptCbor adapterA);
          TxOut "aabb" [ {| asset_unit := policyId adapterA +++ "000de14041";
                            asset_quantity := "10" |} ] ])
  /\ burnOne adapterA walletAddress (burnParam "A" "5") []
     <> (Ok tt, fullBurnActions adapterA (burnParam "A" "5") storeUtxoA).
Proof.
  split; [vm_compute; reflexivity|]. split; [vm_compute; reflexivity|].
  vm_compute. discriminate.
Qed.

(** The amended C3 on the same chain, for the quantity "-5". *)
Lemma burn_full_iff_negation_equals_held_witness :
  locateStoreUtxo adapterA "A" None = Ok storeUtxoA
  /\ jsStrictEq (jsNeg (js_Number "-5")) (heldAmount adapterA walletAddress "A") = true
  /\ burnOne adapterA walletAddress (burnParam "A" "-5") []
     = (Ok tt, [] ++ fullBurnActions adapterA (burnParam "A" "-5") storeUtxoA).
Proof.
  assert (Hloc : locateStoreUtxo adapterA (b_assetName (burnParam "A" "-5"))
                                 (b_txHash (burnParam "A" "-5")) = Ok storeUtxoA)
    by (vm_compute; reflexivity).
  split; [exact Hloc|]. split; [vm_compute; reflexivity|].
  apply (burn_full_iff_negation_equals_held adapterA walletAddress (burnParam "A" "-5")
           storeUtxoA [] Hloc).
  vm_compute. reflexivity.
Defined.






(** C8 fails as stated: the wallet holds 9007199254740993 user tokens of "A"
    in one output.  [Number] reads the quantity as 9007199254740992, so the
    held total is off by one, and a burn of "-1" sends an output of
    9007199254740991 where integer arithmetic gives 9007199254740992. *)
Lemma burn_arithmetic_rounds_above_2_53 :
  heldInt literalValue adapterBig walletAddress "A" = 9007199254740993
  /\ toZ (heldAmount adapterBig walletAddress "A") = Some 9007199254740992
  /\ burnOne adapterBig walletAddress (burnParam "A" "-1") []
     = (Ok tt,
        [ MintPlutusScriptV3;
          Mint "-1" (policyId adapterBig) "000de14041";
          MintRedeemerValue (DConstr 1 []);
          MintingScript (mintScriptCbor adapterBig);
          TxOut "aabb" [ {| asset_unit := policyId adapterBig +++ "000de14041";
                            asset_quantity := "9007199254740991" |} ] ])
  /\ 9007199254740993 + literalValue "-1" = 9007199254740992.
Proof.
  split; [vm_compute; reflexivity|]. split; [vm_compute; reflexivity|].
  split; vm_compute; reflexivity.
Qed.

Lemma quantities_of_chainA_read :
  quantitiesReadAs literalValue adapterA walletAddress "A".
Proof.
  intros u x Hu Hx Hunit.
  vm_compute in Hu. destruct Hu as [<- | []].
  simpl in Hx. destruct Hx as [<- | [<- | []]]; vm_compute; reflexivity.
Defined.

(** The amended C8 on the chain where 5 tokens are held: a quantity of "-8"
    is not rejected; the partial branch sends an output of -3. *)
Lemma burn_quantity_unchecked_exact_to_2_53_witness :
  locateStoreUtxo adapterA "A" None = Ok storeUtxoA
  /\ heldAmount adapterA walletAddress "A" = ofZ 5
  /\ burnOne adapterA walletAddress (burnParam "A" "-8") []
     = (Ok tt,
        [] ++ [ MintPlutusScriptV3;
                Mint "-8" (policyId adapterA) (CIP68_222 (stringToHex "A"));
                MintRedeemerValue (DConstr 1 []);
                MintingScript (mintScriptCbor adapterA);
                TxOut walletAddress
                      [ {| asset_unit := userUnit adapterA "A";
                           asset_quantity := js_String (ofZ (5 + -8)) |} ] ])
  /\ js_String (ofZ (5 + -8)) = "-3".
Proof.
  assert (Hloc : locateStoreUtxo adapterA (b_assetName (burnParam "A" "-8"))
                                 (b_txHash (burnParam "A" "-8")) = Ok storeUtxoA)
    by (vm_compute; reflexivity).
  assert (Hbound : heldAbs literalValue adapterA walletAddress "A" <= two53)
    by (vm_compute; discriminate).
  assert (Hq : js_Number (b_quantity (burnParam "A" "-8")) = ofZ (-8))
    by (vm_compute; reflexivity).
  assert (Hsq : safeInt (-8)) by (unfold safeInt, two53; lia).
  assert (HH : heldInt literalValue adapterA walletAddress "A" = 5)
    by (vm_compute; reflexivity).
  assert (Hsum : safeInt (heldInt literalValue adapterA walletAddress "A" + -8))
    by (rewrite HH; unfold safeInt, two53; lia).
  destruct (proj2 (burn_quantity_unchecked_exact_to_2_53 literalValue adapterA walletAddress
                     (burnParam "A" "-8") storeUtxoA [] Hloc)
                  (-8) quantities_of_chainA_read Hbound Hq Hsq Hsum)
    as (Hheld & _ & Hpartial & _).
  change (b_assetName (burnParam "A" "-8")) with "A" in Hheld, Hpartial.
  change (b_quantity (burnParam "A" "-8")) with "-8" in Hpartial.
  rewrite HH in Hheld, Hpartial.
  split; [exact Hloc|]. split; [exact Hheld|]. split.
  - apply Hpartial. lia.
  - vm_compute. reflexivity.
Defined.


(** An array element that is [null] is not an item object: reading its
    fields throws, and the handler's [catch] answers 500, before any
    interaction. *)
Lemma batch_mint_null_element :
  batchMint host (JObj (request [JNull]))
  = {| response := Some {| status := 500;
                           body := ErrorBody "Failed to batch mint assets" (Some "TypeError") |};
       trace := [] |}.
Proof. reflexivity. Qed.

(** ** The further properties on concrete chains and requests *)

(** X2 on the chain where the reference token of "A" is gone. *)
Lemma locate_fails_iff_absent_witness :
  storeUtxoAbsent adapterOrphan "A" None
  /\ isErr (locateStoreUtxo adapterOrphan "A" None) = true.
Proof.
  assert (Habs : storeUtxoAbsent adapterOrphan "A" None) by (vm_compute; reflexivity).
  split; [exact Habs|].
  exact (proj1 (proj1 (locate_fails_iff_absent adapterOrphan "A" None)) Habs).
Defined.

(** X3 on the chain where "A" is active. *)
Lemma locate_returns_candidate_witness :
  locateStoreUtxo adapterA "A" None = Ok storeUtxoA
  /\ In storeUtxoA (storeCandidates adapterA "A" None).
Proof.
  assert (Hloc : locateStoreUtxo adapterA "A" None = Ok storeUtxoA)
    by (vm_compute; reflexivity).
  split; [exact Hloc|].
  exact (proj1 (locate_returns_candidate adapterA "A" None storeUtxoA Hloc)).
Defined.





(** X12 on the chain where the reference token of "A" is gone. *)
Lemma update_requires_store_utxo_witness :
  storeUtxoAbsent adapterOrphan "A" None
  /\ (forall log,
         updateOne adapterOrphan (updateParam "A" [("name", "new")]) log
         = (Err "Store UTXO not found", log)).
Proof.
  assert (Habs : storeUtxoAbsent adapterOrphan
                   (u_assetName (updateParam "A" [("name", "new")]))
                   (u_txHash (updateParam "A" [("name", "new")])))
    by (vm_compute; reflexivity).
  split; [exact Habs|].
  exact (proj1 (update_requires_store_utxo adapterOrphan
                  (updateParam "A" [("name", "new")]) Habs)).
Defined.

(** X13 with the issuer's wallet. *)
Lemma empty_requests_still_build_witness :
  getWalletForTx adapterFresh
  = Ok {| wf_utxos := [utxo "f0" 0 walletAddress [lovelace "50000000"] None];
          wf_collateral := utxo "f1" 0 walletAddress [lovelace "5000000"] None;
          wf_walletAddress := walletAddress |}
  /\ burn adapterFresh [] [] = update adapterFresh [] [].
Proof.
  assert (Hw : getWalletForTx adapterFresh
               = Ok {| wf_utxos := [utxo "f0" 0 walletAddress [lovelace "50000000"] None];
                       wf_collateral := utxo "f1" 0 walletAddress [lovelace "5000000"] None;
                       wf_walletAddress := walletAddress |}) by (vm_compute; reflexivity).
  split; [exact Hw|].
  exact (proj2 (proj2 (empty_requests_still_build adapterFresh _ None [] Hw))).
Defined.

(** X17 on the chain where "A" belongs to somebody else and the wallet holds
    none of it. *)
Lemma burn_of_zero_with_no_holdings_is_full_witness :
  locateStoreUtxo adapterForeign "A" None
  = Ok (refUtxo "a1" "A" [("name", "old"); ("_pk", "ccdd")])
  /\ burnOne adapterForeign walletAddress (burnParam "A" "0") []
     = (Ok tt, [] ++ fullBurnActions adapterForeign (burnParam "A" "0")
                       (refUtxo "a1" "A" [("name", "old"); ("_pk", "ccdd")])).
Proof.
  assert (Hloc : locateStoreUtxo adapterForeign (b_assetName (burnParam "A" "0"))
                                 (b_txHash (burnParam "A" "0"))
                 = Ok (refUtxo "a1" "A" [("name", "old"); ("_pk", "ccdd")]))
    by (vm_compute; reflexivity).
  split; [exact Hloc|].
  apply (burn_of_zero_with_no_holdings_is_full adapterForeign walletAddress
           (burnParam "A" "0") (refUtxo "a1" "A" [("name", "old"); ("_pk", "ccdd")]) []).
  - exact Hloc.
  - vm_compute. constructor.
  - exists false. vm_compute. reflexivity.
Defined.

(** X9 on three new assets whose callbacks resume in another order. *)
Lemma mint_succeeds_iff_witness :
  exists w,
    getWalletForTx adapterFresh = Ok w
    /\ (allExistOf adapterFresh threeNew = true \/ allNewOf adapterFresh threeNew = true).
Proof.
  assert (Hrun : mint adapterFresh threeNew None threeNewResumed []
                = (Ok (match fst (mint adapterFresh threeNew None threeNewResumed []) with
                       | Ok tx => tx
                       | Err _ => ""
                       end),
                   snd (mint adapterFresh threeNew None threeNewResumed [])))
    by (vm_compute; reflexivity).
  destruct (proj1 (mint_succeeds_iff _ _ _ _ _ _ _) Hrun) as (w & Hw & Hor & _).
  exists w. split; assumption.
Defined.

(** X10 on the chain where "A" is active. *)
Lemma update_succeeds_iff_witness :
  exists w,
    getWalletForTx adapterA = Ok w
    /\ forall p, In p [updateParam "A" [("name", "new")]] ->
                 isErr (locateStoreUtxo adapterA (u_assetName p) (u_txHash p)) = false.
Proof.
  assert (Hrun : update adapterA [updateParam "A" [("name", "new")]] []
                = (Ok (match fst (update adapterA [updateParam "A" [("name", "new")]] []) with
                       | Ok tx => tx
                       | Err _ => ""
                       end),
                   snd (update adapterA [updateParam "A" [("name", "new")]] [])))
    by (vm_compute; reflexivity).
  destruct (proj1 (update_succeeds_iff _ _ _ _ _) Hrun) as (w & Hw & Hloc & _).
  exists w. split; assumption.
Defined.

(** X11 on the chain where "A" is active, for a quantity above the holdings. *)
Lemma burn_succeeds_iff_witness :
  exists w,
    getWalletForTx adapterA = Ok w
    /\ forall p, In p [burnParam "A" "-8"] ->
                 isErr (locateStoreUtxo adapterA (b_assetName p) (b_txHash p)) = false.
Proof.
  assert (Hrun : burn adapterA [burnParam "A" "-8"] []
                = (Ok (match fst (burn adapterA [burnParam "A" "-8"] []) with
                       | Ok tx => tx
                       | Err _ => ""
                       end),
                   snd (burn adapterA [burnParam "A" "-8"] [])))
    by (vm_compute; reflexivity).
  destruct (proj1 (burn_succeeds_iff _ _ _ _ _) Hrun) as (w & Hw & Hloc & _).
  exists w. split; assumption.
Defined.

(** X18 on a batch of sixteen elements, none of them an item. *)
Lemma batch_mint_checks_in_order_witness :
  batchMint host (JObj (request (repeat JNull 16)))
  = {| response := Some (badRequest "Maximum 15 items per batch (Cardano tx size limit)");
       trace := [] |}.
Proof.
  exact (batch_mint_checks_in_order host (request (repeat JNull 16)) (repeat JNull 16)
                                    eq_refl).
Defined.

(** X19 on a batch of one item. *)
Lemma batch_mint_outcome_witness :
  validateBatch (JObj (request [item "A" "r1"])) = None
  /\ exists n, (4 <= n)%nat
               /\ trace (batchMint host (JObj (request [item "A" "r1"])))
                  = firstn n mintPipeline.
Proof.
  assert (Hval : validateBatch (JObj (request [item "A" "r1"])) = None) by reflexivity.
  split; [exact Hval|].
  exact (proj1 (batch_mint_outcome host (request [item "A" "r1"]) "c1" [item "A" "r1"]
                  [ {| m_assetName := "A"; m_metadata := [("name", "A")];
                       m_quantity := Some "1"; m_receiver := Some "r1" |} ]
                  Hval eq_refl eq_refl eq_refl)).
Defined.

(** X21 on a request for one token of "A". *)
Lemma mint_handler_outcome_witness :
  validateMint (JObj [ ("course", JStr "c1"); ("asset_name", JStr "A");
                       ("metadata", JObj [("name", JStr "A")]); ("receiver", JStr "r1") ])
  = None
  /\ m_quantity {| m_assetName := "A"; m_metadata := [("name", "A")];
                   m_quantity := Some "1"; m_receiver := Some "r1" |} = Some "1".
Proof.
  assert (Hval : validateMint
                   (JObj [ ("course", JStr "c1"); ("asset_name", JStr "A");
                           ("metadata", JObj [("name", JStr "A")]); ("receiver", JStr "r1") ])
                 = None) by reflexivity.
  split; [exact Hval|].
  exact (proj1 (mint_handler_outcome host
                  (fun _ => {| mintResponse := None; mintTrace := [NewBlockfrostProvider] |})
                  [ ("course", JStr "c1"); ("asset_name", JStr "A");
                    ("metadata", JObj [("name", JStr "A")]); ("receiver", JStr "r1") ]
                  "c1" "1"
                  {| m_assetName := "A"; m_metadata := [("name", "A")];
                     m_quantity := Some "1"; m_receiver := Some "r1" |}
                  Hval eq_refl eq_refl eq_refl)).
Defined.

(** X22 on the same request. *)
Lemma mint_handler_agrees_with_batch_of_one_witness :
  validateMint (JObj [ ("course", JStr "c1"); ("asset_name", JStr "A");
                       ("metadata", JObj [("name", JStr "A")]); ("receiver", JStr "r1") ])
  = None
  /\ mintTrace (mintHandler host
                  (fun _ => {| mintResponse := None; mintTrace := [NewBlockfrostProvider] |})
                  (JObj [ ("course", JStr "c1"); ("asset_name", JStr "A");
                          ("metadata", JObj [("name", JStr "A")]); ("receiver", JStr "r1") ]))
     = trace (batchMint host
                (JObj [ ("course", JStr "c1");
                        ("items",
                         JArr [ JObj [ ("course", JStr "c1"); ("asset_name", JStr "A");
                                       ("metadata", JObj [("name", JStr "A")]);
                                       ("receiver", JStr "r1") ] ]) ])).
Proof.
  assert (Hval : validateMint
                   (JObj [ ("course", JStr "c1"); ("asset_name", JStr "A");
                           ("metadata", JObj [("name", JStr "A")]); ("receiver", JStr "r1") ])
                 = None) by reflexivity.
  split; [exact Hval|].
  exact (proj1 (proj2 (mint_handler_agrees_with_batch_of_one host
                  (fun _ => {| mintResponse := None; mintTrace := [NewBlockfrostProvider] |})
                  [ ("course", JStr "c1"); ("asset_name", JStr "A");
                    ("metadata", JObj [("name", JStr "A")]); ("receiver", JStr "r1") ]
                  "c1" "1"
                  {| m_assetName := "A"; m_metadata := [("name", "A")];
                     m_quantity := Some "1"; m_receiver := Some "r1" |}
                  Hval eq_refl (or_introl (conj eq_refl eq_refl)) eq_refl))).
Defined.


(** X23 on three new assets whose callbacks resume in another order. *)
Lemma mint_new_creates_reference_tokens_witness :
  allExistOf adapterFresh threeNew = false
  /\ exists added,
      snd (mint adapterFresh threeNew None threeNewResumed []) = [] ++ added
      /\ List.length (filter isDatum added) = List.length threeNewResumed.
Proof.
  assert (Hrun : mint adapterFresh threeNew None threeNewResumed []
                 = (Ok (match fst (mint adapterFresh threeNew None threeNewResumed []) with
                        | Ok tx => tx
                        | Err _ => ""
                        end),
                    snd (mint adapterFresh threeNew None threeNewResumed [])))
    by (vm_compute; reflexivity).
  assert (Hnew : allExistOf adapterFresh threeNew = false) by (vm_compute; reflexivity).
  split; [exact Hnew|].
  destruct (mint_new_creates_reference_tokens _ _ _ _ _ _ _ Hrun Hnew)
    as (added & Hlog & _ & _ & Hcount & _).
  exists added. split; assumption.
Defined.

(** X24 on the chain where "A" is active and owned by the wallet. *)
Lemma mint_existing_adds_user_tokens_only_witness :
  allExistOf adapterA [mintParam "A" "3" "r1"] = true
  /\ exists added,
      snd (mint adapterA [mintParam "A" "3" "r1"] None [mintParam "A" "3" "r1"] []) = [] ++ added
      /\ filter isDatum added = [].
Proof.
  assert (Hrun : mint adapterA [mintParam "A" "3" "r1"] None [mintParam "A" "3" "r1"] []
                 = (Ok (match fst (mint adapterA [mintParam "A" "3" "r1"] None
                                        [mintParam "A" "3" "r1"] []) with
                        | Ok tx => tx
                        | Err _ => ""
                        end),
                    snd (mint adapterA [mintParam "A" "3" "r1"] None
                              [mintParam "A" "3" "r1"] [])))
    by (vm_compute; reflexivity).
  assert (Hex : allExistOf adapterA [mintParam "A" "3" "r1"] = true)
    by (vm_compute; reflexivity).
  split; [exact Hex|].
  destruct (mint_existing_adds_user_tokens_only _ _ _ _ _ _ _ Hrun Hex)
    as (added & Hlog & _ & _ & _ & Hnone).
  exists added. split; assumption.
Defined.
